(** * Credential and session guard of the hospital management server

    A shallow embedding of the authentication middleware
    (server/middleware/authMiddleware.js: [authenticateToken],
    [handleFailedLogin], [resetFailedAttempts], [createSession], [logout],
    [authRateLimit]) and of the routes of server/routes/authRoutes.js that
    use it (POST /login, GET /me, POST /logout, POST /enable-2fa,
    POST /verify-2fa-setup, POST /disable-2fa).

    The relational table [users] is a list of rows, the Redis instance is a
    finite map from string keys to values with an optional expiry, and every
    handler is a computation in a state-and-exception monad over the two,
    which also records the queries, Redis commands and audit events it
    issues. Each request is served at one instant [now] (milliseconds since
    the epoch). The Redis client is taken to return promises and to run the
    commands GET, SETEX, DEL, INCR and EXPIRE as Redis defines them. bcrypt,
    jsonwebtoken, speakeasy, qrcode and express-validator are libraries
    outside the repository: their functions are the fields of the class
    [Platform]. The application-wide limiter that server.js puts in front of
    every route (express-rate-limit) is outside the model, as are
    POST /register and POST /change-password. *)

From Stdlib Require Import ZArith Ascii String DecimalString DecimalZ.
From stdpp Require Import base option list strings gmap.

Local Open Scope string_scope.
Local Open Scope Z_scope.

(** ** JSON values, responses, exceptions *)

#[warnings="-register-all"]
Inductive JSON : Type :=
| JNull
| JBool (b : bool)
| JNum (n : Z)
| JStr (s : string)
| JArr (items : list JSON)
| JObj (fields : list (string * JSON)).

(** [obj.key] on a plain object; [None] is JavaScript's [undefined]. *)
Fixpoint obj_get (key : string) (fields : list (string * JSON)) : option JSON :=
  match fields with
  | [] => None
  | (k, v) :: rest => if String.eqb k key then Some v else obj_get key rest
  end.

(** [delete obj.key]. *)
Fixpoint obj_delete (key : string) (fields : list (string * JSON))
  : list (string * JSON) :=
  match fields with
  | [] => []
  | (k, v) :: rest =>
      if String.eqb k key then obj_delete key rest
      else (k, v) :: obj_delete key rest
  end.

(** Does some object nested anywhere inside [j] carry the property [key]? *)
Fixpoint json_mentions (key : string) (j : JSON) : bool :=
  match j with
  | JArr items =>
      (fix any (l : list JSON) : bool :=
         match l with
         | [] => false
         | x :: l' => json_mentions key x || any l'
         end) items
  | JObj fields =>
      (fix any (l : list (string * JSON)) : bool :=
         match l with
         | [] => false
         | (k, v) :: l' => String.eqb k key || json_mentions key v || any l'
         end) fields
  | _ => false
  end.

Definition json_get (key : string) (j : JSON) : option JSON :=
  match j with
  | JObj fields => obj_get key fields
  | _ => None
  end.

Record Response : Type := mkResponse { status : Z; json : JSON }.

(** A thrown JavaScript error: [error.name] and [error.message]. *)
Record Exn : Type := mkExn { name : string; message : string }.

(** A nullable string rendered into a JSON payload. *)
Definition opt_str (o : option string) : JSON :=
  match o with
  | Some s => JStr s
  | None => JNull
  end.

(** JavaScript truthiness of a value that is a string, [null] or [undefined]. *)
Definition truthy (o : option string) : bool :=
  match o with
  | Some s => negb (String.eqb s "")
  | None => false
  end.

(** ** Decimal numerals

    Redis keeps counters as decimal strings: INCR writes [string_of_Z n],
    and [parseInt] reads such a string back. On any other string this
    [parseInt] is NaN ([None]); no comparison with NaN holds. *)

Definition string_of_Z (n : Z) : string := NilZero.string_of_int (Z.to_int n).

Definition parseInt (s : string) : option Z :=
  Z.of_int <$> NilZero.int_of_string s.

(** [authHeader.split(' ')]. *)
Fixpoint split_space (s : string) : list string :=
  match s with
  | EmptyString => [EmptyString]
  | String c rest =>
      if Ascii.eqb c " "%char then EmptyString :: split_space rest
      else
        match split_space rest with
        | [] => [String c EmptyString]
        | w :: ws => String c w :: ws
        end
  end.

(** ** Tables *)

(** A row of [users] (database/schema.sql); timestamps are in milliseconds. *)
Record User : Type := mkUser {
  id : string;
  username : string;
  email : string;
  password_hash : string;
  role : string;
  is_active : bool;
  last_login : option Z;
  failed_login_attempts : option Z;
  locked_until : option Z;
  two_factor_enabled : bool;
  two_factor_secret : option string;
  created_at : option Z;
  updated_at : option Z;
  deleted_at : option Z
}.

(** A row of [staff], joined to a user through [user_id]. *)
Record Staff : Type := mkStaff {
  s_id : string;
  s_user_id : option string;
  s_employee_id : string;
  s_first_name : string;
  s_last_name : string;
  s_middle_name : option string;
  s_date_of_birth : option string;
  s_gender : option string;
  s_phone : option string;
  s_emergency_contact : option string;
  s_address : option string;
  s_department : option string;
  s_designation : option string;
  s_specialization : option string;
  s_license_number : option string;
  s_hire_date : option string;
  s_salary : option string;
  s_is_active : bool;
  s_created_at : option Z;
  s_updated_at : option Z
}.

(** A Redis value with the instant at which the key expires, if any. *)
Record RedisEntry : Type := mkEntry { value : string; expires_at : option Z }.

(** What a handler does to the outside world, newest first. *)
Inductive Event : Type :=
| EvRedis (command key : string)
| EvFindOne (by_email : string)
| EvFindByPk (pk : string)
| EvUpdate (pk : string)
| EvSecurity (event : string) (userId : option string) (details : JSON).

Record World : Type := mkWorld {
  users : list User;
  staff : list Staff;
  redis : gmap string RedisEntry;
  trace : list Event
}.

(** An HTTP request as the handlers see it, with the instant at which it is
    served and the faults the stores raise while it is served. *)
Record Req : Type := mkReq {
  ip : string;
  user_agent : option string;
  authorization : option string;
  now : Z;
  redis_fault : string -> string -> option Exn;
  db_fault : option Exn
}.

(** ** Library functions

    [jwt_parse token] is [None] for a string that is not a JSON web token,
    and otherwise gives the claims the token carries and the secret under
    which its signature verifies. *)

Record JwtClaims : Type := mkClaims {
  userId : string;
  claim_role : string;
  iat : Z;
  exp : Z
}.

Class Platform : Type := {
  bcrypt_compare : string -> string -> bool;
  speakeasy_totp_verify : option string -> string -> Z -> Z -> bool;
  speakeasy_otpauthURL : string -> string -> string;
  QRCode_toDataURL : string -> Exn + string;
  jwt_sign : string -> string -> string -> string -> Z -> string;
  jwt_parse : string -> option (JwtClaims * string);
  isEmail : string -> bool;
  normalizeEmail : string -> string;
  JSON_stringify : JSON -> string;
  toISOString : Z -> string;
  env_JWT_SECRET : option string;
  env_JWT_EXPIRES_IN : option string
}.

(** ** The monad of handlers: state, and exceptions that keep the state *)

Inductive Outcome (A : Type) : Type :=
| Returned (a : A)
| Thrown (e : Exn).
Arguments Returned {A} a.
Arguments Thrown {A} e.

Definition M (A : Type) : Type := World -> World * Outcome A.

Definition ret {A} (a : A) : M A := fun w => (w, Returned a).

Definition throw {A} (e : Exn) : M A := fun w => (w, Thrown e).

Definition bind {A B} (m : M A) (k : A -> M B) : M B :=
  fun w =>
    match m w with
    | (w', Returned a) => k a w'
    | (w', Thrown e) => (w', Thrown e)
    end.

(** [try { m } catch (error) { h error }]. *)
Definition try_catch {A} (m : M A) (h : Exn -> M A) : M A :=
  fun w =>
    match m w with
    | (w', Returned a) => (w', Returned a)
    | (w', Thrown e) => h e w'
    end.

Declare Scope hms_scope.
Delimit Scope hms_scope with hms.
Notation "'let*' x ':=' m 'in' k" := (bind m (fun x => k))
  (at level 10, x name, m at level 100, k at level 200) : hms_scope.
Notation "m ';;' k" := (bind m (fun _ => k))
  (at level 100, k at level 200, right associativity) : hms_scope.
Local Open Scope hms_scope.

Definition emit (e : Event) : M unit :=
  fun w => (mkWorld (users w) (staff w) (redis w) (e :: trace w), Returned tt).

Definition set_users (f : list User -> list User) : M unit :=
  fun w => (mkWorld (f (users w)) (staff w) (redis w) (trace w), Returned tt).

Definition set_redis (f : gmap string RedisEntry -> gmap string RedisEntry)
  : M unit :=
  fun w => (mkWorld (users w) (staff w) (f (redis w)) (trace w), Returned tt).

Definition ask {A} (f : World -> A) : M A := fun w => (w, Returned (f w)).

(** The result of a middleware: a response, or [next()] with what it
    attached to the request. *)
Inductive Mw (A : Type) : Type :=
| Respond (r : Response)
| Next (a : A).
Arguments Respond {A} r.
Arguments Next {A} a.

(** ** Redis commands *)

Definition live (t : Z) (e : RedisEntry) : bool :=
  match expires_at e with
  | Some deadline => t <? deadline
  | None => true
  end.

(** The entry a command sees under [key] at instant [t]. *)
Definition redis_lookup (t : Z) (key : string) (store : gmap string RedisEntry)
  : option RedisEntry :=
  match store !! key with
  | Some e => if live t e then Some e else None
  | None => None
  end.

Definition redis_command {A} (req : Req) (command key : string) (m : M A) : M A :=
  emit (EvRedis command key);;
  match redis_fault req command key with
  | Some e => throw e
  | None => m
  end.

Definition redis_get (req : Req) (key : string) : M (option string) :=
  redis_command req "get" key
    (ask (fun w => value <$> redis_lookup (now req) key (redis w))).

Definition redis_setex (req : Req) (key : string) (seconds : Z) (v : string)
  : M unit :=
  redis_command req "setex" key
    (set_redis (fun store =>
       <[key := mkEntry v (Some (now req + seconds * 1000))]> store)).

Definition redis_del (req : Req) (key : string) : M unit :=
  redis_command req "del" key (set_redis (fun store => delete key store)).

(** INCR: a missing key counts from 0 and gets no expiry; a value that is
    not a numeral is left as it is. *)
Definition incr_entry (t : Z) (key : string) (store : gmap string RedisEntry)
  : gmap string RedisEntry :=
  match redis_lookup t key store with
  | Some e =>
      match parseInt (value e) with
      | Some n => <[key := mkEntry (string_of_Z (n + 1)) (expires_at e)]> store
      | None => store
      end
  | None => <[key := mkEntry (string_of_Z 1) None]> store
  end.

(** EXPIRE: only a key that exists gets the new deadline. *)
Definition expire_entry (t : Z) (key : string) (seconds : Z)
  (store : gmap string RedisEntry) : gmap string RedisEntry :=
  match redis_lookup t key store with
  | Some e => <[key := mkEntry (value e) (Some (t + seconds * 1000))]> store
  | None => store
  end.

(** [redisClient.multi().incr(key).expire(key, seconds).exec()]. *)
Definition redis_multi_incr_expire (req : Req) (key : string) (seconds : Z)
  : M unit :=
  redis_command req "multi" key
    (set_redis (fun store =>
       expire_entry (now req) key seconds (incr_entry (now req) key store))).

(** ** Sequelize queries on [users]

    The connection is configured with [paranoid: true]: a row whose
    [deleted_at] is set is invisible to queries. The columns [created_at] and
    [updated_at] are carried along; their upkeep by the ORM is not modelled. *)

Definition visible (u : User) : bool :=
  match deleted_at u with
  | Some _ => false
  | None => true
  end.

(** A model instance: the row, the attributes the query excluded, and the
    associated staff row when the query included it. *)
Record Instance : Type := mkInstance {
  row : User;
  hidden : list string;
  included_staff : option (option Staff)
}.

Definition staff_for (uid : string) (rows : list Staff) : option Staff :=
  List.find (fun s => bool_decide (s_user_id s = Some uid)) rows.

Definition include_staff (inc : bool) (w : World) (u : User)
  : option (option Staff) :=
  if inc then Some (staff_for (id u) (staff w)) else None.

Definition db_query {A} (req : Req) (ev : Event) (m : M A) : M A :=
  emit ev;;
  match db_fault req with
  | Some e => throw e
  | None => m
  end.

(** [where: { email, is_active: true }] and [where: { id }]. *)
Definition where_email (mail : string) (u : User) : bool :=
  visible u && String.eqb (email u) mail && is_active u.

Definition where_pk (pk : string) (u : User) : bool :=
  visible u && String.eqb (id u) pk.

(** [User.findOne({ where: { email, is_active: true }, include: staff })]. *)
Definition User_findOne (req : Req) (mail : string) : M (option Instance) :=
  db_query req (EvFindOne mail)
    (ask (fun w =>
       (fun u => mkInstance u [] (include_staff true w u)) <$>
       List.find (where_email mail) (users w))).

(** [User.findByPk(pk, { include, attributes: { exclude } })]. *)
Definition User_findByPk (req : Req) (pk : string) (inc : bool)
  (exclude : list string) : M (option Instance) :=
  db_query req (EvFindByPk pk)
    (ask (fun w =>
       (fun u => mkInstance u exclude (include_staff inc w u)) <$>
       List.find (where_pk pk) (users w))).

Definition update_rows (pk : string) (only_visible : bool) (f : User -> User)
  (rows : list User) : list User :=
  List.map (fun u =>
    if String.eqb (id u) pk && (negb only_visible || visible u) then f u else u)
    rows.

(** [user.update(values)] on an instance: UPDATE ... WHERE id = user.id. *)
Definition instance_update (req : Req) (inst : Instance) (f : User -> User)
  : M unit :=
  db_query req (EvUpdate (id (row inst)))
    (set_users (update_rows (id (row inst)) false f)).

(** [User.update(values, { where: { id } })]. *)
Definition User_update (req : Req) (pk : string) (f : User -> User) : M unit :=
  db_query req (EvUpdate pk) (set_users (update_rows pk true f)).

(** The values the handlers write. *)
Definition set_lockout (attempts : option Z) (until : option Z) (u : User)
  : User :=
  mkUser (id u) (username u) (email u) (password_hash u) (role u) (is_active u)
    (last_login u) attempts until (two_factor_enabled u) (two_factor_secret u)
    (created_at u) (updated_at u) (deleted_at u).

Definition set_failed_login_attempts (attempts : Z) (u : User) : User :=
  set_lockout (Some attempts) (locked_until u) u.

Definition set_last_login (t : Z) (u : User) : User :=
  mkUser (id u) (username u) (email u) (password_hash u) (role u) (is_active u)
    (Some t) (failed_login_attempts u) (locked_until u) (two_factor_enabled u)
    (two_factor_secret u) (created_at u) (updated_at u) (deleted_at u).

Definition set_two_factor (enabled : bool) (secret : option string) (u : User)
  : User :=
  mkUser (id u) (username u) (email u) (password_hash u) (role u) (is_active u)
    (last_login u) (failed_login_attempts u) (locked_until u) enabled secret
    (created_at u) (updated_at u) (deleted_at u).

Definition set_password_hash (h : string) (u : User) : User :=
  mkUser (id u) (username u) (email u) h (role u) (is_active u)
    (last_login u) (failed_login_attempts u) (locked_until u)
    (two_factor_enabled u) (two_factor_secret u)
    (created_at u) (updated_at u) (deleted_at u).

(** [user.locked_until && new Date() < user.locked_until]. *)
Definition is_locked (t : Z) (u : User) : bool :=
  match locked_until u with
  | Some until => t <? until
  | None => false
  end.

(** [process.env.X || fallback]. *)
Definition env_or (o : option string) (fallback : string) : string :=
  match o with
  | Some s => if String.eqb s "" then fallback else s
  | None => fallback
  end.

Definition fail (code : Z) (msg : string) : Response :=
  mkResponse code (JObj [("success", JBool false); ("message", JStr msg)]).

Definition fail_with (code : Z) (msg : string) (e : Exn) : Response :=
  mkResponse code
    (JObj [("success", JBool false); ("message", JStr msg);
           ("error", JStr (message e))]).

Definition logSecurityEvent (event : string) (uid : option string)
  (details : JSON) : M unit :=
  emit (EvSecurity event uid details).

Definition request_details (req : Req) : JSON :=
  JObj [("ip", JStr (ip req)); ("userAgent", opt_str (user_agent req))].

Section Guard.
Context `{Platform}.

(** ** Serialization of instances *)

Definition date_json (o : option Z) : JSON :=
  match o with
  | Some t => JStr (toISOString t)
  | None => JNull
  end.

Definition num_json (o : option Z) : JSON :=
  match o with
  | Some n => JNum n
  | None => JNull
  end.

Definition user_fields (u : User) : list (string * JSON) :=
  [("id", JStr (id u));
   ("username", JStr (username u));
   ("email", JStr (email u));
   ("password_hash", JStr (password_hash u));
   ("role", JStr (role u));
   ("is_active", JBool (is_active u));
   ("last_login", date_json (last_login u));
   ("failed_login_attempts", num_json (failed_login_attempts u));
   ("locked_until", date_json (locked_until u));
   ("two_factor_enabled", JBool (two_factor_enabled u));
   ("two_factor_secret", opt_str (two_factor_secret u));
   ("created_at", date_json (created_at u));
   ("updated_at", date_json (updated_at u));
   ("deleted_at", date_json (deleted_at u))].

Definition staff_json (s : Staff) : JSON :=
  JObj
    [("id", JStr (s_id s));
     ("user_id", opt_str (s_user_id s));
     ("employee_id", JStr (s_employee_id s));
     ("first_name", JStr (s_first_name s));
     ("last_name", JStr (s_last_name s));
     ("middle_name", opt_str (s_middle_name s));
     ("date_of_birth", opt_str (s_date_of_birth s));
     ("gender", opt_str (s_gender s));
     ("phone", opt_str (s_phone s));
     ("emergency_contact", opt_str (s_emergency_contact s));
     ("address", opt_str (s_address s));
     ("department", opt_str (s_department s));
     ("designation", opt_str (s_designation s));
     ("specialization", opt_str (s_specialization s));
     ("license_number", opt_str (s_license_number s));
     ("hire_date", opt_str (s_hire_date s));
     ("salary", opt_str (s_salary s));
     ("is_active", JBool (s_is_active s));
     ("created_at", date_json (s_created_at s));
     ("updated_at", date_json (s_updated_at s))].

(** [user.toJSON()]: the attributes the query kept, then the association. *)
Definition toJSON (inst : Instance) : list (string * JSON) :=
  fold_right obj_delete (user_fields (row inst)) (hidden inst)
  ++ match included_staff inst with
     | Some (Some s) => [("staff", staff_json s)]
     | Some None => [("staff", JNull)]
     | None => []
     end.

(** ** authMiddleware.js *)

Definition jwt_secret : string := env_or env_JWT_SECRET "hms-jwt-secret".

Definition generateToken (uid role : string) (t : Z) : string :=
  jwt_sign uid role jwt_secret (env_or env_JWT_EXPIRES_IN "24h") t.

(** [jwt.verify(token, secret)]: structure, then signature, then expiry
    against the clock in whole seconds. *)
Definition jwt_verify (token : string) (t : Z) : M JwtClaims :=
  match jwt_parse token with
  | None => throw (mkExn "JsonWebTokenError" "jwt malformed")
  | Some (claims, signed_with) =>
      if negb (String.eqb signed_with jwt_secret)
      then throw (mkExn "JsonWebTokenError" "invalid signature")
      else if t / 1000 >=? exp claims
      then throw (mkExn "TokenExpiredError" "jwt expired")
      else ret claims
  end.

(** [authHeader && authHeader.split(' ')[1]]. *)
Definition bearer_token (req : Req) : option string :=
  match authorization req with
  | Some header =>
      if String.eqb header "" then Some "" else split_space header !! 1%nat
  | None => None
  end.

(** What [authenticateToken] attaches to the request. *)
Record Authenticated : Type := mkAuthenticated {
  req_user : Instance;
  req_token : string
}.

Definition authenticateToken (req : Req) : M (Mw Authenticated) :=
  try_catch
    (let token := bearer_token req in
     if negb (truthy token) then ret (Respond (fail 401 "Access token required"))
     else
       let token := default "" token in
       let* isBlacklisted := redis_get req ("blacklist:" +:+ token) in
       if truthy isBlacklisted
       then ret (Respond (fail 401 "Token has been invalidated"))
       else
         let* decoded := jwt_verify token (now req) in
         let* user := User_findByPk req (userId decoded) true ["password_hash"] in
         match user with
         | None => ret (Respond (fail 401 "User not found or inactive"))
         | Some user =>
             if negb (is_active (row user))
             then ret (Respond (fail 401 "User not found or inactive"))
             else if is_locked (now req) (row user)
             then ret (Respond (fail 423 "Account is temporarily locked"))
             else ret (Next (mkAuthenticated user token))
         end)
    (fun error =>
       if String.eqb (name error) "TokenExpiredError"
       then ret (Respond (fail 401 "Token has expired"))
       else if String.eqb (name error) "JsonWebTokenError"
       then ret (Respond (fail 401 "Invalid token"))
       else ret (Respond (fail 500 "Authentication error"))).

Definition verifyPassword (password hashed : string) : bool :=
  bcrypt_compare password hashed.

Definition verifyTwoFactorToken (token : string) (secret : option string)
  (t : Z) : bool :=
  speakeasy_totp_verify secret token 2 t.

Definition handleFailedLogin (req : Req) (uid : string) : M unit :=
  let* user := User_findByPk req uid false [] in
  match user with
  | None => ret tt
  | Some user =>
      let failedAttempts := default 0 (failed_login_attempts (row user)) + 1 in
      let maxAttempts := 5 in
      let lockoutDuration := 30 * 60 * 1000 in
      if failedAttempts >=? maxAttempts then
        instance_update req user
          (set_lockout (Some failedAttempts) (Some (now req + lockoutDuration)));;
        logSecurityEvent "account_locked" (Some uid)
          (JObj [("reason", JStr "too_many_failed_attempts");
                 ("attempts", JNum failedAttempts)])
      else
        instance_update req user (set_failed_login_attempts failedAttempts)
  end.

Definition resetFailedAttempts (req : Req) (uid : string) : M unit :=
  User_update req uid
    (fun u => set_last_login (now req) (set_lockout (Some 0) None u)).

Definition createSession (req : Req) (uid token : string) : M unit :=
  let sessionData :=
    JObj [("userId", JStr uid); ("token", JStr token); ("ip", JStr (ip req));
          ("userAgent", opt_str (user_agent req));
          ("createdAt", JStr (toISOString (now req)))] in
  redis_setex req ("session:" +:+ uid +:+ ":" +:+ token) (24 * 60 * 60)
    (JSON_stringify sessionData).

Definition logout (req : Req) (auth : Authenticated) : M Response :=
  try_catch
    (let token := req_token auth in
     let uid := id (row (req_user auth)) in
     let* decoded :=
       match jwt_parse token with
       | Some (claims, _) => ret claims
       | None => throw (mkExn "TypeError" "Cannot read properties of null")
       end in
     let expiresIn := exp decoded - now req / 1000 in
     (if expiresIn >? 0
      then redis_setex req ("blacklist:" +:+ token) expiresIn "true"
      else ret tt);;
     redis_del req ("session:" +:+ uid +:+ ":" +:+ token);;
     logSecurityEvent "user_logout" (Some uid) (request_details req);;
     ret (mkResponse 200
            (JObj [("success", JBool true);
                   ("message", JStr "Logged out successfully")])))
    (fun _ => ret (fail 500 "Logout failed")).

(** [current && parseInt(current) >= maxAttempts]. *)
Definition at_ceiling (current : option string) (maxAttempts : Z) : bool :=
  truthy current &&
  match current ≫= parseInt with
  | Some n => n >=? maxAttempts
  | None => false
  end.

Definition authRateLimit (req : Req) : M (Mw unit) :=
  let key := "auth_rate_limit:" +:+ ip req in
  let maxAttempts := 10 in
  let windowMs := 15 * 60 * 1000 in
  try_catch
    (let* current := redis_get req key in
     if at_ceiling current maxAttempts
     then ret (Respond (fail 429
             "Too many authentication attempts. Please try again later."))
     else
       redis_multi_incr_expire req key (windowMs / 1000);;
       ret (Next tt))
    (fun _ => ret (Next tt)).

(** ** authRoutes.js *)

Record LoginBody : Type := mkLoginBody {
  body_email : string;
  body_password : string;
  twoFactorToken : option string
}.

Definition validation_error (param msg : string) : JSON :=
  JObj [("msg", JStr msg); ("param", JStr param); ("location", JStr "body")].

Definition str_length (s : string) : Z := Z.of_nat (String.length s).

(** The validation chain of POST /login, as [validationResult(req).array()]. *)
Definition login_validation (b : LoginBody) : list JSON :=
  (if isEmail (body_email b) then []
   else [validation_error "email" "Valid email required"])
  ++ (if 6 <=? str_length (body_password b) then []
      else [validation_error "password"
              "Password must be at least 6 characters"])
  ++ match twoFactorToken b with
     | Some code =>
         if (6 <=? str_length code) && (str_length code <=? 6) then []
         else [validation_error "twoFactorToken" "2FA token must be 6 digits"]
     | None => []
     end.

Definition validation_failed (errors : list JSON) : Response :=
  mkResponse 400
    (JObj [("success", JBool false); ("message", JStr "Validation failed");
           ("errors", JArr errors)]).

(** [Math.ceil((user.locked_until - new Date()) / 60000)]. *)
Definition lockTimeRemaining (until t : Z) : Z := - ((- (until - t)) / 60000).

(** The tail of the login handler, from "Generate JWT token" on. *)
Definition login_success (req : Req) (user : Instance) : M Response :=
  let token := generateToken (id (row user)) (role (row user)) (now req) in
  resetFailedAttempts req (id (row user));;
  createSession req (id (row user)) token;;
  logSecurityEvent "login_successful" (Some (id (row user)))
    (request_details req);;
  let userData := toJSON user in
  let userData := obj_delete "password_hash" userData in
  let userData := obj_delete "two_factor_secret" userData in
  ret (mkResponse 200
         (JObj [("success", JBool true);
                ("data", JObj [("token", JStr token); ("user", JObj userData)]);
                ("message", JStr "Login successful")])).

Definition login_handler (req : Req) (b : LoginBody) : M Response :=
  try_catch
    (let errors := login_validation b in
     if negb (bool_decide (errors = [])) then ret (validation_failed errors)
     else
       let mail := normalizeEmail (body_email b) in
       let password := body_password b in
       let* user := User_findOne req mail in
       match user with
       | None =>
           logSecurityEvent "login_attempt_invalid_user" None
             (JObj [("email", JStr mail); ("ip", JStr (ip req));
                    ("userAgent", opt_str (user_agent req))]);;
           ret (fail 401 "Invalid credentials")
       | Some user =>
           if is_locked (now req) (row user) then
             ret (fail 423
                    ("Account locked. Try again in " +:+
                     string_of_Z
                       (lockTimeRemaining (default 0 (locked_until (row user)))
                          (now req)) +:+
                     " minutes."))
           else if negb (verifyPassword password (password_hash (row user)))
           then
             handleFailedLogin req (id (row user));;
             logSecurityEvent "login_attempt_invalid_password"
               (Some (id (row user))) (request_details req);;
             ret (fail 401 "Invalid credentials")
           else if two_factor_enabled (row user) then
             if negb (truthy (twoFactorToken b)) then
               ret (mkResponse 200
                      (JObj [("success", JBool true);
                             ("data",
                              JObj [("twoFactorRequired", JBool true);
                                    ("message",
                                     JStr "Two-factor authentication required")])]))
             else if negb (verifyTwoFactorToken (default "" (twoFactorToken b))
                             (two_factor_secret (row user)) (now req))
             then
               logSecurityEvent "login_attempt_invalid_2fa"
                 (Some (id (row user))) (request_details req);;
               ret (fail 401 "Invalid two-factor authentication code")
             else login_success req user
           else login_success req user
       end)
    (fun error => ret (fail_with 500 "Login failed" error)).

(** A route is its middleware chain: the handler runs when every middleware
    before it called [next()]. *)
Definition route {A} (mw : M (Mw A)) (handler : A -> M Response) : M Response :=
  let* r := mw in
  match r with
  | Respond resp => ret resp
  | Next a => handler a
  end.

(** [router.post('/login', authRateLimit, [validators], handler)]. *)
Definition post_login (req : Req) (b : LoginBody) : M Response :=
  route (authRateLimit req) (fun _ => login_handler req b).

(** [router.post('/logout', authenticateToken, logout)]. *)
Definition post_logout (req : Req) : M Response :=
  route (authenticateToken req) (logout req).

(** [router.get('/me', authenticateToken, handler)]. *)
Definition get_me (req : Req) : M Response :=
  route (authenticateToken req) (fun auth =>
    try_catch
      (let* user := User_findByPk req (id (row (req_user auth))) true
                      ["password_hash"; "two_factor_secret"] in
       ret (mkResponse 200
              (JObj [("success", JBool true);
                     ("data", match user with
                              | Some user => JObj (toJSON user)
                              | None => JNull
                              end)])))
      (fun error => ret (fail_with 500 "Failed to fetch user profile" error))).

(** [router.post('/enable-2fa', authenticateToken, handler)]; [secret] is
    the base32 secret [speakeasy.generateSecret] draws for this request. *)
Definition post_enable_2fa (req : Req) (secret : string) : M Response :=
  route (authenticateToken req) (fun auth =>
    try_catch
      (let* user := User_findByPk req (id (row (req_user auth))) false [] in
       match user with
       | None => throw (mkExn "TypeError" "Cannot read properties of null")
       | Some user =>
           if two_factor_enabled (row user) then
             ret (fail 400 "Two-factor authentication is already enabled")
           else
             let qrCodeUrl := speakeasy_otpauthURL secret (email (row user)) in
             match QRCode_toDataURL qrCodeUrl with
             | inl e => throw e
             | inr qrCodeImage =>
                 instance_update req user
                   (fun u => set_two_factor (two_factor_enabled u) (Some secret) u);;
                 ret (mkResponse 200
                        (JObj [("success", JBool true);
                               ("data", JObj [("secret", JStr secret);
                                              ("qrCode", JStr qrCodeImage);
                                              ("manualEntryKey", JStr secret)]);
                               ("message",
                                JStr "Scan QR code with your authenticator app and verify to enable 2FA")]))
             end
       end)
      (fun error => ret (fail_with 500 "Failed to enable 2FA" error))).

(** [router.post('/verify-2fa-setup', authenticateToken, [validators], handler)]. *)
Definition post_verify_2fa_setup (req : Req) (code : string) : M Response :=
  route (authenticateToken req) (fun auth =>
    try_catch
      (if negb ((6 <=? str_length code) && (str_length code <=? 6)) then
         ret (validation_failed
                [validation_error "token" "6-digit token required"])
       else
         let* user := User_findByPk req (id (row (req_user auth))) false [] in
         match user with
         | None => throw (mkExn "TypeError" "Cannot read properties of null")
         | Some user =>
             if negb (truthy (two_factor_secret (row user))) then
               ret (fail 400 "Two-factor authentication setup not initiated")
             else if negb (verifyTwoFactorToken code
                             (two_factor_secret (row user)) (now req))
             then ret (fail 401 "Invalid verification code")
             else
               instance_update req user
                 (fun u => set_two_factor true (two_factor_secret u) u);;
               logSecurityEvent "2fa_enabled" (Some (id (row user)))
                 (request_details req);;
               ret (mkResponse 200
                      (JObj [("success", JBool true);
                             ("message",
                              JStr "Two-factor authentication enabled successfully")]))
         end)
      (fun error => ret (fail_with 500 "Failed to verify 2FA setup" error))).

(** [router.post('/disable-2fa', authenticateToken, [validators], handler)]. *)
Definition post_disable_2fa (req : Req) (password : string) : M Response :=
  route (authenticateToken req) (fun auth =>
    try_catch
      (if String.eqb password "" then
         ret (validation_failed
                [validation_error "password" "Password required to disable 2FA"])
       else
         let* user := User_findByPk req (id (row (req_user auth))) false [] in
         match user with
         | None => throw (mkExn "TypeError" "Cannot read properties of null")
         | Some user =>
             if negb (verifyPassword password (password_hash (row user))) then
               ret (fail 401 "Invalid password")
             else
               instance_update req user (set_two_factor false None);;
               logSecurityEvent "2fa_disabled" (Some (id (row user)))
                 (request_details req);;
               ret (mkResponse 200
                      (JObj [("success", JBool true);
                             ("message",
                              JStr "Two-factor authentication disabled successfully")]))
         end)
      (fun error => ret (fail_with 500 "Failed to disable 2FA" error))).

(** ** Vocabulary of the statements *)

Definition rate_key (req : Req) : string := "auth_rate_limit:" +:+ ip req.

(** The count the limiter reads for the caller's address, when the read
    succeeds. *)
Definition rate_reading (req : Req) (w : World) : option string :=
  value <$> redis_lookup (now req) (rate_key req) (redis w).

Definition blacklist_key (token : string) : string := "blacklist:" +:+ token.

(** What [authenticateToken] reads under the token's denylist key, when the
    read succeeds. *)
Definition blacklist_reading (req : Req) (token : string) (w : World)
  : option string :=
  value <$> redis_lookup (now req) (blacklist_key token) (redis w).

(** The reasons for which a bearer token is turned down. *)
Inductive Rejection : Type :=
| MissingToken
| RevokedToken
| MalformedToken
| InvalidSignature
| ExpiredToken.

(** [rejected_for why req w]: the request meets the check that turns it down
    for [why], having passed the checks before it. *)
Definition rejected_for (why : Rejection) (req : Req) (w : World) : Prop :=
  match why with
  | MissingToken => truthy (bearer_token req) = false
  | _ =>
      exists token,
        bearer_token req = Some token /\ truthy (Some token) = true /\
        redis_fault req "get" (blacklist_key token) = None /\
        match why with
        | RevokedToken => truthy (blacklist_reading req token w) = true
        | MalformedToken =>
            truthy (blacklist_reading req token w) = false /\
            jwt_parse token = None
        | InvalidSignature =>
            truthy (blacklist_reading req token w) = false /\
            exists claims signed_with,
              jwt_parse token = Some (claims, signed_with) /\
              signed_with <> jwt_secret
        | _ =>
            truthy (blacklist_reading req token w) = false /\
            exists claims,
              jwt_parse token = Some (claims, jwt_secret) /\
              exp claims <= now req / 1000
        end
  end.

Definition rejection_message (why : Rejection) : string :=
  match why with
  | MissingToken => "Access token required"
  | RevokedToken => "Token has been invalidated"
  | MalformedToken | InvalidSignature => "Invalid token"
  | ExpiredToken => "Token has expired"
  end.

(** The account a login request addresses. *)
Definition account (w : World) (b : LoginBody) : option User :=
  List.find (where_email (normalizeEmail (body_email b))) (users w).

(** What one failed password check writes to the account row. *)
Definition failed_login_update (t : Z) (u : User) : User -> User :=
  let failedAttempts := default 0 (failed_login_attempts u) + 1 in
  if failedAttempts >=? 5
  then set_lockout (Some failedAttempts) (Some (t + 1800000))
  else set_failed_login_attempts failedAttempts.

(** What a fully successful login writes to the account row. *)
Definition successful_login_update (t : Z) (u : User) : User :=
  set_last_login t (set_lockout (Some 0) None u).

(** The second factor is not asked for, or the submitted code is right. *)
Definition second_factor_ok (req : Req) (b : LoginBody) (u : User) : bool :=
  negb (two_factor_enabled u) ||
  (truthy (twoFactorToken b) &&
   verifyTwoFactorToken (default "" (twoFactorToken b)) (two_factor_secret u)
     (now req)).

Definition session_key (uid token : string) : string :=
  "session:" +:+ uid +:+ ":" +:+ token.

(** Login requests reaching the handler one after the other. *)
Fixpoint run_logins (w : World) (attempts : list (Req * LoginBody))
  : World * list (Outcome Response) :=
  match attempts with
  | [] => (w, [])
  | (req, b) :: rest =>
      let (w1, r) := login_handler req b w in
      let (w2, rs) := run_logins w1 rest in
      (w2, r :: rs)
  end.

(** A well-formed login request for the account [mail], served while the
    database answers. *)
Definition addresses (mail : string) (a : Req * LoginBody) : Prop :=
  login_validation a.2 = [] /\
  normalizeEmail (body_email a.2) = mail /\
  db_fault a.1 = None.

(** Such a request with a password that does not match [hash]. *)
Definition wrong_password (mail hash : string) (a : Req * LoginBody) : Prop :=
  addresses mail a /\ verifyPassword (body_password a.2) hash = false.

(** Every response the computation returns satisfies [Q]. *)
Definition answers (Q : Response -> Prop) (m : M Response) : Prop :=
  forall w w' r, m w = (w', Returned r) -> Q r.

(** No object in the payload has a property named after a credential column. *)
Definition hides_credentials (r : Response) : Prop :=
  json_mentions "password_hash" (json r) = false /\
  json_mentions "two_factor_secret" (json r) = false.




(** Does the limiter turn the request down? A failed read lets it through. *)
Definition rate_limited (req : Req) (w : World) : bool :=
  match redis_fault req "get" (rate_key req) with
  | Some _ => false
  | None => at_ceiling (rate_reading req w) 10
  end.

(** The requests the guard serves, and a server working through a list of
    them. *)
Inductive Call : Type :=
| Login (b : LoginBody)
| Logout
| Me
| Enable2fa (secret : string)
| Verify2faSetup (code : string)
| Disable2fa (password : string).

Definition serve (req : Req) (c : Call) : M Response :=
  match c with
  | Login b => post_login req b
  | Logout => post_logout req
  | Me => get_me req
  | Enable2fa secret => post_enable_2fa req secret
  | Verify2faSetup code => post_verify_2fa_setup req code
  | Disable2fa password => post_disable_2fa req password
  end.

Fixpoint serve_all (w : World) (calls : list (Req * Call)) : World :=
  match calls with
  | [] => w
  | (req, c) :: rest => serve_all (serve req c w).1 rest
  end.

(** The computation keeps a property of the Redis store. *)
Definition keeps {A} (P : gmap string RedisEntry -> Prop) (m : M A) : Prop :=
  forall w, P (redis w) -> P (redis (m w).1).

(** The denylist holds [token] at least until the token's own expiry. *)
Definition denylisted (token : string) (expiry : Z)
  (store : gmap string RedisEntry) : Prop :=
  exists deadline,
    store !! blacklist_key token = Some (mkEntry "true" (Some deadline)) /\
    expiry * 1000 <= deadline.

(** A login request from address [addr], served within the fifteen minutes
    that start at [start] while the counter store answers the limiter. *)
Definition in_window (addr : string) (start : Z) (req : Req) : Prop :=
  ip req = addr /\
  start <= now req < start + 15 * 60 * 1000 /\
  redis_fault req "get" (rate_key req) = None /\
  redis_fault req "multi" (rate_key req) = None.

(** The limiter has counted [k] requests from [addr] in the window that
    starts at [start]; for [k = 0] no counter is live yet. *)
Definition counted (addr : string) (start k : Z)
  (store : gmap string RedisEntry) : Prop :=
  if k =? 0
  then redis_lookup start ("auth_rate_limit:" +:+ addr) store = None
  else exists deadline,
         store !! ("auth_rate_limit:" +:+ addr) =
           Some (mkEntry (string_of_Z k) (Some deadline)) /\
         start + 15 * 60 * 1000 <= deadline.

Definition logins (attempts : list (Req * LoginBody)) : list (Req * Call) :=
  List.map (fun a => (a.1, Login a.2)) attempts.

(** Is the call a login request from address [addr]? *)
Definition login_from (addr : string) (rc : Req * Call) : bool :=
  match rc.2 with
  | Login _ => String.eqb (ip rc.1) addr
  | _ => false
  end.

(** How many of the calls are login requests from [addr]. *)
Definition logins_from (addr : string) (calls : list (Req * Call)) : Z :=
  Z.of_nat (length (List.filter (login_from addr) calls)).

(** The reading of the rejection contract under which the caller cannot
    tell one rejection reason from another. *)
Definition rejections_indistinguishable : Prop :=
  forall why1 why2 req1 req2 w1 w2,
    rejected_for why1 req1 w1 -> rejected_for why2 req2 w2 ->
    (authenticateToken req1 w1).2 = (authenticateToken req2 w2).2.

End Guard.

(** ** The rest of the guard

    [authorize], and the routes POST /change-password and POST /register of
    authRoutes.js. [bcrypt.hash] draws a salt; the salt a request draws is an
    argument of its handler. *)

Class Hasher : Type := {
  bcrypt_hash : string -> Z -> string -> string
}.

Section GuardRest.
Context `{Platform} `{Hasher}.

(** [roles.includes(req.user.role)]. *)
Definition includes (roles : list string) (r : string) : bool :=
  existsb (String.eqb r) roles.

(** [authorize(...roles)] as a middleware; [endpoint] is [req.originalUrl]
    and [user] is [req.user]. *)
Definition authorize (roles : list string) (req : Req) (endpoint : string)
  (user : option Instance) : M (Mw unit) :=
  match user with
  | None => ret (Respond (fail 401 "Authentication required"))
  | Some user =>
      if negb (includes roles (role (row user))) then
        logSecurityEvent "unauthorized_access_attempt" (Some (id (row user)))
          (JObj [("ip", JStr (ip req));
                 ("userAgent", opt_str (user_agent req));
                 ("requiredRoles", JArr (List.map JStr roles));
                 ("userRole", JStr (role (row user)));
                 ("endpoint", JStr endpoint)]);;
        ret (Respond (fail 403 "Insufficient permissions"))
      else ret (Next tt)
  end.

(** A router mounted behind [authenticateToken] whose route starts with
    [authorize(...roles)], as the OPD and patient routers are: what reaches
    the handler. *)
Definition protected (roles : list string) (req : Req) (endpoint : string)
  : M (Mw Authenticated) :=
  let* r := authenticateToken req in
  match r with
  | Respond resp => ret (Respond resp)
  | Next auth =>
      let* a := authorize roles req endpoint (Some (req_user auth)) in
      match a with
      | Respond resp => ret (Respond resp)
      | Next _ => ret (Next auth)
      end
  end.

Definition hashPassword (password salt : string) : string :=
  let saltRounds := 12 in
  bcrypt_hash password saltRounds salt.

(** Character classes of the password pattern, on code units below 256. *)
Definition code (c : ascii) : Z := Z.of_N (N_of_ascii c).

Definition is_lower (c : ascii) : bool := (97 <=? code c) && (code c <=? 122).
Definition is_upper (c : ascii) : bool := (65 <=? code c) && (code c <=? 90).
Definition is_digit (c : ascii) : bool := (48 <=? code c) && (code c <=? 57).
Definition is_special (c : ascii) : bool :=
  existsb (Ascii.eqb c) ["@"; "$"; "!"; "%"; "*"; "?"; "&"]%char.
Definition is_line_terminator (c : ascii) : bool :=
  (code c =? 10) || (code c =? 13).

(** The characters [.*] can run over from the start of the string. *)
Fixpoint first_line (s : string) : string :=
  match s with
  | EmptyString => EmptyString
  | String c rest =>
      if is_line_terminator c then EmptyString else String c (first_line rest)
  end.

Fixpoint some_char (p : ascii -> bool) (s : string) : bool :=
  match s with
  | EmptyString => false
  | String c rest => p c || some_char p rest
  end.

(** [/^(?=.*[a-z])(?=.*[A-Z])(?=.*\d)(?=.*[@$!%*?&])[A-Za-z\d@$!%*?&]/]:
    four look-aheads from the start, then one character of the class. *)
Definition matches_password_pattern (s : string) : bool :=
  some_char is_lower (first_line s) &&
  some_char is_upper (first_line s) &&
  some_char is_digit (first_line s) &&
  some_char is_special (first_line s) &&
  match s with
  | String c _ => is_lower c || is_upper c || is_digit c || is_special c
  | EmptyString => false
  end.

Record PasswordChange : Type := mkPasswordChange {
  currentPassword : string;
  newPassword : string
}.

Definition change_password_validation (b : PasswordChange) : list JSON :=
  (if String.eqb (currentPassword b) ""
   then [validation_error "currentPassword" "Current password required"]
   else [])
  ++ (if 8 <=? str_length (newPassword b) then []
      else [validation_error "newPassword"
              "New password must be at least 8 characters"])
  ++ (if matches_password_pattern (newPassword b) then []
      else [validation_error "newPassword"
              "New password must contain uppercase, lowercase, number and special character"]).

(** [router.post('/change-password', authenticateToken, [validators], handler)]. *)
Definition post_change_password (req : Req) (b : PasswordChange) (salt : string)
  : M Response :=
  route (authenticateToken req) (fun auth =>
    try_catch
      (let errors := change_password_validation b in
       if negb (bool_decide (errors = [])) then ret (validation_failed errors)
       else
         let* user := User_findByPk req (id (row (req_user auth))) false [] in
         match user with
         | None => throw (mkExn "TypeError" "Cannot read properties of null")
         | Some user =>
             if negb (verifyPassword (currentPassword b)
                        (password_hash (row user)))
             then
               logSecurityEvent "password_change_attempt_invalid_current"
                 (Some (id (row user))) (request_details req);;
               ret (fail 401 "Current password is incorrect")
             else
               let hashedNewPassword := hashPassword (newPassword b) salt in
               instance_update req user (set_password_hash hashedNewPassword);;
               logSecurityEvent "password_changed" (Some (id (row user)))
                 (request_details req);;
               ret (mkResponse 200
                      (JObj [("success", JBool true);
                             ("message", JStr "Password changed successfully")]))
         end)
      (fun error => ret (fail_with 500 "Failed to change password" error))).

(** [value.trim()]. *)
Definition is_space (c : ascii) : bool :=
  ((9 <=? code c) && (code c <=? 13)) || (code c =? 32) || (code c =? 160).

Fixpoint trim_start (s : string) : string :=
  match s with
  | EmptyString => EmptyString
  | String c rest => if is_space c then trim_start rest else s
  end.

Fixpoint trim_end (s : string) : string :=
  match s with
  | EmptyString => EmptyString
  | String c rest =>
      match trim_end rest with
      | EmptyString => if is_space c then EmptyString else String c EmptyString
      | kept => String c kept
      end
  end.

Definition trim (s : string) : string := trim_end (trim_start s).

Record RegisterBody : Type := mkRegisterBody {
  reg_email : string;
  reg_password : string;
  reg_role : string;
  staff_first_name : string;
  staff_last_name : string;
  staff_employee_id : string;
  staff_other : list (string * JSON)
}.

Definition roles_enum : list string :=
  ["admin"; "doctor"; "nurse"; "receptionist"; "lab_technician"; "pharmacist";
   "radiologist"; "accountant"; "hr_manager"; "housekeeping"; "security"].

Definition length_between (lo hi : Z) (s : string) : bool :=
  (lo <=? str_length s) && (str_length s <=? hi).

Definition register_validation (b : RegisterBody) : list JSON :=
  (if isEmail (reg_email b) then []
   else [validation_error "email" "Valid email required"])
  ++ (if 8 <=? str_length (reg_password b) then []
      else [validation_error "password"
              "Password must be at least 8 characters"])
  ++ (if matches_password_pattern (reg_password b) then []
      else [validation_error "password"
              "Password must contain uppercase, lowercase, number and special character"])
  ++ (if includes roles_enum (reg_role b) then []
      else [validation_error "role" "Valid role required"])
  ++ (if length_between 2 50 (trim (staff_first_name b)) then []
      else [validation_error "staff_data.first_name" "First name required"])
  ++ (if length_between 2 50 (trim (staff_last_name b)) then []
      else [validation_error "staff_data.last_name" "Last name required"])
  ++ (if length_between 3 20 (trim (staff_employee_id b)) then []
      else [validation_error "staff_data.employee_id" "Employee ID required"]).

(** [User.findOne({ where: { email } })]. *)
Definition User_findOne_email (req : Req) (mail : string) : M (option Instance) :=
  db_query req (EvFindOne mail)
    (ask (fun w =>
       (fun u => mkInstance u [] None) <$>
       List.find (fun u => visible u && String.eqb (email u) mail) (users w))).

(** [Staff.findOne({ where: { employee_id } })]. *)
Definition Staff_findOne_employee (req : Req) (employee : string)
  : M (option Staff) :=
  match db_fault req with
  | Some e => throw e
  | None =>
      ask (fun w =>
        List.find (fun s => String.eqb (s_employee_id s) employee) (staff w))
  end.

(** [router.post('/register', authenticateToken, [validators], handler)].
    The module never binds the name [sequelize]: evaluating
    [sequelize.transaction] throws a ReferenceError, and the callback that
    would create the rows does not run. *)
Definition post_register (req : Req) (b : RegisterBody) (salt : string)
  : M Response :=
  route (authenticateToken req) (fun auth =>
    try_catch
      (if negb (String.eqb (role (row (req_user auth))) "admin") then
         ret (fail 403 "Admin access required")
       else
         let errors := register_validation b in
         if negb (bool_decide (errors = [])) then ret (validation_failed errors)
         else
           let mail := normalizeEmail (reg_email b) in
           let* existingUser := User_findOne_email req mail in
           match existingUser with
           | Some _ => ret (fail 409 "User with this email already exists")
           | None =>
               let* existingStaff :=
                 Staff_findOne_employee req (trim (staff_employee_id b)) in
               match existingStaff with
               | Some _ => ret (fail 409 "Employee ID already exists")
               | None =>
                   let hashedPassword := hashPassword (reg_password b) salt in
                   throw (mkExn "ReferenceError" "sequelize is not defined")
               end
           end)
      (fun error => ret (fail_with 500 "Registration failed" error))).

(** The token a login response carries, if any. *)
Definition token_of (r : Response) : option JSON :=
  json_get "data" (json r) ≫= json_get "token".

(** The request carries a token that [authenticateToken] lets through, for
    the account row [u]. *)
Definition accepted (req : Req) (w : World) (token : string) (u : User) : Prop :=
  bearer_token req = Some token /\
  truthy (Some token) = true /\
  redis_fault req "get" (blacklist_key token) = None /\
  truthy (blacklist_reading req token w) = false /\
  (exists claims,
     jwt_parse token = Some (claims, jwt_secret) /\
     now req / 1000 < exp claims /\
     List.find (where_pk (userId claims)) (users w) = Some u) /\
  db_fault req = None /\
  is_active u = true /\
  is_locked (now req) u = false.

(** The counter kept for [addr], whenever there is one, reads between 1 and
    the ceiling of 10. *)
Definition within_ceiling (addr : string) (store : gmap string RedisEntry)
  : Prop :=
  forall e, store !! ("auth_rate_limit:" +:+ addr) = Some e ->
    exists n, value e = string_of_Z n /\ 1 <= n <= 10.

(** A login request from [addr] that arrives before [deadline] while the
    counter can be read. *)
Definition knocks_before (addr : string) (deadline : Z) (a : Req * LoginBody)
  : Prop :=
  ip a.1 = addr /\ now a.1 < deadline /\
  redis_fault a.1 "get" (rate_key a.1) = None.

(** The string has no space in it. *)
Fixpoint no_space (s : string) : bool :=
  match s with
  | EmptyString => true
  | String c rest => negb (Ascii.eqb c " "%char) && no_space rest
  end.

(** ** The answer to a successful login *)

(** The columns of the account row other than [password_hash] and
    [two_factor_secret], in the order of the table, and the staff row joined
    to it. *)
Definition public_account_data (u : User) (s : option Staff)
  : list (string * JSON) :=
  [("id", JStr (id u));
   ("username", JStr (username u));
   ("email", JStr (email u));
   ("role", JStr (role u));
   ("is_active", JBool (is_active u));
   ("last_login", date_json (last_login u));
   ("failed_login_attempts", num_json (failed_login_attempts u));
   ("locked_until", date_json (locked_until u));
   ("two_factor_enabled", JBool (two_factor_enabled u));
   ("created_at", date_json (created_at u));
   ("updated_at", date_json (updated_at u));
   ("deleted_at", date_json (deleted_at u));
   ("staff", match s with Some s => staff_json s | None => JNull end)].

(** The account row with other credentials stored in it. *)
Definition with_credentials (hash : string) (secret : option string) (u : User)
  : User :=
  mkUser (id u) (username u) (email u) hash (role u) (is_active u)
    (last_login u) (failed_login_attempts u) (locked_until u)
    (two_factor_enabled u) secret
    (created_at u) (updated_at u) (deleted_at u).

(** The login goes through in full for the account row [u]: the limiter
    lets it pass, the body is well formed, the account is found and is not
    locked, password and second factor are right, and database and session
    store answer. *)
Definition fully_successful (req : Req) (b : LoginBody) (w : World) (u : User)
  : Prop :=
  rate_limited req w = false /\
  login_validation b = [] /\
  db_fault req = None /\
  account w b = Some u /\
  is_locked (now req) u = false /\
  verifyPassword (body_password b) (password_hash u) = true /\
  second_factor_ok req b u = true /\
  redis_fault req "setex"
    (session_key (id u) (generateToken (id u) (role u) (now req))) = None.

End GuardRest.

(** ** Paging of GET /api/opd/appointments (routes/opdRoutes.js)

    [page_q] and [limit_q] are [parseInt(req.query.page)] and
    [parseInt(req.query.limit)], [None] standing for NaN. *)

Module Opd.

(** [parseInt(x) || fallback]: NaN and 0 give way to the fallback. *)
Definition or_default (parsed : option Z) (fallback : Z) : Z :=
  match parsed with
  | Some n => if n =? 0 then fallback else n
  | None => fallback
  end.

Record Pagination : Type := mkPagination {
  current_page : Z;
  total_pages : Z;
  total_records : Z;
  per_page : Z
}.

Definition page_of (page_q : option Z) : Z := or_default page_q 1.
Definition limit_of (limit_q : option Z) : Z := or_default limit_q 20.

(** [(page - 1) * limit]. *)
Definition offset_of (page_q limit_q : option Z) : Z :=
  (page_of page_q - 1) * limit_of limit_q.

(** [Math.ceil(count / limit)] for a positive divisor. *)
Definition ceil_div (count limit : Z) : Z := - ((- count) / limit).

Definition pagination (page_q limit_q : option Z) (count : Z) : Pagination :=
  mkPagination (page_of page_q) (ceil_div count (limit_of limit_q)) count
    (limit_of limit_q).

(** What the validators of the route let through: [page] absent or an
    integer from 1, [limit] absent or an integer from 1 to 100. *)
Definition valid_query (page_q limit_q : option Z) : Prop :=
  (forall p, page_q = Some p -> 1 <= p) /\
  (forall l, limit_q = Some l -> 1 <= l <= 100).

End Opd.

(** ** The login form's own lockout (client/src/store/slices/authSlice.js)

    The reducers of the slice, with [now] for [Date.now()]. An action whose
    type ends in [/pending] or [/rejected] also runs the two matchers at the
    end of the builder, after its own case. *)

Module AuthSlice.

Record State : Type := mkState {
  user : option (list (string * JSON));
  token : option string;
  isAuthenticated : bool;
  loading : bool;
  error : option JSON;
  twoFactorRequired : bool;
  loginAttempts : Z;
  accountLocked : bool;
  lockoutTime : option Z
}.

(** [token] is what [localStorage.getItem('token')] gives at start-up. *)
Definition initialState (stored : option string) : State :=
  mkState None stored false false None false 0 false None.

(** What the login thunk resolves to. *)
Inductive LoginPayload : Type :=
| SecondFactorNeeded
| Session (token : option string) (user : option (list (string * JSON))).

Inductive Action : Type :=
| ClearError
| ClearTwoFactorRequired
| IncrementLoginAttempts
| ResetLoginAttempts
| CheckLockoutExpiry
| LoginPending
| LoginFulfilled (payload : LoginPayload)
| LoginRejected (payload : option JSON)
| CheckAuthStatusPending
| CheckAuthStatusFulfilled (token : option string)
    (user : option (list (string * JSON)))
| CheckAuthStatusRejected (payload : option JSON)
| LogoutFulfilled
| UpdateProfileFulfilled (payload : list (string * JSON))
| EnableTwoFactorFulfilled
| VerifyTwoFactorSetupFulfilled
| DisableTwoFactorFulfilled
| OtherPending
| OtherRejected (payload : option JSON)
| OtherFulfilled.

(** [{ ...obj, [key]: v }]. *)
Fixpoint obj_set (key : string) (v : JSON) (fields : list (string * JSON))
  : list (string * JSON) :=
  match fields with
  | [] => [(key, v)]
  | (k, x) :: rest =>
      if String.eqb k key then (k, v) :: rest else (k, x) :: obj_set key v rest
  end.

(** [{ ...state.user, ...payload }]. *)
Definition spread (base : option (list (string * JSON)))
  (payload : list (string * JSON)) : list (string * JSON) :=
  fold_left (fun acc kv => obj_set kv.1 kv.2 acc) payload (default [] base).

Definition set_user (u : option (list (string * JSON))) (s : State) : State :=
  mkState u (token s) (isAuthenticated s) (loading s) (error s)
    (twoFactorRequired s) (loginAttempts s) (accountLocked s) (lockoutTime s).

Definition set_lock (attempts : Z) (locked : bool) (until : option Z)
  (s : State) : State :=
  mkState (user s) (token s) (isAuthenticated s) (loading s) (error s)
    (twoFactorRequired s) attempts locked until.

Definition set_status (busy : bool) (err : option JSON) (s : State) : State :=
  mkState (user s) (token s) (isAuthenticated s) busy err
    (twoFactorRequired s) (loginAttempts s) (accountLocked s) (lockoutTime s).

(** [state.loginAttempts += 1] and the lock that follows from 5 on. *)
Definition count_attempt (now : Z) (s : State) : State :=
  let attempts := loginAttempts s + 1 in
  if attempts >=? 5
  then set_lock attempts true (Some (now + 30 * 60 * 1000)) s
  else set_lock attempts (accountLocked s) (lockoutTime s) s.

(** [state.lockoutTime && Date.now() > state.lockoutTime]. *)
Definition lock_expired (now : Z) (s : State) : bool :=
  match lockoutTime s with
  | Some until => negb (until =? 0) && (now >? until)
  | None => false
  end.

(** The reducer of the action's own case. *)
Definition case_reducer (now : Z) (a : Action) (s : State) : State :=
  match a with
  | ClearError => set_status (loading s) None s
  | ClearTwoFactorRequired =>
      mkState (user s) (token s) (isAuthenticated s) (loading s) (error s)
        false (loginAttempts s) (accountLocked s) (lockoutTime s)
  | IncrementLoginAttempts => count_attempt now s
  | ResetLoginAttempts => set_lock 0 false None s
  | CheckLockoutExpiry =>
      if lock_expired now s then set_lock 0 false None s else s
  | LoginPending => set_status true None s
  | LoginFulfilled SecondFactorNeeded =>
      mkState (user s) (token s) (isAuthenticated s) false (error s)
        true (loginAttempts s) (accountLocked s) (lockoutTime s)
  | LoginFulfilled (Session t u) =>
      mkState u t true false (error s) false 0 false None
  | LoginRejected payload =>
      count_attempt now (set_status false payload s)
  | CheckAuthStatusPending => set_status true (error s) s
  | CheckAuthStatusFulfilled t u =>
      mkState u t true false (error s) (twoFactorRequired s)
        (loginAttempts s) (accountLocked s) (lockoutTime s)
  | CheckAuthStatusRejected _ =>
      mkState None None false false (error s) (twoFactorRequired s)
        (loginAttempts s) (accountLocked s) (lockoutTime s)
  | LogoutFulfilled =>
      mkState None None false (loading s) None false
        (loginAttempts s) (accountLocked s) (lockoutTime s)
  | UpdateProfileFulfilled payload => set_user (Some (spread (user s) payload)) s
  | EnableTwoFactorFulfilled =>
      set_user (Some (spread (user s) [("twoFactorEnabled", JBool false)])) s
  | VerifyTwoFactorSetupFulfilled =>
      set_user (Some (spread (user s) [("twoFactorEnabled", JBool true)])) s
  | DisableTwoFactorFulfilled =>
      set_user (Some (spread (user s) [("twoFactorEnabled", JBool false)])) s
  | OtherPending | OtherRejected _ | OtherFulfilled => s
  end.

(** The matchers for [/rejected] and [/pending]. *)
Definition matchers (a : Action) (s : State) : State :=
  match a with
  | LoginRejected payload | CheckAuthStatusRejected payload
  | OtherRejected payload => set_status false payload s
  | LoginPending | CheckAuthStatusPending | OtherPending =>
      set_status true None s
  | _ => s
  end.

Definition reducer (now : Z) (s : State) (a : Action) : State :=
  matchers a (case_reducer now a s).

(** The state after a run of actions, each with the clock at its dispatch. *)
Definition run (s : State) (actions : list (Z * Action)) : State :=
  fold_left (fun s ta => reducer ta.1 s ta.2) actions s.

(** The lock is on exactly from five counted attempts on, and carries an
    expiry exactly while it is on. *)
Definition consistent (s : State) : Prop :=
  0 <= loginAttempts s /\
  accountLocked s = bool_decide (5 <= loginAttempts s) /\
  (accountLocked s = true -> exists until, lockoutTime s = Some until /\ 0 < until) /\
  (accountLocked s = false -> lockoutTime s = None).

End AuthSlice.

(** ** A concrete hospital

    Stand-ins for the libraries, two accounts and a request, on which the
    statements below are run. *)

Module Scenario.

Definition parse (token : string) : option (JwtClaims * string) :=
  if String.eqb token "tok-u1"
  then Some (mkClaims "u1" "doctor" 0 86400, "hms-jwt-secret")
  else if String.eqb token "tok-u2"
  then Some (mkClaims "u2" "nurse" 0 86400, "hms-jwt-secret")
  else if String.eqb token "tok-short"
  then Some (mkClaims "u1" "doctor" 0 60, "hms-jwt-secret")
  else if String.eqb token "tok-forged"
  then Some (mkClaims "u1" "admin" 0 86400, "guessed-secret")
  else None.

Fixpoint has_at (s : string) : bool :=
  match s with
  | EmptyString => false
  | String c rest => Ascii.eqb c "@"%char || has_at rest
  end.

Definition libraries : Platform := {|
  bcrypt_compare password hashed := String.eqb ("bcrypt:" +:+ password) hashed;
  speakeasy_totp_verify secret code window t :=
    bool_decide (secret = Some "JBSWY3DPEHPK3PXP") && String.eqb code "492039";
  speakeasy_otpauthURL secret label :=
    "otpauth://totp/" +:+ label +:+ "?secret=" +:+ secret;
  QRCode_toDataURL url := inr ("data:image/png;base64," +:+ url);
  jwt_sign uid role secret expiresIn t := "tok-" +:+ uid;
  jwt_parse := parse;
  isEmail := has_at;
  normalizeEmail mail := mail;
  JSON_stringify j := "{}";
  toISOString t := string_of_Z t;
  env_JWT_SECRET := None;
  env_JWT_EXPIRES_IN := None
|}.

Definition doctor : User :=
  mkUser "u1" "doc_1700000000" "doc@h.com" "bcrypt:stethoscope" "doctor" true
    None (Some 0) None false None (Some 0) (Some 0) None.

Definition nurse : User :=
  mkUser "u2" "nurse_1700000000" "nurse@h.com" "bcrypt:thermometer" "nurse" true
    None (Some 0) None true (Some "JBSWY3DPEHPK3PXP") (Some 0) (Some 0) None.

Definition doctor_staff : Staff :=
  mkStaff "s1" (Some "u1") "EMP001" "Asha" "Rao" None None None None None None
    (Some "Cardiology") None None None None None true (Some 0) (Some 0).

Definition hospital : World := mkWorld [doctor; nurse] [doctor_staff] ∅ [].

(** A request served at instant [t] while both stores answer. *)
Definition request (t : Z) (bearer : option string) : Req :=
  mkReq "203.0.113.7" (Some "Mozilla/5.0") bearer t (fun _ _ => None) None.

Definition credentials (mail password : string) (code : option string)
  : LoginBody :=
  mkLoginBody mail password code.

(** The doctor's account as five failed logins left it, the lock expiring
    at instant 1 800 000. *)
Definition locked_doctor : User :=
  set_lockout (Some 5) (Some 1800000) doctor.

Definition hospital_after_lock : World :=
  mkWorld [locked_doctor; nurse] [doctor_staff] ∅ [].

(** The denylist after the doctor's token was revoked at instant 0. *)
Definition hospital_after_logout : World :=
  mkWorld [doctor; nurse] [doctor_staff]
    {[ blacklist_key "tok-u1" := mkEntry "true" (Some 86400000) ]} [].

(** Wrong-password logins for the doctor's account, one per second. *)
Definition guess (t : Z) : Req * LoginBody :=
  (request t None, credentials "doc@h.com" "scalpel" None).

(** A request served while the counter store refuses connections. *)
Definition request_while_redis_down (t : Z) : Req :=
  mkReq "203.0.113.7" (Some "Mozilla/5.0") None t
    (fun _ _ => Some (mkExn "Error" "connect ECONNREFUSED 127.0.0.1:6379")) None.

(** The doctor's account between /enable-2fa and /verify-2fa-setup. *)
Definition enrolling_doctor : User :=
  set_two_factor false (Some "KRUGS4ZANFZSAYJA") doctor.

(** The ten logins with a profile request of the nurse, from another
    address and an hour late, served among them. *)
Definition traffic : list (Req * Call) :=
  logins [guess 0; guess 1000; guess 2000]
  ++ [(mkReq "198.51.100.9" None (Some "Bearer tok-u2") 3600000
         (fun _ _ => None) None, Me)]
  ++ logins [guess 3000; guess 4000; guess 5000; guess 6000; guess 7000;
             guess 8000; guess 9000].

(** A stand-in for [bcrypt.hash] that agrees with the stand-in for
    [bcrypt.compare]. *)
Definition hasher : Hasher := {|
  bcrypt_hash password rounds salt := "bcrypt:" +:+ password
|}.

(** The same hospital with the first account in the role of administrator. *)
Definition chief : User :=
  mkUser "u1" "doc_1700000000" "doc@h.com" "bcrypt:stethoscope" "admin" true
    None (Some 0) None false None (Some 0) (Some 0) None.

Definition head_office : World := mkWorld [chief; nurse] [doctor_staff] ∅ [].

(** The doctor's account with four failures counted. *)
Definition hospital_after_four : World :=
  mkWorld [set_lockout (Some 4) None doctor; nurse] [doctor_staff] ∅ [].

(** The store with the counter of the address at its ceiling until
    instant 900 000. *)
Definition hospital_at_ceiling : World :=
  mkWorld [doctor; nurse] [doctor_staff]
    {[ "auth_rate_limit:203.0.113.7" := mkEntry "10" (Some 900000) ]} [].

(** The hospital while the doctor's enrolment awaits its code. *)
Definition hospital_enrolling : World :=
  mkWorld [enrolling_doctor; nurse] [doctor_staff] ∅ [].

(** A request served while writes to the denylist fail. *)
Definition request_while_setex_fails (t : Z) (bearer : option string) : Req :=
  mkReq "203.0.113.7" (Some "Mozilla/5.0") bearer t
    (fun command _ =>
       if String.eqb command "setex"
       then Some (mkExn "Error" "READONLY You can't write against a read only replica")
       else None)
    None.

Definition new_colleague : RegisterBody :=
  mkRegisterBody "lab@h.com" "Pipette@2024" "lab_technician" "Mina" "Okafor"
    "EMP002" [].

(** The nurse's account while her enrolment awaits its code. *)
Definition enrolling_nurse : User :=
  set_two_factor false (Some "JBSWY3DPEHPK3PXP") nurse.

Definition hospital_enrolling_nurse : World :=
  mkWorld [doctor; enrolling_nurse] [doctor_staff] ∅ [].

Definition new_password : PasswordChange :=
  mkPasswordChange "stethoscope" "Scalpel@2025".

End Scenario.

(** * Properties *)

Section Properties.
Context `{Platform}.

(** ** Decimal numerals read back *)

Lemma parseInt_string_of_Z (n : Z) : parseInt (string_of_Z n) = Some n.
Proof.
  unfold parseInt, string_of_Z.
  rewrite NilZero.isi.
  - cbn. now rewrite DecimalZ.of_to.
  - destruct n; cbn; try discriminate.
    intros [= E]. now apply DecimalPos.Unsigned.to_uint_nonnil in E.
  - destruct n; cbn; try discriminate.
    intros [= E]. now apply DecimalPos.Unsigned.to_uint_nonnil in E.
Qed.

Lemma string_of_Z_truthy (n : Z) : truthy (Some (string_of_Z n)) = true.
Proof.
  unfold truthy. destruct (String.eqb_spec (string_of_Z n) "") as [E|]; [|done].
  pose proof (parseInt_string_of_Z n) as P. rewrite E in P. discriminate.
Qed.

(** ** The rate limiter *)

Lemma authRateLimit_get_fault req w e :
  redis_fault req "get" (rate_key req) = Some e ->
  authRateLimit req w =
    (mkWorld (users w) (staff w) (redis w)
       (EvRedis "get" (rate_key req) :: trace w), Returned (Next tt)).
Proof.
  intros F. unfold authRateLimit, try_catch, bind, redis_get, redis_command, emit.
  fold (rate_key req). cbn. rewrite F. reflexivity.
Qed.

Lemma authRateLimit_multi_fault req w e :
  redis_fault req "get" (rate_key req) = None ->
  at_ceiling (rate_reading req w) 10 = false ->
  redis_fault req "multi" (rate_key req) = Some e ->
  authRateLimit req w =
    (mkWorld (users w) (staff w) (redis w)
       (EvRedis "multi" (rate_key req) :: EvRedis "get" (rate_key req) :: trace w),
     Returned (Next tt)).
Proof.
  intros G C F.
  unfold authRateLimit, try_catch, bind, redis_get, redis_multi_incr_expire,
    redis_command, emit, ask.
  fold (rate_key req). cbn. rewrite G. cbn.
  unfold rate_reading in C. rewrite C. cbn. rewrite F. reflexivity.
Qed.

Lemma authRateLimit_limited req w :
  redis_fault req "get" (rate_key req) = None ->
  at_ceiling (rate_reading req w) 10 = true ->
  authRateLimit req w =
    (mkWorld (users w) (staff w) (redis w)
       (EvRedis "get" (rate_key req) :: trace w),
     Returned (Respond (fail 429
       "Too many authentication attempts. Please try again later."))).
Proof.
  intros G C.
  unfold authRateLimit, try_catch, bind, redis_get, redis_command, emit, ask.
  fold (rate_key req). cbn. rewrite G. cbn.
  unfold rate_reading in C. rewrite C. reflexivity.
Qed.

Lemma authRateLimit_allowed req w :
  redis_fault req "get" (rate_key req) = None ->
  at_ceiling (rate_reading req w) 10 = false ->
  redis_fault req "multi" (rate_key req) = None ->
  authRateLimit req w =
    (mkWorld (users w) (staff w)
       (expire_entry (now req) (rate_key req) 900
          (incr_entry (now req) (rate_key req) (redis w)))
       (EvRedis "multi" (rate_key req) :: EvRedis "get" (rate_key req) :: trace w),
     Returned (Next tt)).
Proof.
  intros G C F.
  unfold authRateLimit, try_catch, bind, redis_get, redis_multi_incr_expire,
    redis_command, emit, ask, set_redis.
  fold (rate_key req). cbn. rewrite G. cbn.
  unfold rate_reading in C. rewrite C. cbn. rewrite F. reflexivity.
Qed.

(** C5. When a command the limiter sends to its counter store throws (the
    read of the counter, or the increment that follows a read below the
    ceiling), the limiter calls [next()]: the login handler runs, and
    neither the counters nor the accounts have changed. *)
Theorem rate_limiter_fails_open req b w e :
  redis_fault req "get" (rate_key req) = Some e \/
  (redis_fault req "get" (rate_key req) = None /\
   at_ceiling (rate_reading req w) 10 = false /\
   redis_fault req "multi" (rate_key req) = Some e) ->
  exists w',
    authRateLimit req w = (w', Returned (Next tt)) /\
    users w' = users w /\ redis w' = redis w /\
    post_login req b w = login_handler req b w'.
Proof.
  intros [F | (G & C & F)].
  - eexists. split; [exact (authRateLimit_get_fault req w e F)|].
    repeat split; try reflexivity.
    unfold post_login, route, bind.
    now rewrite (authRateLimit_get_fault req w e F).
  - eexists. split; [exact (authRateLimit_multi_fault req w e G C F)|].
    repeat split; try reflexivity.
    unfold post_login, route, bind.
    now rewrite (authRateLimit_multi_fault req w e G C F).
Qed.

(** ** Bearer tokens *)

(** C7, as amended. Every reason for turning a bearer token down (none
    sent, revoked, not a token, signature not the server's, expired) is
    answered with status 401 and [success: false], provided the denylist
    could be read where it is consulted; the [message] of the payload names
    the reason. Accounts and store are left as they were. *)
Theorem token_rejections_answer_401 why req w :
  rejected_for why req w ->
  exists w',
    authenticateToken req w =
      (w', Returned (Respond (fail 401 (rejection_message why)))) /\
    users w' = users w /\ redis w' = redis w.
Proof.
  destruct why; cbn [rejected_for rejection_message].
  - intros T. exists w.
    unfold authenticateToken, try_catch. rewrite T. cbn. by destruct w.
  - intros (token & B & T & G & R). eexists.
    unfold authenticateToken, try_catch, bind, redis_get, redis_command, emit, ask.
    rewrite B, T. cbn. fold (blacklist_key token). rewrite G. cbn.
    unfold blacklist_reading in R. rewrite R. cbn. done.
  - intros (token & B & T & G & R & P). eexists.
    unfold authenticateToken, try_catch, bind, redis_get, redis_command, emit, ask,
      jwt_verify.
    rewrite B, T. cbn. fold (blacklist_key token). rewrite G. cbn.
    unfold blacklist_reading in R. rewrite R. cbn. rewrite P. cbn. done.
  - intros (token & B & T & G & R & claims & key & P & K). eexists.
    unfold authenticateToken, try_catch, bind, redis_get, redis_command, emit, ask,
      jwt_verify.
    rewrite B, T. cbn. fold (blacklist_key token). rewrite G. cbn.
    unfold blacklist_reading in R. rewrite R. cbn. rewrite P.
    destruct (String.eqb_spec key jwt_secret) as [|_]; [done|]. cbn. done.
  - intros (token & B & T & G & R & claims & P & E). eexists.
    unfold authenticateToken, try_catch, bind, redis_get, redis_command, emit, ask,
      jwt_verify.
    rewrite B, T. cbn. fold (blacklist_key token). rewrite G. cbn.
    unfold blacklist_reading in R. rewrite R. cbn. rewrite P.
    rewrite String.eqb_refl. cbn -[Z.div].
    assert ((now req / 1000 >=? exp claims) = true) as -> by lia.
    cbn. done.
Qed.

Lemma authenticateToken_next req w w' auth :
  authenticateToken req w = (w', Returned (Next auth)) ->
  exists claims,
    bearer_token req = Some (req_token auth) /\
    truthy (Some (req_token auth)) = true /\
    redis_fault req "get" (blacklist_key (req_token auth)) = None /\
    truthy (blacklist_reading req (req_token auth) w) = false /\
    jwt_parse (req_token auth) = Some (claims, jwt_secret) /\
    now req / 1000 < exp claims /\
    db_fault req = None /\
    List.find (where_pk (userId claims)) (users w) = Some (row (req_user auth)) /\
    is_active (row (req_user auth)) = true /\
    is_locked (now req) (row (req_user auth)) = false /\
    users w' = users w /\ staff w' = staff w /\ redis w' = redis w.
Proof.
  unfold authenticateToken, try_catch, bind, redis_get, redis_command, emit, ask,
    jwt_verify, User_findByPk, db_query.
  destruct (bearer_token req) as [token|] eqn:B; cbn; [|discriminate].
  destruct (String.eqb token "") eqn:T; cbn; [discriminate|].
  fold (blacklist_key token).
  destruct (redis_fault req "get" (blacklist_key token)) eqn:G; cbn.
  { repeat case_match; discriminate. }
  fold (blacklist_reading req token w).
  destruct (truthy (blacklist_reading req token w)) eqn:R; cbn; [discriminate|].
  destruct (jwt_parse token) as [[claims key]|] eqn:P; cbn; [|discriminate].
  destruct (String.eqb_spec key jwt_secret) as [->|]; cbn -[Z.div]; [|discriminate].
  destruct (now req / 1000 >=? exp claims) eqn:E; cbn; [discriminate|].
  destruct (db_fault req) eqn:D; cbn.
  { repeat case_match; discriminate. }
  destruct (List.find (where_pk (userId claims)) (users w)) as [u|] eqn:F; cbn;
    [|discriminate].
  destruct (is_active u) eqn:A; cbn; [|discriminate].
  destruct (is_locked (now req) u) eqn:L; cbn; [discriminate|].
  intros [= <- <-]. cbn. exists claims.
  rewrite T. repeat split; try done. lia.
Qed.

(** C8. A request whose bearer token is signed with the server's secret,
    unexpired and absent from the denylist is answered with a response and
    never passed on while the account the token is bound to is locked; for
    an active account the response is the 423 lockout error. The lock is
    read from the account row on this very request, so it does not matter
    when the token was issued. *)
Theorem locked_account_token_rejected req w token claims u :
  bearer_token req = Some token ->
  truthy (Some token) = true ->
  redis_fault req "get" (blacklist_key token) = None ->
  truthy (blacklist_reading req token w) = false ->
  jwt_parse token = Some (claims, jwt_secret) ->
  now req / 1000 < exp claims ->
  db_fault req = None ->
  List.find (where_pk (userId claims)) (users w) = Some u ->
  is_locked (now req) u = true ->
  exists w' r,
    authenticateToken req w = (w', Returned (Respond r)) /\
    (is_active u = true -> r = fail 423 "Account is temporarily locked") /\
    users w' = users w.
Proof.
  intros B T G R P E D F L.
  unfold authenticateToken, try_catch, bind, redis_get, redis_command, emit, ask,
    jwt_verify, User_findByPk, db_query.
  rewrite B, T. cbn. fold (blacklist_key token). rewrite G. cbn.
  unfold blacklist_reading in R. rewrite R. cbn. rewrite P.
  rewrite String.eqb_refl. cbn -[Z.div].
  assert ((now req / 1000 >=? exp claims) = false) as -> by lia.
  cbn. rewrite D. cbn. rewrite F. cbn. rewrite L.
  destruct (is_active u); cbn; eauto.
  do 2 eexists. split; [reflexivity|]. split; [discriminate|reflexivity].
Qed.

(** ** Rows and their updates *)

Lemma find_update_rows (P : User -> bool) pk only f rows :
  (forall x, P (f x) = P x) ->
  List.find P (update_rows pk only f rows) =
  (fun u => if String.eqb (id u) pk && (negb only || visible u) then f u else u)
    <$> List.find P rows.
Proof.
  intros Pf. induction rows as [|x rows IH]; cbn; [done|].
  destruct (String.eqb (id x) pk && (negb only || visible x)) eqn:C.
  - rewrite Pf. destruct (P x); cbn; [by rewrite C|exact IH].
  - destruct (P x); cbn; [by rewrite C|exact IH].
Qed.

Lemma ids_update_rows pk only f rows :
  (forall x, id (f x) = id x) ->
  List.map id (update_rows pk only f rows) = List.map id rows.
Proof.
  intros If. unfold update_rows. rewrite List.map_map.
  apply List.map_ext. intros x. by destruct (_ && _).
Qed.

Lemma find_pk_unique rows u :
  NoDup (List.map id rows) -> In u rows -> visible u = true ->
  List.find (where_pk (id u)) rows = Some u.
Proof.
  induction rows as [|x rows IH]; cbn; [done|].
  intros ND [->|I] V.
  - unfold where_pk at 1. by rewrite V, String.eqb_refl.
  - apply NoDup_cons in ND as [N ND].
    unfold where_pk at 1.
    destruct (String.eqb_spec (id x) (id u)) as [E|_].
    + exfalso. apply N. rewrite E. apply list_elem_of_In.
      apply List.in_map, I.
    + rewrite andb_false_r. by apply IH.
Qed.

(** Under the primary-key constraint, the row a login finds by email is the
    row its [id] resolves to. *)
Lemma find_email_then_pk rows mail u :
  NoDup (List.map id rows) ->
  List.find (where_email mail) rows = Some u ->
  List.find (where_pk (id u)) rows = Some u.
Proof.
  intros ND F. apply List.find_some in F as [I W].
  apply find_pk_unique; [done..|].
  unfold where_email in W. by destruct (visible u).
Qed.

(** ** The login handler, path by path *)

Lemma login_handler_locked req b w u :
  login_validation b = [] ->
  db_fault req = None ->
  account w b = Some u ->
  is_locked (now req) u = true ->
  exists msg,
    login_handler req b w =
      (mkWorld (users w) (staff w) (redis w)
         (EvFindOne (normalizeEmail (body_email b)) :: trace w),
       Returned (fail 423 msg)).
Proof.
  intros V D A L. eexists.
  unfold login_handler, try_catch, bind, User_findOne, db_query, emit, ask.
  rewrite V. cbn. rewrite D. cbn.
  unfold account in A. rewrite A. cbn. rewrite L. reflexivity.
Qed.

Lemma login_handler_wrong_password req b w u :
  login_validation b = [] ->
  db_fault req = None ->
  account w b = Some u ->
  is_locked (now req) u = false ->
  verifyPassword (body_password b) (password_hash u) = false ->
  List.find (where_pk (id u)) (users w) = Some u ->
  exists w',
    login_handler req b w = (w', Returned (fail 401 "Invalid credentials")) /\
    users w' = update_rows (id u) false (failed_login_update (now req) u) (users w) /\
    staff w' = staff w /\ redis w' = redis w.
Proof.
  intros V D A L P F.
  unfold login_handler, try_catch, bind, User_findOne, db_query, emit, ask.
  rewrite V. cbn. rewrite D. cbn.
  unfold account in A. rewrite A. cbn. rewrite L, P. cbn.
  unfold handleFailedLogin, bind, User_findByPk, db_query, emit, ask,
    instance_update, logSecurityEvent, set_users, failed_login_update.
  cbn. rewrite D. cbn. rewrite F. cbn.
  destruct (default 0 (failed_login_attempts u) + 1 >=? 5); cbn;
    rewrite ?D; cbn; eauto.
Qed.

Lemma login_handler_invalid_2fa req b w u :
  login_validation b = [] ->
  db_fault req = None ->
  account w b = Some u ->
  is_locked (now req) u = false ->
  verifyPassword (body_password b) (password_hash u) = true ->
  two_factor_enabled u = true ->
  truthy (twoFactorToken b) = true ->
  verifyTwoFactorToken (default "" (twoFactorToken b)) (two_factor_secret u)
    (now req) = false ->
  login_handler req b w =
    (mkWorld (users w) (staff w) (redis w)
       (EvSecurity "login_attempt_invalid_2fa" (Some (id u)) (request_details req)
        :: EvFindOne (normalizeEmail (body_email b)) :: trace w),
     Returned (fail 401 "Invalid two-factor authentication code")).
Proof.
  intros V D A L P E T C.
  unfold login_handler, try_catch, bind, User_findOne, db_query, emit, ask,
    logSecurityEvent.
  rewrite V. cbn. rewrite D. cbn.
  unfold account in A. rewrite A. cbn. rewrite L, P, E, T, C. reflexivity.
Qed.

Lemma login_success_run req inst w :
  db_fault req = None ->
  redis_fault req "setex"
    (session_key (id (row inst))
       (generateToken (id (row inst)) (role (row inst)) (now req))) = None ->
  exists w' userData,
    login_success req inst w =
      (w', Returned (mkResponse 200
         (JObj [("success", JBool true);
                ("data",
                 JObj [("token",
                        JStr (generateToken (id (row inst)) (role (row inst))
                                (now req)));
                       ("user", JObj userData)]);
                ("message", JStr "Login successful")]))) /\
    users w' =
      update_rows (id (row inst)) true (successful_login_update (now req))
        (users w) /\
    staff w' = staff w /\
    exists session,
      redis w' =
        <[session_key (id (row inst))
            (generateToken (id (row inst)) (role (row inst)) (now req))
          := session]> (redis w).
Proof.
  intros D S.
  unfold login_success, bind, resetFailedAttempts, User_update, db_query, emit,
    createSession, redis_setex, redis_command, set_users, set_redis,
    logSecurityEvent.
  cbn. rewrite D. cbn.
  fold (session_key (id (row inst))
          (generateToken (id (row inst)) (role (row inst)) (now req))).
  rewrite S. cbn. eauto 10.
Qed.

Lemma login_handler_success req b w u :
  login_validation b = [] ->
  db_fault req = None ->
  account w b = Some u ->
  is_locked (now req) u = false ->
  verifyPassword (body_password b) (password_hash u) = true ->
  second_factor_ok req b u = true ->
  redis_fault req "setex"
    (session_key (id u) (generateToken (id u) (role u) (now req))) = None ->
  exists w' userData,
    login_handler req b w =
      (w', Returned (mkResponse 200
         (JObj [("success", JBool true);
                ("data",
                 JObj [("token",
                        JStr (generateToken (id u) (role u) (now req)));
                       ("user", JObj userData)]);
                ("message", JStr "Login successful")]))) /\
    users w' = update_rows (id u) true (successful_login_update (now req)) (users w) /\
    staff w' = staff w.
Proof.
  intros V D A L P T S.
  unfold login_handler, try_catch, bind, User_findOne, db_query, emit, ask.
  rewrite V. cbn. rewrite D. cbn.
  unfold account in A. rewrite A. cbn. rewrite L, P. cbn.
  set (inst := mkInstance u [] _).
  set (w1 := mkWorld _ _ _ _).
  destruct (login_success_run req inst w1 D S) as (w' & userData & R & U & St & _).
  exists w', userData.
  unfold second_factor_ok in T.
  destruct (two_factor_enabled u); cbn in T.
  - apply andb_prop in T as [T1 T2]. rewrite T1, T2. cbn.
    change (id u) with (id (row inst)). change (role u) with (role (row inst)).
    rewrite R. done.
  - change (id u) with (id (row inst)). change (role u) with (role (row inst)).
    rewrite R. done.
Qed.

(** ** Lockout *)

Lemma failed_login_update_spec t u :
  let u' := failed_login_update t u u in
  id u' = id u /\ email u' = email u /\ password_hash u' = password_hash u /\
  is_active u' = is_active u /\ deleted_at u' = deleted_at u /\
  two_factor_enabled u' = two_factor_enabled u /\
  failed_login_attempts u' = Some (default 0 (failed_login_attempts u) + 1) /\
  locked_until u' =
    if default 0 (failed_login_attempts u) + 1 >=? 5 then Some (t + 1800000)
    else locked_until u.
Proof.
  unfold failed_login_update.
  destruct (default 0 (failed_login_attempts u) + 1 >=? 5); cbn; done.
Qed.

Lemma failed_attempt_step a w mail u :
  NoDup (List.map id (users w)) ->
  List.find (where_email mail) (users w) = Some u ->
  wrong_password mail (password_hash u) a ->
  is_locked (now a.1) u = false ->
  exists w',
    login_handler a.1 a.2 w = (w', Returned (fail 401 "Invalid credentials")) /\
    NoDup (List.map id (users w')) /\
    List.find (where_email mail) (users w') =
      Some (failed_login_update (now a.1) u u).
Proof.
  intros ND F ((V & <- & D) & P) L.
  destruct (login_handler_wrong_password a.1 a.2 w u V D F L P)
    as (w' & R & U & _).
  { by eapply find_email_then_pk. }
  exists w'. split; [done|]. rewrite U.
  assert (forall x, id (failed_login_update (now a.1) u x) = id x) as Hid.
  { intros x. unfold failed_login_update. by destruct (_ >=? _). }
  split.
  - by rewrite ids_update_rows.
  - rewrite find_update_rows.
    + rewrite F. cbn. by rewrite String.eqb_refl.
    + intros x. unfold failed_login_update. by destruct (_ >=? _).
Qed.

Lemma still_unlocked t t' u u' :
  is_locked t u = false -> t <= t' -> locked_until u' = locked_until u ->
  is_locked t' u' = false.
Proof.
  unfold is_locked. intros L Le ->. destruct (locked_until u); [lia|done].
Qed.

(** One failed attempt on an account that is below the threshold afterwards:
    the counter goes up by one and the lock expiry stays as it was. *)
Lemma failed_attempt_counts a w mail u n :
  NoDup (List.map id (users w)) ->
  List.find (where_email mail) (users w) = Some u ->
  wrong_password mail (password_hash u) a ->
  is_locked (now a.1) u = false ->
  default 0 (failed_login_attempts u) = n -> n + 1 < 5 ->
  exists w' u',
    login_handler a.1 a.2 w = (w', Returned (fail 401 "Invalid credentials")) /\
    NoDup (List.map id (users w')) /\
    List.find (where_email mail) (users w') = Some u' /\
    password_hash u' = password_hash u /\
    default 0 (failed_login_attempts u') = n + 1 /\
    locked_until u' = locked_until u.
Proof.
  intros ND F W L C Lt.
  destruct (failed_attempt_step a w mail u ND F W L) as (w' & R & ND' & F').
  destruct (failed_login_update_spec (now a.1) u)
    as (_ & _ & Hh & _ & _ & _ & Hc & Hl).
  exists w', (failed_login_update (now a.1) u u).
  repeat split; try done.
  - rewrite Hc, C. done.
  - rewrite Hl, C. by assert ((n + 1 >=? 5) = false) as -> by lia.
Qed.

(** C1. On an account whose counter is at zero and that is not locked, five
    login attempts in a row with a wrong password are each answered 401;
    the fifth leaves the counter at 5 and the lock expiry at its own instant
    plus 30 minutes. Any login for the account served before that expiry is
    answered 423, whatever password it carries, and changes nothing. *)
Theorem five_failed_logins_lock w mail u a1 a2 a3 a4 a5 :
  NoDup (List.map id (users w)) ->
  List.find (where_email mail) (users w) = Some u ->
  default 0 (failed_login_attempts u) = 0 ->
  is_locked (now a1.1) u = false ->
  Forall (wrong_password mail (password_hash u)) [a1; a2; a3; a4; a5] ->
  now a1.1 <= now a2.1 <= now a3.1 /\ now a3.1 <= now a4.1 <= now a5.1 ->
  exists w5 u5,
    run_logins w [a1; a2; a3; a4; a5] =
      (w5, replicate 5 (Returned (fail 401 "Invalid credentials"))) /\
    List.find (where_email mail) (users w5) = Some u5 /\
    failed_login_attempts u5 = Some 5 /\
    locked_until u5 = Some (now a5.1 + 30 * 60 * 1000) /\
    forall a6,
      addresses mail a6 ->
      now a6.1 < now a5.1 + 30 * 60 * 1000 ->
      exists msg,
        login_handler a6.1 a6.2 w5 =
          (mkWorld (users w5) (staff w5) (redis w5)
             (EvFindOne mail :: trace w5),
           Returned (fail 423 msg)).
Proof.
  intros ND F C L W ((T12 & T23) & (T34 & T45)).
  apply Forall_cons in W as [W1 W]. apply Forall_cons in W as [W2 W].
  apply Forall_cons in W as [W3 W]. apply Forall_cons in W as [W4 W].
  apply Forall_cons in W as [W5 _].
  destruct (failed_attempt_counts a1 w mail u 0 ND F W1 L C)
    as (w1 & u1 & R1 & ND1 & F1 & H1 & C1 & L1); [lia|].
  rewrite <- H1 in W2.
  destruct (failed_attempt_counts a2 w1 mail u1 1 ND1 F1 W2)
    as (w2 & u2 & R2 & ND2 & F2 & H2 & C2 & L2); [|done|lia|].
  { eapply still_unlocked; [exact L|lia|done]. }
  rewrite <- H1, <- H2 in W3.
  destruct (failed_attempt_counts a3 w2 mail u2 2 ND2 F2 W3)
    as (w3 & u3 & R3 & ND3 & F3 & H3 & C3 & L3); [|done|lia|].
  { eapply still_unlocked; [exact L|lia|congruence]. }
  rewrite <- H1, <- H2, <- H3 in W4.
  destruct (failed_attempt_counts a4 w3 mail u3 3 ND3 F3 W4)
    as (w4 & u4 & R4 & ND4 & F4 & H4 & C4 & L4); [|done|lia|].
  { eapply still_unlocked; [exact L|lia|congruence]. }
  rewrite <- H1, <- H2, <- H3, <- H4 in W5.
  destruct (failed_attempt_step a5 w4 mail u4 ND4 F4 W5)
    as (w5 & R5 & ND5 & F5).
  { eapply still_unlocked; [exact L|lia|congruence]. }
  destruct (failed_login_update_spec (now a5.1) u4)
    as (_ & _ & _ & _ & _ & _ & Hc & Hl).
  rewrite C4 in Hc, Hl.
  change (3 + 1 + 1 >=? 5) with true in Hl. change (3 + 1 + 1) with 5 in Hc.
  cbn in Hl.
  exists w5, (failed_login_update (now a5.1) u4 u4).
  split; [|split; [done|split; [done|split; [done|]]]].
  - cbn [run_logins]. destruct a1, a2, a3, a4, a5. cbn [fst snd] in *.
    by rewrite R1, R2, R3, R4, R5.
  - intros a6 (V & E & D) T.
    destruct (login_handler_locked a6.1 a6.2 w5
                (failed_login_update (now a5.1) u4 u4) V D) as (msg & R6).
    + unfold account. by rewrite E.
    + unfold is_locked. rewrite Hl. lia.
    + exists msg. by rewrite <- E.
Qed.


(** ** What the responses of POST /login carry *)

Lemma answers_ret Q r : Q r -> answers Q (ret r).
Proof. intros q w w' r' [= _ <-]. exact q. Qed.

Lemma answers_throw Q e : answers Q (throw e).
Proof. intros w w' r. discriminate. Qed.

Lemma answers_bind {A} Q (m : M A) k :
  (forall a, answers Q (k a)) -> answers Q (bind m k).
Proof.
  intros K w w' r. unfold bind.
  destruct (m w) as [w1 [a|e]]; [apply K|discriminate].
Qed.

Lemma answers_try_catch Q m h :
  answers Q m -> (forall e, answers Q (h e)) -> answers Q (try_catch m h).
Proof.
  intros Hm Hh w w' r. unfold try_catch.
  destruct (m w) as [w1 [a|e]] eqn:E.
  - intros [= <- <-]. by eapply Hm.
  - apply Hh.
Qed.

Lemma login_validation_hides b key :
  key = "password_hash" \/ key = "two_factor_secret" ->
  json_mentions key (JArr (login_validation b)) = false.
Proof.
  unfold login_validation.
  intros [-> | ->];
    destruct (isEmail _), (6 <=? str_length (body_password b)),
      (twoFactorToken b) as [code|];
    try destruct ((6 <=? str_length code) && (str_length code <=? 6));
    reflexivity.
Qed.

Lemma json_mentions_opt_str key o : json_mentions key (opt_str o) = false.
Proof. by destruct o. Qed.

Lemma json_mentions_date_json key o : json_mentions key (date_json o) = false.
Proof. by destruct o. Qed.

Lemma json_mentions_num_json key o : json_mentions key (num_json o) = false.
Proof. by destruct o. Qed.

Lemma login_success_hides req inst :
  hidden inst = [] -> answers hides_credentials (login_success req inst).
Proof.
  intros Hh. unfold login_success.
  repeat (apply answers_bind; intros).
  apply answers_ret. unfold hides_credentials, toJSON. rewrite Hh.
  destruct (included_staff inst) as [[s|]|]; split;
    cbn -[opt_str date_json num_json];
    rewrite ?json_mentions_opt_str, ?json_mentions_date_json,
      ?json_mentions_num_json;
    reflexivity.
Qed.

Lemma login_handler_hides req b :
  answers hides_credentials (login_handler req b).
Proof.
  unfold login_handler.
  apply answers_try_catch; [|intros e; apply answers_ret; by split].
  case_match.
  { apply answers_ret. split; cbn -[login_validation json_mentions].
    - cbn [json_mentions]. cbn -[login_validation json_mentions].
      change (json_mentions "password_hash" (JArr (login_validation b))
              || false = false).
      by rewrite login_validation_hides; [|left].
    - cbn [json_mentions]. cbn -[login_validation json_mentions].
      change (json_mentions "two_factor_secret" (JArr (login_validation b))
              || false = false).
      by rewrite login_validation_hides; [|right]. }
  unfold User_findOne, db_query, ask.
  intros w w' r. unfold bind at 1 2. cbn.
  destruct (db_fault req); [discriminate|]. cbn.
  destruct (List.find _ (users w)) as [u|]; cbn.
  2:{ intros [= _ <-]. by split. }
  repeat case_match.
  all: try (intros [= _ <-]; by split).
  all: try (apply login_success_hides; reflexivity).
  all: unfold bind; repeat case_match; try discriminate.
  all: try (intros [= _ <-]; by split).
Qed.

Lemma authRateLimit_outcome req w :
  exists w',
    (authRateLimit req w = (w', Returned (Next tt)) \/
     authRateLimit req w =
       (w', Returned (Respond (fail 429
          "Too many authentication attempts. Please try again later.")))) /\
    users w' = users w /\ staff w' = staff w.
Proof.
  destruct (redis_fault req "get" (rate_key req)) as [e|] eqn:G.
  { eexists. rewrite (authRateLimit_get_fault req w e G). cbn. eauto. }
  destruct (at_ceiling (rate_reading req w) 10) eqn:C.
  { eexists. rewrite (authRateLimit_limited req w G C). cbn. eauto. }
  destruct (redis_fault req "multi" (rate_key req)) as [e|] eqn:F.
  { eexists. rewrite (authRateLimit_multi_fault req w e G C F). cbn. eauto. }
  eexists. rewrite (authRateLimit_allowed req w G C F). cbn. eauto.
Qed.

Lemma post_login_hides req b w r :
  (post_login req b w).2 = Returned r -> hides_credentials r.
Proof.
  unfold post_login, route, bind.
  destruct (authRateLimit_outcome req w) as (w1 & [-> | ->] & _ & _).
  - destruct (login_handler req b w1) as [w2 o] eqn:E. cbn.
    intros ->. by eapply login_handler_hides.
  - cbn. intros [= <-]. by split.
Qed.

Lemma post_login_limited req b w :
  rate_limited req w = true ->
  post_login req b w =
    (mkWorld (users w) (staff w) (redis w)
       (EvRedis "get" (rate_key req) :: trace w),
     Returned (fail 429
       "Too many authentication attempts. Please try again later.")).
Proof.
  unfold rate_limited.
  destruct (redis_fault req "get" (rate_key req)) eqn:G; [done|]. intros C.
  unfold post_login, route, bind. by rewrite (authRateLimit_limited req w G C).
Qed.

Lemma post_login_not_limited req b w :
  rate_limited req w = false ->
  exists w1,
    post_login req b w = login_handler req b w1 /\
    users w1 = users w /\ staff w1 = staff w.
Proof.
  unfold rate_limited. intros C.
  destruct (authRateLimit_outcome req w) as (w1 & [R | R] & U & S).
  - exists w1. unfold post_login, route, bind. by rewrite R.
  - exfalso.
    destruct (redis_fault req "get" (rate_key req)) as [e|] eqn:G.
    + by rewrite (authRateLimit_get_fault req w e G) in R.
    + destruct (redis_fault req "multi" (rate_key req)) as [e|] eqn:F.
      * by rewrite (authRateLimit_multi_fault req w e G C F) in R.
      * by rewrite (authRateLimit_allowed req w G C F) in R.
Qed.

Lemma login_success_answer req u s w :
  db_fault req = None ->
  redis_fault req "setex"
    (session_key (id u) (generateToken (id u) (role u) (now req))) = None ->
  (login_success req (mkInstance u [] (Some s)) w).2 =
    Returned (mkResponse 200
      (JObj [("success", JBool true);
             ("data",
              JObj [("token", JStr (generateToken (id u) (role u) (now req)));
                    ("user", JObj (public_account_data u s))]);
             ("message", JStr "Login successful")])).
Proof.
  intros D S.
  unfold login_success, bind, resetFailedAttempts, User_update, db_query, emit,
    createSession, redis_setex, redis_command, set_users, set_redis,
    logSecurityEvent.
  cbn -[toJSON obj_delete public_account_data]. rewrite D.
  cbn -[toJSON obj_delete public_account_data].
  fold (session_key (id u) (generateToken (id u) (role u) (now req))).
  rewrite S. cbn -[toJSON obj_delete public_account_data].
  unfold toJSON, public_account_data.
  destruct s; reflexivity.
Qed.

Lemma login_handler_answer req b w u :
  login_validation b = [] ->
  db_fault req = None ->
  account w b = Some u ->
  is_locked (now req) u = false ->
  verifyPassword (body_password b) (password_hash u) = true ->
  second_factor_ok req b u = true ->
  redis_fault req "setex"
    (session_key (id u) (generateToken (id u) (role u) (now req))) = None ->
  (login_handler req b w).2 =
    Returned (mkResponse 200
      (JObj [("success", JBool true);
             ("data",
              JObj [("token", JStr (generateToken (id u) (role u) (now req)));
                    ("user",
                     JObj (public_account_data u (staff_for (id u) (staff w))))]);
             ("message", JStr "Login successful")])).
Proof.
  intros V D A L P T S.
  unfold login_handler, try_catch, bind, User_findOne, db_query, emit, ask.
  rewrite V. cbn -[login_success public_account_data]. rewrite D.
  cbn -[login_success public_account_data].
  unfold account in A. rewrite A. cbn -[login_success public_account_data].
  rewrite L, P. cbn -[login_success public_account_data].
  unfold second_factor_ok in T.
  destruct (two_factor_enabled u); cbn in T;
    [apply andb_prop in T as [T1 T2]; rewrite T1, T2|];
    cbn -[login_success public_account_data];
    match goal with
    | |- context [login_success req (mkInstance u [] (Some ?s)) ?w0] =>
        pose proof (login_success_answer req u s w0 D S) as R; revert R;
        destruct (login_success req (mkInstance u [] (Some s)) w0) as [w2 o]
    end;
    cbn; by intros ->.
Qed.

(** C9. The answer to a login that goes through in full is status 200 with
    exactly: [success], the token minted for the account, the account's
    columns other than [password_hash] and [two_factor_secret] with the
    staff row joined to it, and the message. No object of it has a property
    [password_hash] or [two_factor_secret]; and it is the same answer
    whatever hash and whatever second-factor secret the account row holds
    and whatever password and code were typed, so neither value reaches the
    output under any name. The same holds of the keys of every other answer
    of POST /login. *)
Theorem login_response_hides_credentials req b w u :
  fully_successful req b w u ->
  let answer :=
    mkResponse 200
      (JObj [("success", JBool true);
             ("data",
              JObj [("token", JStr (generateToken (id u) (role u) (now req)));
                    ("user",
                     JObj (public_account_data u (staff_for (id u) (staff w))))]);
             ("message", JStr "Login successful")]) in
  (post_login req b w).2 = Returned answer /\
  hides_credentials answer /\
  (forall hash secret b2 w2,
     fully_successful req b2 w2 (with_credentials hash secret u) ->
     staff_for (id u) (staff w2) = staff_for (id u) (staff w) ->
     (post_login req b2 w2).2 = Returned answer) /\
  (forall b' w' r, (post_login req b' w').2 = Returned r -> hides_credentials r).
Proof.
  intros (Rl & V & D & A & L & P & T & S) answer.
  assert ((post_login req b w).2 = Returned answer) as R.
  { destruct (post_login_not_limited req b w Rl) as (w1 & -> & U & St).
    subst answer. rewrite <- St. apply login_handler_answer; try done.
    unfold account. by rewrite U. }
  split; [exact R|]. split; [by apply (post_login_hides req b w)|].
  split; [|intros b' w' r; apply post_login_hides].
  intros hash secret b2 w2 (Rl2 & V2 & D2 & A2 & L2 & P2 & T2 & S2) St2.
  destruct (post_login_not_limited req b2 w2 Rl2) as (w1 & -> & U & St).
  subst answer. rewrite <- St2, <- St.
  apply (login_handler_answer req b2 w1 (with_credentials hash secret u));
    try done.
  unfold account. by rewrite U.
Qed.

(** ** Enrolment of the second factor *)

Lemma authenticateToken_respond req w w' r :
  authenticateToken req w = (w', Returned (Respond r)) ->
  status r = 401 \/ status r = 423 \/ status r = 500.
Proof.
  unfold authenticateToken, try_catch, bind, redis_get, redis_command, emit, ask,
    jwt_verify, User_findByPk, db_query, throw, ret.
  repeat (case_match; cbn in *; simplify_eq); intros; simplify_eq; cbn; auto.
Qed.

Lemma authenticateToken_returns req w :
  exists w' r, authenticateToken req w = (w', Returned r).
Proof.
  unfold authenticateToken, try_catch, bind, redis_get, redis_command, emit, ask,
    jwt_verify, User_findByPk, db_query, throw, ret.
  repeat (case_match; cbn in *; simplify_eq); eauto.
Qed.

Lemma post_enable_2fa_ok req secret w w' r :
  post_enable_2fa req secret w = (w', Returned r) ->
  status r = 200 ->
  exists auth u0,
    bearer_token req = Some (req_token auth) /\
    (exists claims,
       jwt_parse (req_token auth) = Some (claims, jwt_secret) /\
       List.find (where_pk (userId claims)) (users w) = Some u0) /\
    two_factor_enabled u0 = false /\
    users w' =
      update_rows (id u0) false
        (fun x => set_two_factor (two_factor_enabled x) (Some secret) x)
        (users w).
Proof.
  unfold post_enable_2fa, route. unfold bind at 1.
  destruct (authenticateToken req w) as [w1 [[resp|auth]|e]] eqn:A; cbn;
    [| |discriminate].
  { intros [= <- <-] S.
    apply authenticateToken_respond in A. lia. }
  apply authenticateToken_next in A
    as (claims & B & _ & _ & _ & P & _ & D & F & _ & _ & U & _ & _).
  unfold try_catch, bind, User_findByPk, db_query, emit, ask, instance_update,
    set_users.
  cbn. rewrite D. cbn. rewrite U.
  apply List.find_some in F as F'. destruct F' as [_ W].
  assert (id (row (req_user auth)) = userId claims) as Eid.
  { unfold where_pk in W. apply andb_prop in W as [_ W].
    by apply String.eqb_eq in W. }
  rewrite Eid, F. cbn.
  destruct (two_factor_enabled (row (req_user auth))) eqn:E; cbn.
  { intros [= <- <-]. cbn. lia. }
  destruct (QRCode_toDataURL _) as [e|img]; cbn.
  { intros [= <- <-]. cbn. lia. }
  rewrite ?D. cbn. intros [= <- <-] _.
  exists auth, (row (req_user auth)). cbn. rewrite Eid. eauto 10.
Qed.

Lemma same_id_same_row rows (x y : User) :
  NoDup (List.map id rows) -> In x rows -> In y rows -> id x = id y -> x = y.
Proof.
  induction rows as [|z rows IH]; cbn; [done|].
  intros ND [->|Ix] [->|Iy] E; [done| | |].
  - apply NoDup_cons in ND as [N _]. exfalso. apply N.
    rewrite E. apply list_elem_of_In. by apply List.in_map.
  - apply NoDup_cons in ND as [N _]. exfalso. apply N.
    rewrite <- E. apply list_elem_of_In. by apply List.in_map.
  - apply NoDup_cons in ND as [_ ND]. by apply IH.
Qed.

(** C10. After POST /enable-2fa has answered 200 and stored a secret for an
    account, and before POST /verify-2fa-setup has set the enrolled flag, the
    account row has the secret and the flag off; a login for it with the
    right password, from a caller the limiter lets through, is answered 200
    with a token whether or not a code is sent along. The login handler
    looks at the flag only. *)
Theorem login_between_enable_and_verify
    reqE secret w wE rE tokenE claimsE signedE reqL b u :
  NoDup (List.map id (users w)) ->
  post_enable_2fa reqE secret w = (wE, Returned rE) ->
  status rE = 200 ->
  bearer_token reqE = Some tokenE ->
  jwt_parse tokenE = Some (claimsE, signedE) ->
  account wE b = Some u ->
  id u = userId claimsE ->
  login_validation b = [] ->
  db_fault reqL = None ->
  rate_limited reqL wE = false ->
  is_locked (now reqL) u = false ->
  verifyPassword (body_password b) (password_hash u) = true ->
  redis_fault reqL "setex"
    (session_key (id u) (generateToken (id u) (role u) (now reqL))) = None ->
  two_factor_secret u = Some secret /\
  two_factor_enabled u = false /\
  exists wL userData,
    post_login reqL b wE =
      (wL, Returned (mkResponse 200
         (JObj [("success", JBool true);
                ("data",
                 JObj [("token",
                        JStr (generateToken (id u) (role u) (now reqL)));
                       ("user", JObj userData)]);
                ("message", JStr "Login successful")]))).
Proof.
  intros ND E S B P A I V D R L Pw Sx.
  destruct (post_enable_2fa_ok reqE secret w wE rE E S)
    as (auth & u0 & B' & (claims & P' & F0) & E0 & U).
  rewrite B in B'. injection B' as Et. rewrite <- Et, P in P'.
  injection P' as <- _.
  unfold account in A. rewrite U in A.
  rewrite find_update_rows in A by done.
  destruct (List.find _ (users w)) as [x|] eqn:Fx; [|done].
  cbn in A. injection A as <-.
  apply List.find_some in Fx as Fx'. destruct Fx' as [Ix _].
  apply List.find_some in F0 as F0'. destruct F0' as [I0 W0].
  assert (id u0 = userId claimsE) as Eid.
  { unfold where_pk in W0. apply andb_prop in W0 as [_ W0].
    by apply String.eqb_eq in W0. }
  assert (id x = id u0) as Ex.
  { rewrite Eid, <- I. by destruct (String.eqb (id x) (id u0)). }
  assert (x = u0) as -> by (by eapply same_id_same_row).
  rewrite String.eqb_refl in *. cbn in *.
  repeat split; [done|].
  destruct (post_login_not_limited reqL b wE R) as (w1 & -> & U1 & _).
  destruct (login_handler_success reqL b w1
              (set_two_factor (two_factor_enabled u0) (Some secret) u0) V D)
    as (wL & ud & RL & _); try done.
  - unfold account. rewrite U1, U.
    rewrite find_update_rows by done. rewrite Fx. cbn.
    by rewrite String.eqb_refl.
  - unfold second_factor_ok. cbn. by rewrite E0.
  - eauto.
Qed.

(** ** Properties of the store kept by the handlers *)

Lemma keeps_ret {A} P (a : A) : keeps P (ret a).
Proof. by intros w. Qed.

Lemma keeps_throw {A} P e : keeps P (@throw A e).
Proof. by intros w. Qed.

Lemma keeps_bind {A B} P (m : M A) (k : A -> M B) :
  keeps P m -> (forall a, keeps P (k a)) -> keeps P (bind m k).
Proof.
  intros Hm Hk w Hw. unfold bind. specialize (Hm w Hw).
  destruct (m w) as [w1 [a|e]]; [by apply Hk|done].
Qed.

Lemma keeps_try_catch {A} P (m : M A) h :
  keeps P m -> (forall e, keeps P (h e)) -> keeps P (try_catch m h).
Proof.
  intros Hm Hh w Hw. unfold try_catch. specialize (Hm w Hw).
  destruct (m w) as [w1 [a|e]]; [done|by apply Hh].
Qed.

Lemma keeps_bind_throw {A B} P e (k : A -> M B) : keeps P (bind (throw e) k).
Proof. by intros w. Qed.

Lemma keeps_bind_ret {A B} P (a : A) (k : A -> M B) :
  keeps P (k a) -> keeps P (bind (ret a) k).
Proof. intros Hk w. apply Hk. Qed.

Lemma keeps_emit P ev : keeps P (emit ev).
Proof. by intros w. Qed.

Lemma keeps_ask {A} P (f : World -> A) : keeps P (ask f).
Proof. by intros w. Qed.

Lemma keeps_set_users P f : keeps P (set_users f).
Proof. by intros w. Qed.

Lemma keeps_set_redis (P : gmap string RedisEntry -> Prop) f :
  (forall store, P store -> P (f store)) -> keeps P (set_redis f).
Proof. intros Hf w. apply Hf. Qed.

Lemma keeps_db_query {A} P req ev (m : M A) :
  keeps P m -> keeps P (db_query req ev m).
Proof.
  intros Hm. unfold db_query. apply keeps_bind; [apply keeps_emit|].
  intros _. destruct (db_fault req); [apply keeps_throw|done].
Qed.

Lemma keeps_redis_command {A} P req command key (m : M A) :
  keeps P m -> keeps P (redis_command req command key m).
Proof.
  intros Hm. unfold redis_command. apply keeps_bind; [apply keeps_emit|].
  intros _. destruct (redis_fault req command key); [apply keeps_throw|done].
Qed.

Lemma keeps_redis_get P req key : keeps P (redis_get req key).
Proof. apply keeps_redis_command, keeps_ask. Qed.

Lemma keeps_User_findByPk P req pk inc excl :
  keeps P (User_findByPk req pk inc excl).
Proof. apply keeps_db_query, keeps_ask. Qed.

Lemma keeps_User_findOne P req mail : keeps P (User_findOne req mail).
Proof. apply keeps_db_query, keeps_ask. Qed.

Lemma keeps_instance_update P req inst f : keeps P (instance_update req inst f).
Proof. apply keeps_db_query, keeps_set_users. Qed.

Lemma keeps_User_update P req pk f : keeps P (User_update req pk f).
Proof. apply keeps_db_query, keeps_set_users. Qed.

Lemma keeps_jwt_verify P token t : keeps P (jwt_verify token t).
Proof.
  unfold jwt_verify. repeat case_match; (apply keeps_throw || apply keeps_ret).
Qed.

Lemma keeps_authenticateToken P req : keeps P (authenticateToken req).
Proof.
  unfold authenticateToken.
  apply keeps_try_catch.
  - case_match; [apply keeps_ret|].
    apply keeps_bind; [apply keeps_redis_get|intros].
    case_match; [apply keeps_ret|].
    apply keeps_bind; [apply keeps_jwt_verify|intros].
    apply keeps_bind; [apply keeps_User_findByPk|intros].
    repeat case_match; apply keeps_ret.
  - intros e. repeat case_match; apply keeps_ret.
Qed.

Lemma keeps_handleFailedLogin P req uid : keeps P (handleFailedLogin req uid).
Proof.
  unfold handleFailedLogin, logSecurityEvent.
  apply keeps_bind; [apply keeps_User_findByPk|intros].
  repeat case_match; try apply keeps_ret; try apply keeps_instance_update.
  apply keeps_bind; [apply keeps_instance_update|intros; apply keeps_emit].
Qed.

Lemma keeps_route {A} P (mw : M (Mw A)) handler :
  keeps P mw -> (forall a, keeps P (handler a)) -> keeps P (route mw handler).
Proof.
  intros Hm Hh. unfold route. apply keeps_bind; [done|].
  intros [r|a]; [apply keeps_ret|apply Hh].
Qed.

Lemma keeps_login_handler (P : gmap string RedisEntry -> Prop) req b :
  (forall store uid token e, P store -> P (<[session_key uid token := e]> store)) ->
  keeps P (login_handler req b).
Proof.
  intros Hs.
  assert (forall inst, keeps P (login_success req inst)) as Hsucc.
  { intros inst.
    unfold login_success, resetFailedAttempts, createSession, redis_setex,
      logSecurityEvent.
    apply keeps_bind; [apply keeps_User_update|intros].
    apply keeps_bind; [|intros].
    { apply keeps_redis_command, keeps_set_redis. intros store. apply Hs. }
    apply keeps_bind; [apply keeps_emit|intros; apply keeps_ret]. }
  unfold login_handler, logSecurityEvent.
  apply keeps_try_catch; [|intros; apply keeps_ret].
  case_match; [apply keeps_ret|].
  apply keeps_bind; [apply keeps_User_findOne|intros [inst|]].
  2:{ apply keeps_bind; [apply keeps_emit|intros; apply keeps_ret]. }
  repeat case_match; try apply keeps_ret; try apply Hsucc.
  - apply keeps_bind; [apply keeps_handleFailedLogin|intros].
    apply keeps_bind; [apply keeps_emit|intros; apply keeps_ret].
  - apply keeps_bind; [apply keeps_emit|intros; apply keeps_ret].
Qed.

Lemma keeps_authRateLimit (P : gmap string RedisEntry -> Prop) req :
  (forall store,
     P store ->
     P (expire_entry (now req) (rate_key req) 900
          (incr_entry (now req) (rate_key req) store))) ->
  keeps P (authRateLimit req).
Proof.
  intros Hr. unfold authRateLimit, redis_multi_incr_expire.
  apply keeps_try_catch; [|intros; apply keeps_ret].
  apply keeps_bind; [apply keeps_redis_get|intros].
  case_match; [apply keeps_ret|].
  apply keeps_bind; [|intros; apply keeps_ret].
  apply keeps_redis_command, keeps_set_redis. exact Hr.
Qed.

Lemma keeps_logout (P : gmap string RedisEntry -> Prop) req auth :
  (forall store uid token, P store -> P (delete (session_key uid token) store)) ->
  (forall store claims signed_with,
     jwt_parse (req_token auth) = Some (claims, signed_with) ->
     0 < exp claims - now req / 1000 ->
     P store ->
     P (<[blacklist_key (req_token auth) :=
            mkEntry "true"
              (Some (now req + (exp claims - now req / 1000) * 1000))]> store)) ->
  keeps P (logout req auth).
Proof.
  intros Hd Hb. unfold logout, redis_setex, redis_del, logSecurityEvent.
  apply keeps_try_catch; [|intros; apply keeps_ret].
  destruct (jwt_parse (req_token auth)) as [[claims key]|] eqn:Pj.
  2:{ apply keeps_bind_throw. }
  apply keeps_bind_ret.
  apply keeps_bind; [|intros].
  { destruct (exp claims - now req / 1000 >? 0) eqn:E; [|apply keeps_ret].
    apply keeps_redis_command, keeps_set_redis. intros store.
    apply (Hb store claims key); [done|lia]. }
  apply keeps_bind; [|intros].
  { apply keeps_redis_command, keeps_set_redis. intros store. apply Hd. }
  apply keeps_bind; [apply keeps_emit|intros; apply keeps_ret].
Qed.

Lemma keeps_get_me P req : keeps P (get_me req).
Proof.
  unfold get_me. apply keeps_route; [apply keeps_authenticateToken|intros auth].
  apply keeps_try_catch; [|intros; apply keeps_ret].
  apply keeps_bind; [apply keeps_User_findByPk|intros; apply keeps_ret].
Qed.

Lemma keeps_post_enable_2fa P req secret : keeps P (post_enable_2fa req secret).
Proof.
  unfold post_enable_2fa.
  apply keeps_route; [apply keeps_authenticateToken|intros auth].
  apply keeps_try_catch; [|intros; apply keeps_ret].
  apply keeps_bind; [apply keeps_User_findByPk|intros].
  repeat case_match; try apply keeps_ret; try apply keeps_throw.
  apply keeps_bind; [apply keeps_instance_update|intros; apply keeps_ret].
Qed.

Lemma keeps_post_verify_2fa_setup P req code :
  keeps P (post_verify_2fa_setup req code).
Proof.
  unfold post_verify_2fa_setup, logSecurityEvent.
  apply keeps_route; [apply keeps_authenticateToken|intros auth].
  apply keeps_try_catch; [|intros; apply keeps_ret].
  case_match; [apply keeps_ret|].
  apply keeps_bind; [apply keeps_User_findByPk|intros].
  repeat case_match; try apply keeps_ret; try apply keeps_throw.
  apply keeps_bind; [apply keeps_instance_update|intros].
  apply keeps_bind; [apply keeps_emit|intros; apply keeps_ret].
Qed.

Lemma keeps_post_disable_2fa P req password :
  keeps P (post_disable_2fa req password).
Proof.
  unfold post_disable_2fa, logSecurityEvent.
  apply keeps_route; [apply keeps_authenticateToken|intros auth].
  apply keeps_try_catch; [|intros; apply keeps_ret].
  case_match; [apply keeps_ret|].
  apply keeps_bind; [apply keeps_User_findByPk|intros].
  repeat case_match; try apply keeps_ret; try apply keeps_throw.
  apply keeps_bind; [apply keeps_instance_update|intros].
  apply keeps_bind; [apply keeps_emit|intros; apply keeps_ret].
Qed.

(** ** The denylist *)

Lemma blacklist_key_inj t1 t2 : blacklist_key t1 = blacklist_key t2 -> t1 = t2.
Proof. unfold blacklist_key. intros E. cbn in E. by injection E. Qed.

Lemma blacklist_not_session t uid token : blacklist_key t <> session_key uid token.
Proof. unfold blacklist_key, session_key. cbn. discriminate. Qed.

Lemma blacklist_not_rate t req : blacklist_key t <> rate_key req.
Proof. unfold blacklist_key, rate_key. cbn. discriminate. Qed.

Lemma rate_not_session req uid token : rate_key req <> session_key uid token.
Proof. unfold rate_key, session_key. cbn. discriminate. Qed.

Lemma incr_entry_other t key key' store :
  key' <> key -> incr_entry t key store !! key' = store !! key'.
Proof.
  intros N. unfold incr_entry.
  repeat case_match; try done; by rewrite lookup_insert_ne.
Qed.

Lemma expire_entry_other t key seconds key' store :
  key' <> key -> expire_entry t key seconds store !! key' = store !! key'.
Proof.
  intros N. unfold expire_entry.
  repeat case_match; try done; by rewrite lookup_insert_ne.
Qed.

Lemma keeps_denylisted_serve token claims signed_with req c :
  jwt_parse token = Some (claims, signed_with) ->
  keeps (denylisted token (exp claims)) (serve req c).
Proof.
  intros Pj.
  assert (forall store uid tok e,
            denylisted token (exp claims) store ->
            denylisted token (exp claims) (<[session_key uid tok := e]> store))
    as Hs.
  { intros store uid tok e (d & L & Le). exists d.
    rewrite lookup_insert_ne; [done|].
    intros E. by eapply blacklist_not_session. }
  destruct c as [b| | |secret|code|password]; cbn [serve].
  - unfold post_login. apply keeps_route; [|intros; by apply keeps_login_handler].
    apply keeps_authRateLimit. intros store (d & L & Le). exists d.
    rewrite expire_entry_other, incr_entry_other;
      [done|apply blacklist_not_rate..].
  - unfold post_logout.
    apply keeps_route; [apply keeps_authenticateToken|intros auth].
    apply keeps_logout.
    + intros store uid tok (d & L & Le). exists d.
      rewrite lookup_delete_ne; [done|].
      intros E. by eapply blacklist_not_session.
    + intros store claims' key' Pj' Pos (d & L & Le).
      destruct (decide (req_token auth = token)) as [E|N].
      * rewrite E in *. rewrite Pj in Pj'. injection Pj' as <- <-.
        eexists. rewrite lookup_insert_eq. split; [done|].
        pose proof (Z.mul_div_le (now req) 1000). lia.
      * exists d. rewrite lookup_insert_ne; [done|].
        intros E. by apply blacklist_key_inj in E.
  - apply keeps_get_me.
  - apply keeps_post_enable_2fa.
  - apply keeps_post_verify_2fa_setup.
  - apply keeps_post_disable_2fa.
Qed.

Lemma denylisted_serve_all token claims signed_with calls w :
  jwt_parse token = Some (claims, signed_with) ->
  denylisted token (exp claims) (redis w) ->
  denylisted token (exp claims) (redis (serve_all w calls)).
Proof.
  intros Pj. revert w.
  induction calls as [|[req c] calls IH]; intros w Hw; cbn [serve_all]; [done|].
  apply IH. by eapply keeps_denylisted_serve.
Qed.

Lemma denylisted_token_rejected token claims signed_with req w :
  jwt_parse token = Some (claims, signed_with) ->
  denylisted token (exp claims) (redis w) ->
  bearer_token req = Some token ->
  exists w' r,
    authenticateToken req w = (w', Returned (Respond r)) /\
    (status r = 401 \/ status r = 500).
Proof.
  intros Pj (d & L & Le) B.
  unfold authenticateToken, try_catch, bind, redis_get, redis_command, emit, ask,
    jwt_verify.
  rewrite B. cbn.
  destruct (String.eqb token ""); cbn; [eauto|].
  fold (blacklist_key token).
  destruct (redis_fault req "get" (blacklist_key token)); cbn.
  { repeat case_match; cbn; eauto. }
  unfold redis_lookup. rewrite L. unfold live. cbn.
  destruct (now req <? d) eqn:Lv; cbn; [eauto|].
  rewrite Pj.
  destruct (String.eqb signed_with jwt_secret); cbn -[Z.div]; [|eauto].
  assert ((now req / 1000 >=? exp claims) = true) as ->.
  { apply Z.geb_le. apply Z.div_le_lower_bound; lia. }
  cbn. eauto.
Qed.

Lemma post_logout_ok req w w1 r token :
  post_logout req w = (w1, Returned r) ->
  status r = 200 ->
  bearer_token req = Some token ->
  exists claims,
    jwt_parse token = Some (claims, jwt_secret) /\
    0 < exp claims - now req / 1000 /\
    redis w1 !! blacklist_key token =
      Some (mkEntry "true"
              (Some (now req + (exp claims - now req / 1000) * 1000))).
Proof.
  unfold post_logout, route. unfold bind at 1.
  destruct (authenticateToken req w) as [w0 [[resp|auth]|e]] eqn:A; cbn;
    [| |discriminate].
  { intros [= <- <-] S. apply authenticateToken_respond in A. lia. }
  apply authenticateToken_next in A
    as (claims & B & _ & _ & _ & Pj & E & _ & _ & _ & _ & _ & _ & Rd).
  intros R S B'. rewrite B in B'. injection B' as Et. rewrite Et in *.
  exists claims. split; [done|]. split; [lia|].
  revert R.
  unfold logout, try_catch, bind, redis_setex, redis_del, redis_command, emit,
    set_redis, logSecurityEvent.
  rewrite Et, Pj. cbn -[Z.div].
  assert ((exp claims - now req / 1000 >? 0) = true) as -> by lia.
  cbn -[Z.div]. fold (blacklist_key token).
  destruct (redis_fault req "setex" (blacklist_key token)); cbn -[Z.div].
  { intros [= <- <-]. cbn in S. lia. }
  destruct (redis_fault req "del" _); cbn -[Z.div].
  { intros [= <- <-]. cbn in S. lia. }
  intros [= <- <-]. cbn -[Z.div].
  rewrite lookup_delete_ne.
  - by rewrite lookup_insert_eq.
  - intros E'. symmetry in E'. revert E'.
    apply (blacklist_not_session token).
Qed.

(** C6. When POST /logout has answered 200 for a bearer token, the denylist
    holds an entry for the token whose time-to-live is the lifetime the token
    had left at that instant, in whole seconds. From then on, whatever
    requests the server has worked through in between and whatever the
    clock shows, [authenticateToken] answers a request bearing the token
    with a 401 (a 500 when the denylist cannot be read) and never passes it
    on: there is no grace period. *)
Theorem revoked_token_stays_rejected req w w1 r token :
  post_logout req w = (w1, Returned r) ->
  status r = 200 ->
  bearer_token req = Some token ->
  exists claims,
    jwt_parse token = Some (claims, jwt_secret) /\
    0 < exp claims - now req / 1000 /\
    redis w1 !! blacklist_key token =
      Some (mkEntry "true"
              (Some (now req + (exp claims - now req / 1000) * 1000))) /\
    forall calls req',
      bearer_token req' = Some token ->
      exists w' r',
        authenticateToken req' (serve_all w1 calls) =
          (w', Returned (Respond r')) /\
        (status r' = 401 \/ status r' = 500).
Proof.
  intros R S B.
  destruct (post_logout_ok req w w1 r token R S B) as (claims & Pj & Pos & L).
  exists claims. repeat split; try done.
  intros calls req' B'.
  apply (denylisted_token_rejected token claims jwt_secret); [done| |done].
  apply (denylisted_serve_all token claims jwt_secret); [done|].
  eexists. split; [exact L|].
  pose proof (Z.mul_div_le (now req) 1000). lia.
Qed.

(** ** Counting logins per address *)

Lemma redis_lookup_later start t key store :
  redis_lookup start key store = None -> start <= t ->
  redis_lookup t key store = None.
Proof.
  unfold redis_lookup, live. intros L Le.
  destruct (store !! key) as [e|]; [|done].
  destruct (expires_at e) as [d|]; [|done].
  destruct (start <? d) eqn:E; [done|].
  by assert ((t <? d) = false) as -> by lia.
Qed.

Lemma counted_reading addr start k req w :
  0 <= k -> counted addr start k (redis w) -> in_window addr start req ->
  at_ceiling (rate_reading req w) 10 = bool_decide (10 <= k).
Proof.
  intros K C (I & T & _). unfold rate_reading, rate_key. rewrite I.
  unfold counted in C. destruct (k =? 0) eqn:E.
  - rewrite (redis_lookup_later start (now req) _ _ C) by lia. cbn.
    symmetry. apply bool_decide_eq_false. lia.
  - destruct C as (d & L & Le). unfold redis_lookup, live. rewrite L. cbn.
    assert ((now req <? d) = true) as -> by lia. cbn.
    unfold at_ceiling. rewrite string_of_Z_truthy. cbn.
    rewrite parseInt_string_of_Z.
    destruct (decide (10 <= k)).
    + rewrite bool_decide_eq_true_2 by done. lia.
    + rewrite bool_decide_eq_false_2 by done. lia.
Qed.

Lemma counted_step addr start k t store :
  0 <= k -> counted addr start k store -> start <= t < start + 15 * 60 * 1000 ->
  counted addr start (k + 1)
    (expire_entry t ("auth_rate_limit:" +:+ addr) 900
       (incr_entry t ("auth_rate_limit:" +:+ addr) store)).
Proof.
  intros K C T. unfold counted in *.
  assert ((k + 1 =? 0) = false) as -> by lia.
  exists (t + 900 * 1000). split; [|lia].
  unfold incr_entry, expire_entry.
  destruct (k =? 0) eqn:E.
  - assert (k = 0) as -> by lia.
    rewrite (redis_lookup_later start t _ _ C) by lia.
    unfold redis_lookup at 1. rewrite lookup_insert_eq. cbn.
    by rewrite lookup_insert_eq.
  - destruct C as (d & L & Le).
    assert (redis_lookup t ("auth_rate_limit:" +:+ addr) store =
            Some (mkEntry (string_of_Z k) (Some d))) as ->.
    { unfold redis_lookup, live. rewrite L. cbn.
      by assert ((t <? d) = true) as -> by lia. }
    cbn. rewrite parseInt_string_of_Z.
    unfold redis_lookup, live. rewrite lookup_insert_eq. cbn.
    assert ((t <? d) = true) as -> by lia.
    by rewrite lookup_insert_eq.
Qed.

Lemma counted_session addr start k store uid token e :
  counted addr start k store ->
  counted addr start k (<[session_key uid token := e]> store).
Proof.
  assert ("auth_rate_limit:" +:+ addr <> session_key uid token) as N.
  { unfold session_key. cbn. discriminate. }
  unfold counted, redis_lookup.
  destruct (k =? 0); rewrite lookup_insert_ne by done; done.
Qed.

Lemma counted_post_login addr start k req b w :
  0 <= k < 10 -> counted addr start k (redis w) -> in_window addr start req ->
  counted addr start (k + 1) (redis (post_login req b w).1).
Proof.
  intros K C W.
  pose proof (counted_reading addr start k req w) as R.
  rewrite bool_decide_eq_false_2 in R by lia.
  destruct W as (I & T & G & F).
  unfold post_login, route, bind.
  rewrite (authRateLimit_allowed req w G); [|by apply R; [lia| |]|done].
  apply (keeps_login_handler (counted addr start (k + 1))).
  - intros *. apply counted_session.
  - cbn. unfold rate_key. rewrite I. apply counted_step; [lia|done..].
Qed.

Lemma counted_ext addr start k (store store' : gmap string RedisEntry) :
  store' !! ("auth_rate_limit:" +:+ addr) = store !! ("auth_rate_limit:" +:+ addr) ->
  counted addr start k store -> counted addr start k store'.
Proof.
  intros E. unfold counted, redis_lookup. rewrite E. done.
Qed.

Lemma rate_key_other addr req :
  String.eqb (ip req) addr = false -> "auth_rate_limit:" +:+ addr <> rate_key req.
Proof.
  intros N E. unfold rate_key in E. cbn in E.
  assert (addr = ip req) as -> by (by injection E).
  rewrite String.eqb_refl in N. discriminate.
Qed.

(** Requests other than logins from [addr] leave its counter alone. *)
Lemma keeps_counted_other addr start k rc :
  login_from addr rc = false -> keeps (counted addr start k) (serve rc.1 rc.2).
Proof.
  destruct rc as [req c]. unfold login_from. cbn [fst snd].
  assert (forall store uid tok e,
            counted addr start k store ->
            counted addr start k (<[session_key uid tok := e]> store)) as Hs.
  { intros *. apply counted_session. }
  destruct c as [b| | |secret|code|password]; cbn [serve]; intros N.
  - unfold post_login. apply keeps_route; [|intros; by apply keeps_login_handler].
    apply keeps_authRateLimit. intros store. apply counted_ext.
    rewrite expire_entry_other, incr_entry_other;
      [done|by apply rate_key_other..].
  - unfold post_logout.
    apply keeps_route; [apply keeps_authenticateToken|intros auth].
    apply keeps_logout.
    + intros store uid tok. apply counted_ext.
      rewrite lookup_delete_ne; [done|].
      unfold session_key. cbn. discriminate.
    + intros store claims key _ _. apply counted_ext.
      rewrite lookup_insert_ne; [done|].
      unfold blacklist_key. cbn. discriminate.
  - apply keeps_get_me.
  - apply keeps_post_enable_2fa.
  - apply keeps_post_verify_2fa_setup.
  - apply keeps_post_disable_2fa.
Qed.

Lemma counted_serve_all addr start calls k w :
  0 <= k -> k + logins_from addr calls <= 10 ->
  counted addr start k (redis w) ->
  Forall (fun rc => login_from addr rc = true -> in_window addr start rc.1) calls ->
  counted addr start (k + logins_from addr calls) (redis (serve_all w calls)).
Proof.
  unfold logins_from.
  revert k w. induction calls as [|[req c] rest IH]; intros k w K Le C W.
  - cbn. by rewrite Z.add_0_r.
  - apply Forall_cons in W as [W1 W].
    cbn [serve_all List.filter] in *.
    destruct (login_from addr (req, c)) eqn:L.
    + cbn [length] in *.
      replace (k + Z.of_nat (S (length (List.filter (login_from addr) rest))))
        with ((k + 1) + Z.of_nat (length (List.filter (login_from addr) rest)))
        by lia.
      apply IH; [lia|lia| |done].
      unfold login_from in L. cbn [fst snd] in L.
      destruct c as [b| | | | |]; try discriminate. cbn [serve].
      apply counted_post_login; [lia|done|by apply W1].
    + apply IH; [done|done| |done].
      by apply (keeps_counted_other addr start k (req, c)).
Qed.

(** C4. Take the requests a server has worked through since an instant
    [start] at which an address had no live counter: if ten of them were
    logins from that address, each within the fifteen minutes after [start],
    then one more login from it within the same fifteen minutes is answered
    429, whatever credentials it carries, whatever the accounts table
    holds and whatever other requests were served in between. Serving it
    consists of the read of the counter alone: the only effect recorded is
    that Redis read, so no account row has been looked up. *)
Theorem eleventh_login_is_rate_limited w addr start calls req b :
  logins_from addr calls = 10 ->
  redis_lookup start ("auth_rate_limit:" +:+ addr) (redis w) = None ->
  Forall (fun rc => login_from addr rc = true -> in_window addr start rc.1) calls ->
  in_window addr start req ->
  let w10 := serve_all w calls in
  post_login req b w10 =
    (mkWorld (users w10) (staff w10) (redis w10)
       (EvRedis "get" ("auth_rate_limit:" +:+ addr) :: trace w10),
     Returned (fail 429
       "Too many authentication attempts. Please try again later.")).
Proof.
  intros Ten Fresh W W11 w10.
  assert (counted addr start 10 (redis w10)) as C.
  { replace 10 with (0 + logins_from addr calls) by lia.
    apply counted_serve_all; [lia|lia|done|done]. }
  pose proof (counted_reading addr start 10 req w10) as R.
  rewrite bool_decide_eq_true_2 in R by lia.
  destruct W11 as (I & T & G & F).
  rewrite <- I. apply post_login_limited.
  unfold rate_limited. rewrite G. apply R; [lia|done|].
  unfold in_window. repeat split; (done || lia).
Qed.

End Properties.

(** * The statements on the concrete hospital *)

Import Scenario.

(** C2. A nurse with the second factor enrolled logs in with the right
    password and a wrong code: the answer is the 401 for the code, and the
    handler has neither looked the account up by key nor written to it, as
    [handleFailedLogin] would have; the failed-attempt counter is still 0. *)
Theorem invalid_2fa_code_not_counted :
  let out :=
    @post_login libraries (request 1000 None)
      (credentials "nurse@h.com" "thermometer" (Some "000000")) hospital in
  out.2 = Returned (fail 401 "Invalid two-factor authentication code") /\
  users out.1 = users hospital /\
  failed_login_attempts <$>
    @account libraries out.1 (credentials "nurse@h.com" "thermometer" None)
    = Some (Some 0) /\
  trace out.1 =
    [EvSecurity "login_attempt_invalid_2fa" (Some "u2")
       (request_details (request 1000 None));
     EvFindOne "nurse@h.com";
     EvRedis "multi" "auth_rate_limit:203.0.113.7";
     EvRedis "get" "auth_rate_limit:203.0.113.7"].
Proof. vm_compute. repeat split. Qed.


(** C7 as stated does not hold: an expired token and a revoked token are
    answered with different payloads. *)
Lemma rejection_reasons_are_told_apart :
  ~ @rejections_indistinguishable libraries.
Proof.
  intros C.
  specialize (C ExpiredToken RevokedToken
                (request 100000 (Some "Bearer tok-short"))
                (request 1000 (Some "Bearer tok-u1"))
                hospital hospital_after_logout).
  assert ((@authenticateToken libraries
             (request 100000 (Some "Bearer tok-short")) hospital).2 <>
          (@authenticateToken libraries
             (request 1000 (Some "Bearer tok-u1")) hospital_after_logout).2) as N.
  { vm_compute. discriminate. }
  apply N, C.
  - exists "tok-short". repeat split; try by vm_compute.
    eexists. split; [by vm_compute|]. by vm_compute.
  - exists "tok-u1". repeat split; by vm_compute.
Qed.

Lemma five_failed_logins_lock_witness :
  exists w5 u5,
    @run_logins libraries hospital
      [guess 0; guess 1000; guess 2000; guess 3000; guess 4000] =
      (w5, replicate 5 (Returned (fail 401 "Invalid credentials"))) /\
    List.find (@where_email "doc@h.com") (users w5) = Some u5 /\
    failed_login_attempts u5 = Some 5 /\
    locked_until u5 = Some (now (guess 4000).1 + 30 * 60 * 1000) /\
    forall a6,
      @addresses libraries "doc@h.com" a6 ->
      now a6.1 < now (guess 4000).1 + 30 * 60 * 1000 ->
      exists msg,
        @login_handler libraries a6.1 a6.2 w5 =
          (mkWorld (users w5) (staff w5) (redis w5)
             (EvFindOne "doc@h.com" :: trace w5),
           Returned (fail 423 msg)).
Proof.
  apply (@five_failed_logins_lock libraries hospital "doc@h.com" doctor
           (guess 0) (guess 1000) (guess 2000) (guess 3000) (guess 4000)).
  - apply (bool_decide_unpack _). by vm_compute.
  - reflexivity.
  - reflexivity.
  - reflexivity.
  - repeat constructor.
  - cbn. lia.
Defined.


Lemma eleventh_login_is_rate_limited_witness :
  let w10 := @serve_all libraries hospital traffic in
  @post_login libraries (request 10000 None)
    (credentials "doc@h.com" "stethoscope" None) w10 =
    (mkWorld (users w10) (staff w10) (redis w10)
       (EvRedis "get" ("auth_rate_limit:" +:+ "203.0.113.7") :: trace w10),
     Returned (fail 429
       "Too many authentication attempts. Please try again later.")).
Proof.
  apply (@eleventh_login_is_rate_limited libraries hospital "203.0.113.7" 0
           traffic (request 10000 None)
           (credentials "doc@h.com" "stethoscope" None)).
  - reflexivity.
  - reflexivity.
  - repeat constructor; cbn; (lia || discriminate).
  - repeat split; cbn; lia.
Defined.

Lemma rate_limiter_fails_open_witness :
  exists w',
    @authRateLimit (request_while_redis_down 1000) hospital =
      (w', Returned (Next tt)) /\
    users w' = users hospital /\ redis w' = redis hospital /\
    @post_login libraries (request_while_redis_down 1000)
      (credentials "doc@h.com" "stethoscope" None) hospital =
    @login_handler libraries (request_while_redis_down 1000)
      (credentials "doc@h.com" "stethoscope" None) w'.
Proof.
  apply (@rate_limiter_fails_open libraries (request_while_redis_down 1000)
           (credentials "doc@h.com" "stethoscope" None) hospital
           (mkExn "Error" "connect ECONNREFUSED 127.0.0.1:6379")).
  left. reflexivity.
Defined.

Lemma revoked_token_stays_rejected_witness :
  let w1 := (@post_logout libraries (request 0 (Some "Bearer tok-u1")) hospital).1 in
  exists claims,
    @jwt_parse libraries "tok-u1" = Some (claims, @jwt_secret libraries) /\
    0 < exp claims - 0 / 1000 /\
    redis w1 !! blacklist_key "tok-u1" =
      Some (mkEntry "true" (Some (0 + (exp claims - 0 / 1000) * 1000))) /\
    forall calls req',
      @bearer_token req' = Some "tok-u1" ->
      exists w' r',
        @authenticateToken libraries req' (@serve_all libraries w1 calls) =
          (w', Returned (Respond r')) /\
        (status r' = 401 \/ status r' = 500).
Proof.
  apply (@revoked_token_stays_rejected libraries
           (request 0 (Some "Bearer tok-u1")) hospital _
           (mkResponse 200
              (JObj [("success", JBool true);
                     ("message", JStr "Logged out successfully")]))
           "tok-u1").
  - vm_compute. reflexivity.
  - reflexivity.
  - reflexivity.
Defined.

Lemma token_rejections_answer_401_witness :
  exists w',
    @authenticateToken libraries (request 100000 (Some "Bearer tok-short"))
      hospital =
      (w', Returned (Respond (fail 401 "Token has expired"))) /\
    users w' = users hospital /\ redis w' = redis hospital.
Proof.
  apply (@token_rejections_answer_401 libraries ExpiredToken
           (request 100000 (Some "Bearer tok-short")) hospital).
  exists "tok-short". repeat split; try reflexivity.
  eexists. split; [reflexivity|]. by vm_compute.
Defined.

Lemma locked_account_token_rejected_witness :
  exists w' r,
    @authenticateToken libraries (request 1000 (Some "Bearer tok-u1"))
      hospital_after_lock = (w', Returned (Respond r)) /\
    (is_active locked_doctor = true ->
     r = fail 423 "Account is temporarily locked") /\
    users w' = users hospital_after_lock.
Proof.
  apply (@locked_account_token_rejected libraries
           (request 1000 (Some "Bearer tok-u1")) hospital_after_lock "tok-u1"
           (mkClaims "u1" "doctor" 0 86400) locked_doctor).
  all: first [reflexivity | by vm_compute].
Defined.

Lemma login_response_hides_credentials_witness :
  let req := request 1000 None in
  let b := credentials "nurse@h.com" "thermometer" (Some "492039") in
  let answer :=
    mkResponse 200
      (JObj [("success", JBool true);
             ("data",
              JObj [("token", JStr "tok-u2");
                    ("user",
                     JObj [("id", JStr "u2");
                           ("username", JStr "nurse_1700000000");
                           ("email", JStr "nurse@h.com");
                           ("role", JStr "nurse");
                           ("is_active", JBool true);
                           ("last_login", JNull);
                           ("failed_login_attempts", JNum 0);
                           ("locked_until", JNull);
                           ("two_factor_enabled", JBool true);
                           ("created_at", JStr "0");
                           ("updated_at", JStr "0");
                           ("deleted_at", JNull);
                           ("staff", JNull)])]);
             ("message", JStr "Login successful")]) in
  (@post_login libraries req b hospital).2 = Returned answer /\
  hides_credentials answer /\
  (forall hash secret b2 w2,
     @fully_successful libraries req b2 w2 (with_credentials hash secret nurse) ->
     staff_for (id nurse) (staff w2) = staff_for (id nurse) (staff hospital) ->
     (@post_login libraries req b2 w2).2 = Returned answer) /\
  (forall b' w' r,
     (@post_login libraries req b' w').2 = Returned r -> hides_credentials r).
Proof.
  apply (@login_response_hides_credentials libraries (request 1000 None)
           (credentials "nurse@h.com" "thermometer" (Some "492039")) hospital
           nurse).
  repeat split; by vm_compute.
Defined.

Lemma login_between_enable_and_verify_witness :
  let wE :=
    (@post_enable_2fa libraries (request 1000 (Some "Bearer tok-u1"))
       "KRUGS4ZANFZSAYJA" hospital).1 in
  two_factor_secret enrolling_doctor = Some "KRUGS4ZANFZSAYJA" /\
  two_factor_enabled enrolling_doctor = false /\
  exists wL userData,
    @post_login libraries (request 2000 None)
      (credentials "doc@h.com" "stethoscope" None) wE =
      (wL, Returned (mkResponse 200
         (JObj [("success", JBool true);
                ("data",
                 JObj [("token", JStr "tok-u1"); ("user", JObj userData)]);
                ("message", JStr "Login successful")]))).
Proof.
  eapply (@login_between_enable_and_verify libraries
            (request 1000 (Some "Bearer tok-u1")) "KRUGS4ZANFZSAYJA" hospital
            _ _ "tok-u1" (mkClaims "u1" "doctor" 0 86400) "hms-jwt-secret"
            (request 2000 None) (credentials "doc@h.com" "stethoscope" None)
            enrolling_doctor).
  - apply (bool_decide_unpack _). by vm_compute.
  - vm_compute. reflexivity.
  - reflexivity.
  - reflexivity.
  - reflexivity.
  - vm_compute. reflexivity.
  - reflexivity.
  - reflexivity.
  - reflexivity.
  - vm_compute. reflexivity.
  - reflexivity.
  - reflexivity.
  - reflexivity.
Defined.

(** * Further properties of the guard *)

Section MoreProperties.
Context `{Platform} `{Hasher}.

(** ** [authenticateToken] *)

Lemma authenticateToken_reads req w :
  exists w' r,
    authenticateToken req w = (w', Returned r) /\
    users w' = users w /\ staff w' = staff w /\ redis w' = redis w.
Proof.
  unfold authenticateToken, try_catch, bind, redis_get, redis_command, emit, ask,
    jwt_verify, User_findByPk, db_query, throw, ret.
  repeat (case_match; unfold ask in *; cbn in *; simplify_eq);
    (do 2 eexists; split; [reflexivity|by cbn]).
Qed.

(** X1. The guards only read: whatever the request, [authenticateToken], alone
    or followed by [authorize(...roles)], ends with a response or with
    [next()], no exception escapes, and accounts, staff and store are as
    before. *)
Theorem guards_only_read req w :
  (exists w' r,
     authenticateToken req w = (w', Returned r) /\
     users w' = users w /\ staff w' = staff w /\ redis w' = redis w) /\
  (forall roles endpoint, exists w' r,
     protected roles req endpoint w = (w', Returned r) /\
     users w' = users w /\ staff w' = staff w /\ redis w' = redis w).
Proof.
  pose proof (authenticateToken_reads req w) as (w0 & mw & A & U & S & R).
  split; [by exists w0, mw|].
  intros roles endpoint.
  unfold protected, authorize, bind, logSecurityEvent, emit. rewrite A.
  destruct mw as [resp|auth]; cbn.
  { do 2 eexists. split; [reflexivity|done]. }
  destruct (includes roles (role (row (req_user auth)))); cbn;
    do 2 eexists; (split; [reflexivity|by cbn]).
Qed.

(** X2. A request is passed on exactly when it carries a non-empty token that
    is not on the denylist, is signed with the server's secret and has not
    expired, and the account the token names exists, is active and is not
    locked; what is attached to it is that account's current row, with
    [password_hash] excluded and the staff row joined, and the token. *)
Theorem authenticateToken_passes_iff req w :
  (exists w' auth, authenticateToken req w = (w', Returned (Next auth))) <->
  (exists token u, accepted req w token u).
Proof.
  split.
  - intros (w' & auth & A).
    apply authenticateToken_next in A
      as (claims & B & T & G & R & P & E & D & F & Ac & L & _).
    exists (req_token auth), (row (req_user auth)).
    repeat split; try done. by exists claims.
  - intros (token & u & B & T & G & R & (claims & P & E & F) & D & Ac & L).
    unfold authenticateToken, try_catch, bind, redis_get, redis_command, emit,
      ask, jwt_verify, User_findByPk, db_query.
    rewrite B, T. cbn. fold (blacklist_key token). rewrite G. cbn.
    unfold blacklist_reading in R. rewrite R. cbn. rewrite P.
    rewrite String.eqb_refl. cbn -[Z.div].
    assert ((now req / 1000 >=? exp claims) = false) as -> by lia.
    cbn. rewrite D. cbn. rewrite F. cbn. rewrite Ac, L. cbn. eauto.
Qed.

Lemma authenticateToken_accepted req w token u :
  accepted req w token u ->
  exists w',
    authenticateToken req w =
      (w', Returned (Next (mkAuthenticated
         (mkInstance u ["password_hash"] (Some (staff_for (id u) (staff w))))
         token))) /\
    users w' = users w /\ staff w' = staff w /\ redis w' = redis w.
Proof.
  intros (B & T & G & R & (claims & P & E & F) & D & Ac & L).
  unfold authenticateToken, try_catch, bind, redis_get, redis_command, emit,
    ask, jwt_verify, User_findByPk, db_query.
  rewrite B, T. cbn. fold (blacklist_key token). rewrite G. cbn.
  unfold blacklist_reading in R. rewrite R. cbn. rewrite P.
  rewrite String.eqb_refl. cbn -[Z.div].
  assert ((now req / 1000 >=? exp claims) = false) as -> by lia.
  cbn. rewrite D. cbn. rewrite F. cbn. rewrite Ac, L. cbn. eauto.
Qed.

(** ** [authorize] *)

(** X3. Behind [authenticateToken], a route guarded by [authorize(...roles)] is
    reached exactly when the role stored in the account row is among
    [roles]; the role written into the token when it was issued plays no
    part. A refused request is answered 403, leaves an
    [unauthorized_access_attempt] audit event naming the account, the roles
    required and the endpoint, and changes no account. *)
Theorem stored_role_decides_access roles req endpoint w token u :
  accepted req w token u ->
  ((exists w' auth,
      protected roles req endpoint w = (w', Returned (Next auth))) <->
   includes roles (role u) = true) /\
  (includes roles (role u) = false ->
   exists w',
     protected roles req endpoint w =
       (w', Returned (Respond (fail 403 "Insufficient permissions"))) /\
     head (trace w') =
       Some (EvSecurity "unauthorized_access_attempt" (Some (id u))
               (JObj [("ip", JStr (ip req));
                      ("userAgent", opt_str (user_agent req));
                      ("requiredRoles", JArr (List.map JStr roles));
                      ("userRole", JStr (role u));
                      ("endpoint", JStr endpoint)])) /\
     users w' = users w).
Proof.
  intros A.
  destruct (authenticateToken_accepted req w token u A) as (w1 & R & U & _).
  unfold protected, authorize, bind, logSecurityEvent, emit. rewrite R. cbn.
  destruct (includes roles (role u)); cbn.
  - split; [|done]. split; [done|]. eauto.
  - split.
    + split; [|done]. intros (w' & auth & E). discriminate.
    + intros _. eexists. split; [reflexivity|]. by cbn.
Qed.

(** ** POST /login *)

(** X5. A login for an email that no visible, active account has and a login
    with a wrong password for an account that exists and is not locked get
    the same answer, status and payload alike: 401 "Invalid credentials". *)
Theorem unknown_email_answers_like_wrong_password req1 b1 w1 req2 b2 w2 u :
  login_validation b1 = [] -> db_fault req1 = None ->
  account w1 b1 = None ->
  login_validation b2 = [] -> db_fault req2 = None ->
  NoDup (List.map id (users w2)) ->
  account w2 b2 = Some u ->
  is_locked (now req2) u = false ->
  verifyPassword (body_password b2) (password_hash u) = false ->
  (login_handler req1 b1 w1).2 = Returned (fail 401 "Invalid credentials") /\
  (login_handler req2 b2 w2).2 = (login_handler req1 b1 w1).2.
Proof.
  intros V1 D1 A1 V2 D2 ND A2 L2 P2.
  assert ((login_handler req1 b1 w1).2 =
          Returned (fail 401 "Invalid credentials")) as R1.
  { unfold login_handler, try_catch, bind, User_findOne, db_query, emit, ask,
      logSecurityEvent.
    rewrite V1. cbn. rewrite D1. cbn.
    unfold account in A1. by rewrite A1. }
  split; [done|]. rewrite R1.
  destruct (login_handler_wrong_password req2 b2 w2 u V2 D2 A2 L2 P2)
    as (w' & -> & _); [|done].
  by eapply find_email_then_pk.
Qed.

Lemma post_login_passed req b w :
  rate_limited req w = false ->
  exists w1,
    post_login req b w = login_handler req b w1 /\
    users w1 = users w /\ staff w1 = staff w /\
    forall key, key <> rate_key req -> redis w1 !! key = redis w !! key.
Proof.
  unfold rate_limited, post_login, route, bind. intros C.
  destruct (redis_fault req "get" (rate_key req)) as [e|] eqn:G.
  { rewrite (authRateLimit_get_fault req w e G). by eexists. }
  destruct (redis_fault req "multi" (rate_key req)) as [e|] eqn:F.
  { rewrite (authRateLimit_multi_fault req w e G C F). by eexists. }
  rewrite (authRateLimit_allowed req w G C F). eexists.
  split; [reflexivity|]. split; [done|]. split; [done|].
  intros key N. cbn [redis].
  by rewrite expire_entry_other, incr_entry_other.
Qed.

Lemma login_handler_asks_for_code req b w u :
  login_validation b = [] -> db_fault req = None ->
  account w b = Some u ->
  is_locked (now req) u = false ->
  verifyPassword (body_password b) (password_hash u) = true ->
  two_factor_enabled u = true ->
  truthy (twoFactorToken b) = false ->
  exists w' r,
    login_handler req b w = (w', Returned r) /\
    status r = 200 /\
    json_get "data" (json r) ≫= json_get "twoFactorRequired" = Some (JBool true) /\
    token_of r = None /\
    users w' = users w /\ redis w' = redis w.
Proof.
  intros V D A L P E T.
  unfold login_handler, try_catch, bind, User_findOne, db_query, emit, ask.
  rewrite V. cbn. rewrite D. cbn.
  unfold account in A. rewrite A. cbn. rewrite L, P, E, T. cbn.
  do 2 eexists. split; [reflexivity|]. by cbn.
Qed.

(** X6. An enrolled account that is let through by the limiter and logs in
    with the right password and no code is told, with status 200, that the
    second factor is required: the answer carries no token, no account is
    written, so the failed-attempt counter is not reset, and the only key of
    the store that may have changed is the counter of the caller's address,
    so no session is opened. *)
Theorem login_without_code_asks_for_it req b w u :
  rate_limited req w = false ->
  login_validation b = [] -> db_fault req = None ->
  account w b = Some u ->
  is_locked (now req) u = false ->
  verifyPassword (body_password b) (password_hash u) = true ->
  two_factor_enabled u = true ->
  truthy (twoFactorToken b) = false ->
  exists w' r,
    post_login req b w = (w', Returned r) /\
    status r = 200 /\
    json_get "data" (json r) ≫= json_get "twoFactorRequired" = Some (JBool true) /\
    token_of r = None /\
    users w' = users w /\
    forall key, key <> rate_key req -> redis w' !! key = redis w !! key.
Proof.
  intros Rl V D A L P E T.
  destruct (post_login_passed req b w Rl) as (w1 & -> & U & _ & K).
  assert (account w1 b = Some u) as A1 by (unfold account; by rewrite U).
  destruct (login_handler_asks_for_code req b w1 u V D A1 L P E T)
    as (w' & r & R & St & J & Tk & U' & Rd).
  exists w', r. split_and!; try done.
  - by rewrite U'.
  - intros key N. rewrite Rd. by apply K.
Qed.

(** X7. A login answer carries a token only if the body was well formed, the
    account exists and is active, it is not locked, the password matched
    and, for an enrolled account, a code was sent and the one-time-password
    check accepted it. The token is the one minted for that account. *)
Theorem token_only_after_every_check req b w w' r t :
  login_handler req b w = (w', Returned r) ->
  token_of r = Some t ->
  exists u,
    login_validation b = [] /\
    account w b = Some u /\
    is_locked (now req) u = false /\
    verifyPassword (body_password b) (password_hash u) = true /\
    second_factor_ok req b u = true /\
    t = JStr (generateToken (id u) (role u) (now req)).
Proof.
  unfold login_handler, login_success, try_catch, bind, User_findOne, db_query,
    emit, ask, handleFailedLogin, User_findByPk, instance_update,
    resetFailedAttempts, User_update, createSession, redis_setex,
    redis_command, set_users, set_redis, logSecurityEvent, ret, throw,
    token_of, account, second_factor_ok.
  intros R T.
  repeat (case_match; cbn in *; simplify_eq).
  all: eexists; split_and!; try done.
  all: try (apply negb_false_iff in H2; by apply bool_decide_eq_true in H2).
  all: try (destruct (List.find _ (users w)); by simplify_eq/=).
  all: try by apply negb_false_iff.
  all: rewrite ?H6; cbn; try done.
  apply negb_false_iff in H7, H8. by rewrite H7, H8.
Qed.

(** X8. A login for a locked account is answered 423 with the time left
    rounded up to whole minutes, which is at least 1; it reads the account
    and writes nothing: the counter does not grow and the lock is not
    extended. *)
Theorem locked_login_is_told_the_minutes_left req b w u until :
  login_validation b = [] -> db_fault req = None ->
  account w b = Some u ->
  locked_until u = Some until -> now req < until ->
  let minutes := lockTimeRemaining until (now req) in
  login_handler req b w =
    (mkWorld (users w) (staff w) (redis w)
       (EvFindOne (normalizeEmail (body_email b)) :: trace w),
     Returned (fail 423 ("Account locked. Try again in " +:+
                         string_of_Z minutes +:+ " minutes."))) /\
  1 <= minutes /\
  (minutes - 1) * 60000 < until - now req <= minutes * 60000.
Proof.
  intros V D A Lu Lt minutes. split.
  - unfold login_handler, try_catch, bind, User_findOne, db_query, emit, ask.
    rewrite V. cbn. rewrite D. cbn.
    unfold account in A. rewrite A. cbn.
    unfold is_locked. rewrite Lu.
    assert ((now req <? until) = true) as -> by lia. reflexivity.
  - subst minutes. unfold lockTimeRemaining.
    pose proof (Z.div_mod (- (until - now req)) 60000).
    pose proof (Z.mod_pos_bound (- (until - now req)) 60000). lia.
Qed.

(** X9. With four or more failures already counted on an account that is not
    locked, in particular on one whose lock has just run out and whose
    counter still stands at 5 or more, a single wrong password locks the
    account for 30 minutes from that attempt. *)
Theorem one_failure_locks_from_four_on a w mail u :
  NoDup (List.map id (users w)) ->
  List.find (where_email mail) (users w) = Some u ->
  wrong_password mail (password_hash u) a ->
  is_locked (now a.1) u = false ->
  4 <= default 0 (failed_login_attempts u) ->
  exists w' u',
    login_handler a.1 a.2 w = (w', Returned (fail 401 "Invalid credentials")) /\
    List.find (where_email mail) (users w') = Some u' /\
    failed_login_attempts u' = Some (default 0 (failed_login_attempts u) + 1) /\
    locked_until u' = Some (now a.1 + 30 * 60 * 1000).
Proof.
  intros ND F W L C.
  destruct (failed_attempt_step a w mail u ND F W L) as (w' & R & _ & F').
  destruct (failed_login_update_spec (now a.1) u)
    as (_ & _ & _ & _ & _ & _ & Hc & Hl).
  exists w', (failed_login_update (now a.1) u u).
  repeat split; try done.
  rewrite Hl.
  by assert ((default 0 (failed_login_attempts u) + 1 >=? 5) = true) as -> by lia.
Qed.

(** ** Sessions *)

Lemma login_handler_opens_session req b w u :
  login_validation b = [] -> db_fault req = None ->
  account w b = Some u ->
  is_locked (now req) u = false ->
  verifyPassword (body_password b) (password_hash u) = true ->
  second_factor_ok req b u = true ->
  let token := generateToken (id u) (role u) (now req) in
  redis_fault req "setex" (session_key (id u) token) = None ->
  exists w' r session,
    login_handler req b w = (w', Returned r) /\
    token_of r = Some (JStr token) /\
    redis w' !! session_key (id u) token =
      Some (mkEntry session (Some (now req + 24 * 60 * 60 * 1000))) /\
    forall key, key <> session_key (id u) token ->
      redis w' !! key = redis w !! key.
Proof.
  intros V D A L P T token S.
  unfold login_handler, try_catch, bind, User_findOne, db_query, emit, ask.
  rewrite V. cbn. rewrite D. cbn.
  unfold account in A. rewrite A. cbn. rewrite L, P. cbn.
  assert (forall inst (w0 : World), row inst = u ->
    exists w' r session,
      login_success req inst w0 = (w', Returned r) /\
      token_of r = Some (JStr token) /\
      redis w' !! session_key (id u) token =
        Some (mkEntry session (Some (now req + 24 * 60 * 60 * 1000))) /\
      forall key, key <> session_key (id u) token ->
        redis w' !! key = redis w0 !! key) as Succ.
  { intros inst w0 E.
    unfold login_success, bind, resetFailedAttempts, User_update, db_query,
      emit, createSession, redis_setex, redis_command, set_users, set_redis,
      logSecurityEvent.
    cbn. rewrite D. cbn. rewrite E. fold token.
    fold (session_key (id u) token).
    rewrite S. cbn.
    do 3 eexists. split; [reflexivity|]. split; [reflexivity|]. split.
    - cbn [redis]. by rewrite lookup_insert_eq.
    - intros key N. cbn [redis]. by rewrite lookup_insert_ne. }
  set (inst := mkInstance u [] _).
  set (w1 := mkWorld _ _ _ _).
  destruct (Succ inst w1 eq_refl) as (w' & r & session & R & Tk & S1 & S2).
  exists w', r, session.
  unfold second_factor_ok in T.
  destruct (two_factor_enabled u); cbn in T.
  - apply andb_prop in T as [T1 T2]. rewrite T1, T2. cbn. by rewrite R.
  - by rewrite R.
Qed.

(** X10. A login that goes through in full stores the session under
    [session:<account id>:<token>] with a lifetime of 24 hours; apart from
    that key and the counter of the caller's address, which the limiter
    keeps, every key of the store is as it was. *)
Theorem login_opens_a_day_long_session req b w u :
  fully_successful req b w u ->
  let token := generateToken (id u) (role u) (now req) in
  exists w' r session,
    post_login req b w = (w', Returned r) /\
    token_of r = Some (JStr token) /\
    redis w' !! session_key (id u) token =
      Some (mkEntry session (Some (now req + 24 * 60 * 60 * 1000))) /\
    forall key, key <> session_key (id u) token -> key <> rate_key req ->
      redis w' !! key = redis w !! key.
Proof.
  intros (Rl & V & D & A & L & P & T & S) token.
  destruct (post_login_passed req b w Rl) as (w1 & -> & U & _ & K).
  assert (account w1 b = Some u) as A1 by (unfold account; by rewrite U).
  destruct (login_handler_opens_session req b w1 u V D A1 L P T S)
    as (w' & r & session & R & Tk & Ss & O).
  exists w', r, session. split_and!; try done.
  intros key N1 N2. rewrite O by done. by apply K.
Qed.

Lemma accepted_ext req w w' token u :
  users w' = users w -> redis w' = redis w ->
  accepted req w token u -> accepted req w' token u.
Proof.
  intros U R. unfold accepted, blacklist_reading. by rewrite U, R.
Qed.

(** X11. A logout with an accepted token, served while the store answers, is
    answered 200; afterwards the session key of that account and token is
    gone, the token is on the denylist, no other key of the store and no
    account has changed. *)
Theorem logout_closes_the_session req w token u :
  accepted req w token u ->
  redis_fault req "setex" (blacklist_key token) = None ->
  redis_fault req "del" (session_key (id u) token) = None ->
  exists w1 claims,
    jwt_parse token = Some (claims, jwt_secret) /\
    post_logout req w =
      (w1, Returned (mkResponse 200
         (JObj [("success", JBool true);
                ("message", JStr "Logged out successfully")]))) /\
    redis w1 !! session_key (id u) token = None /\
    denylisted token (exp claims) (redis w1) /\
    (forall key,
       key <> session_key (id u) token -> key <> blacklist_key token ->
       redis w1 !! key = redis w !! key) /\
    users w1 = users w.
Proof.
  intros A Sx Dl.
  destruct (authenticateToken_accepted req w token u A) as (w0 & R & U & _ & Rd).
  destruct A as (_ & _ & _ & _ & (claims & Pj & E & _) & _).
  unfold post_logout, route. unfold bind at 1. rewrite R.
  unfold logout, try_catch, bind, redis_setex, redis_del, redis_command, emit,
    set_redis, logSecurityEvent.
  cbn -[Z.div]. rewrite Pj. cbn -[Z.div].
  assert ((exp claims - now req / 1000 >? 0) = true) as -> by lia.
  cbn -[Z.div]. fold (blacklist_key token). rewrite Sx. cbn -[Z.div].
  fold (session_key (id u) token). rewrite Dl. cbn -[Z.div].
  do 2 eexists. split; [done|]. split; [reflexivity|].
  cbn [redis users]. rewrite Rd. split_and!.
  - by rewrite lookup_delete_eq.
  - eexists. rewrite lookup_delete_ne, lookup_insert_eq.
    + split; [done|]. pose proof (Z.mul_div_le (now req) 1000). lia.
    + intros E'. symmetry in E'. by apply blacklist_not_session in E'.
  - intros key N1 N2. by rewrite lookup_delete_ne, lookup_insert_ne.
  - done.
Qed.

(** X12. When the write to the denylist throws, the logout is answered 500
    "Logout failed" and nothing has been revoked: store and accounts are as
    before, and the same token is still let through. *)
Theorem failed_logout_revokes_nothing req w token u e :
  accepted req w token u ->
  redis_fault req "setex" (blacklist_key token) = Some e ->
  exists w1,
    post_logout req w = (w1, Returned (fail 500 "Logout failed")) /\
    redis w1 = redis w /\ users w1 = users w /\
    accepted req w1 token u.
Proof.
  intros A Sx.
  destruct (authenticateToken_accepted req w token u A) as (w0 & R & U & _ & Rd).
  pose proof A as (_ & _ & _ & _ & (claims & Pj & E & _) & _).
  unfold post_logout, route. unfold bind at 1. rewrite R.
  unfold logout, try_catch, bind, redis_setex, redis_del, redis_command, emit,
    set_redis, logSecurityEvent.
  cbn -[Z.div]. rewrite Pj. cbn -[Z.div].
  assert ((exp claims - now req / 1000 >? 0) = true) as -> by lia.
  cbn -[Z.div]. fold (blacklist_key token). rewrite Sx. cbn -[Z.div].
  eexists. split; [reflexivity|]. cbn [redis users].
  split; [done|]. split; [done|].
  by apply (accepted_ext req w).
Qed.

(** ** The rate limiter *)

Lemma at_ceiling_numeral n m :
  at_ceiling (Some (string_of_Z n)) m = (n >=? m).
Proof.
  unfold at_ceiling. rewrite string_of_Z_truthy. cbn [mbind option_bind].
  by rewrite parseInt_string_of_Z.
Qed.

Lemma authRateLimit_store req w :
  redis (authRateLimit req w).1 = redis w \/
  (at_ceiling (rate_reading req w) 10 = false /\
   redis (authRateLimit req w).1 =
     expire_entry (now req) (rate_key req) 900
       (incr_entry (now req) (rate_key req) (redis w))).
Proof.
  destruct (redis_fault req "get" (rate_key req)) as [e|] eqn:G.
  { left. by rewrite (authRateLimit_get_fault req w e G). }
  destruct (at_ceiling (rate_reading req w) 10) eqn:C.
  { left. by rewrite (authRateLimit_limited req w G C). }
  destruct (redis_fault req "multi" (rate_key req)) as [e|] eqn:F.
  { left. by rewrite (authRateLimit_multi_fault req w e G C F). }
  right. by rewrite (authRateLimit_allowed req w G C F).
Qed.

Lemma within_ceiling_ext addr (store store' : gmap string RedisEntry) :
  store' !! ("auth_rate_limit:" +:+ addr) = store !! ("auth_rate_limit:" +:+ addr) ->
  within_ceiling addr store -> within_ceiling addr store'.
Proof. intros E Hs e. rewrite E. apply Hs. Qed.

Lemma within_ceiling_authRateLimit addr req :
  keeps (within_ceiling addr) (authRateLimit req).
Proof.
  intros w Hw.
  destruct (authRateLimit_store req w) as [-> | [C ->]]; [done|].
  destruct (String.eqb_spec (ip req) addr) as [E|N].
  2:{ eapply within_ceiling_ext; [|exact Hw].
      rewrite expire_entry_other, incr_entry_other; [done|..];
        apply rate_key_other; by apply String.eqb_neq. }
  unfold rate_key in *. rewrite E in *.
  set (key := "auth_rate_limit:" +:+ addr) in *.
  intros e. unfold expire_entry, incr_entry.
  unfold rate_reading, rate_key in C. rewrite E in C. fold key in C.
  destruct (redis_lookup (now req) key (redis w)) as [e0|] eqn:L.
  - assert (redis w !! key = Some e0) as L0.
    { unfold redis_lookup in L. destruct (redis w !! key); [|done].
      by destruct (live _ _); simplify_eq. }
    destruct (Hw e0 L0) as (n & Vn & Bn).
    cbn in C. rewrite Vn in C |- *. unfold at_ceiling in C.
    rewrite string_of_Z_truthy in C. cbn in C.
    rewrite parseInt_string_of_Z in C |- *.
    unfold redis_lookup. rewrite lookup_insert_eq. cbn.
    destruct (live (now req) _); rewrite lookup_insert_eq;
      intros [= <-]; exists (n + 1); cbn; split; try done; lia.
  - unfold redis_lookup. rewrite lookup_insert_eq. cbn.
    rewrite lookup_insert_eq. intros [= <-]. exists 1. cbn. split; [done|lia].
Qed.

(** X13. However the clock runs and whichever commands fail, no request the
    guard serves takes the counter of an address outside 1..10: the limiter
    increments only after reading a value below the ceiling, and no other
    handler writes the key. *)
Theorem rate_counter_stays_within_ceiling addr calls w :
  within_ceiling addr (redis w) ->
  within_ceiling addr (redis (serve_all w calls)).
Proof.
  revert w. induction calls as [|[req c] rest IH]; intros w Hw; [done|].
  cbn [serve_all]. apply IH. revert w Hw.
  assert (forall store uid tok e,
            within_ceiling addr store ->
            within_ceiling addr (<[session_key uid tok := e]> store)) as Hs.
  { intros store uid tok e. apply within_ceiling_ext.
    rewrite lookup_insert_ne; [done|]. unfold session_key. cbn. discriminate. }
  change (keeps (within_ceiling addr) (serve req c)).
  destruct c as [b| | |secret|code|password]; cbn [serve].
  - unfold post_login. apply keeps_route; [|intros; by apply keeps_login_handler].
    apply within_ceiling_authRateLimit.
  - unfold post_logout.
    apply keeps_route; [apply keeps_authenticateToken|intros auth].
    apply keeps_logout.
    + intros store uid tok. apply within_ceiling_ext.
      rewrite lookup_delete_ne; [done|]. unfold session_key. cbn. discriminate.
    + intros store claims key _ _. apply within_ceiling_ext.
      rewrite lookup_insert_ne; [done|]. unfold blacklist_key. cbn. discriminate.
  - apply keeps_get_me.
  - apply keeps_post_enable_2fa.
  - apply keeps_post_verify_2fa_setup.
  - apply keeps_post_disable_2fa.
Qed.

(** X14. A caller at the ceiling is not held by knocking: logins from the
    address refused before the counter's deadline change neither the
    counter, nor its deadline, nor any account; and the first login at or
    after the deadline is let through to the handler with the counter back
    at 1 and a new deadline 15 minutes on. *)
Theorem limited_caller_is_released w addr deadline knocks req b :
  redis w !! ("auth_rate_limit:" +:+ addr) =
    Some (mkEntry (string_of_Z 10) (Some deadline)) ->
  Forall (knocks_before addr deadline) knocks ->
  ip req = addr -> deadline <= now req ->
  redis_fault req "get" (rate_key req) = None ->
  redis_fault req "multi" (rate_key req) = None ->
  let w' := serve_all w (logins knocks) in
  redis w' = redis w /\ users w' = users w /\
  exists w1,
    post_login req b w' = login_handler req b w1 /\
    users w1 = users w /\
    redis w1 !! ("auth_rate_limit:" +:+ addr) =
      Some (mkEntry (string_of_Z 1) (Some (now req + 15 * 60 * 1000))).
Proof.
  intros E K I Le G F w'.
  assert (redis w' = redis w /\ users w' = users w) as [Rd Us].
  { subst w'. revert w E. induction knocks as [|[r0 b0] rest IH]; intros w E;
      [done|].
    apply Forall_cons in K as [(I0 & T0 & G0) K].
    cbn [logins List.map serve_all serve fst snd] in *.
    rewrite (post_login_limited r0 b0 w).
    - cbn [fst].
      exact (IH K (mkWorld (users w) (staff w) (redis w)
                     (EvRedis "get" (rate_key r0) :: trace w)) E).
    - unfold rate_limited. rewrite G0.
      assert (rate_reading r0 w = Some (string_of_Z 10)) as ->.
      { unfold rate_reading, rate_key, redis_lookup, live.
        rewrite I0, E. cbn [expires_at].
        by assert ((now r0 <? deadline) = true) as -> by lia. }
      by rewrite at_ceiling_numeral. }
  split; [done|]. split; [done|].
  assert (redis_lookup (now req) ("auth_rate_limit:" +:+ addr) (redis w') = None)
    as L.
  { unfold redis_lookup, live. rewrite Rd, E. cbn.
    by assert ((now req <? deadline) = false) as -> by lia. }
  assert (at_ceiling (rate_reading req w') 10 = false) as C.
  { unfold rate_reading, rate_key. rewrite I, L. done. }
  eexists. split.
  - unfold post_login, route, bind.
    rewrite (authRateLimit_allowed req w' G C F). reflexivity.
  - cbn [users redis]. split; [done|].
    unfold rate_key. rewrite I. unfold incr_entry, expire_entry. rewrite L.
    unfold redis_lookup. rewrite lookup_insert_eq. cbn.
    by rewrite lookup_insert_eq.
Qed.

(** ** The Authorization header *)

Lemma split_space_word s : no_space s = true -> split_space s = [s].
Proof.
  induction s as [|c s IH]; cbn; [done|].
  destruct (Ascii.eqb c " "); cbn; [done|]. intros N. by rewrite IH.
Qed.

Lemma split_space_first s t :
  no_space s = true ->
  split_space (s +:+ String " "%char t) = s :: split_space t.
Proof.
  induction s as [|c s IH]; [reflexivity|].
  intros N. cbn [no_space] in N. apply andb_prop in N as [N1 N2].
  change (String c s +:+ String " "%char t)
    with (String c (s +:+ String " "%char t)).
  cbn [split_space]. destruct (Ascii.eqb c " "); [discriminate N1|].
  by rewrite IH.
Qed.

(** X4. The token is the second space-separated word of the header, whatever
    the first word is: [Bearer] is not asked for, and an empty first word
    will do. A header of one word only carries no token. *)
Theorem second_word_of_header_is_the_token req scheme word :
  no_space scheme = true -> no_space word = true ->
  (authorization req = Some (scheme +:+ " " +:+ word) ->
   bearer_token req = Some word) /\
  (authorization req = Some word -> truthy (bearer_token req) = false).
Proof.
  intros Ns Nw. unfold bearer_token. split; intros ->.
  - destruct (String.eqb_spec (scheme +:+ " " +:+ word) "") as [E|_].
    + destruct scheme; discriminate E.
    + change (scheme +:+ " " +:+ word) with (scheme +:+ String " "%char word).
      by rewrite split_space_first, split_space_word.
  - destruct (String.eqb_spec word "") as [E|_]; [done|].
    by rewrite split_space_word.
Qed.

(** ** GET /me *)

Lemma authenticateToken_responds_fail req w w' r :
  authenticateToken req w = (w', Returned (Respond r)) ->
  exists code msg, r = fail code msg.
Proof.
  unfold authenticateToken, try_catch, bind, redis_get, redis_command, emit, ask,
    jwt_verify, User_findByPk, db_query, throw, ret.
  repeat (case_match; cbn in *; simplify_eq); intros; simplify_eq; eauto.
Qed.

(** X15. Whatever GET /me answers, the profile of the caller included, no object
    of the payload has a property [password_hash] or [two_factor_secret]. *)
Theorem me_response_hides_credentials req w r :
  (get_me req w).2 = Returned r -> hides_credentials r.
Proof.
  unfold get_me, route. unfold bind at 1.
  destruct (authenticateToken req w) as [w0 [[resp|auth]|e]] eqn:A; cbn.
  - intros [= <-].
    apply authenticateToken_responds_fail in A as (code & msg & ->). by split.
  - unfold try_catch, bind, User_findByPk, db_query, emit, ask. cbn.
    destruct (db_fault req); cbn; [intros [= <-]; by split|].
    destruct (List.find _ (users w0)) as [u|]; cbn; intros [= <-]; [|by split].
    unfold hides_credentials, toJSON, include_staff, staff_for.
    cbn [hidden included_staff row].
    destruct (List.find _ (staff w0)) as [s|]; split;
      cbn -[opt_str date_json num_json];
      rewrite ?json_mentions_opt_str, ?json_mentions_date_json,
        ?json_mentions_num_json;
      reflexivity.
  - discriminate.
Qed.

(** ** The second factor *)

Lemma next_is_accepted req w w' auth :
  authenticateToken req w = (w', Returned (Next auth)) ->
  accepted req w (req_token auth) (row (req_user auth)) /\
  List.find (where_pk (id (row (req_user auth)))) (users w) =
    Some (row (req_user auth)) /\
  db_fault req = None /\
  users w' = users w /\ staff w' = staff w /\ redis w' = redis w.
Proof.
  intros A.
  apply authenticateToken_next in A
    as (claims & B & T & G & R & P & E & D & F & Ac & L & U & S & Rd).
  assert (id (row (req_user auth)) = userId claims) as Eid.
  { apply List.find_some in F as [_ W]. unfold where_pk in W.
    apply andb_prop in W as [_ W]. by apply String.eqb_eq in W. }
  rewrite Eid. repeat split; try done. by exists claims.
Qed.

Lemma find_pk_updated pk f rows u :
  (forall x, id (f x) = id x) -> (forall x, visible (f x) = visible x) ->
  List.find (where_pk pk) rows = Some u -> id u = pk ->
  List.find (where_pk pk) (update_rows pk false f rows) = Some (f u).
Proof.
  intros If Vf F E. rewrite find_update_rows.
  - rewrite F. cbn. by rewrite E, String.eqb_refl.
  - intros x. unfold where_pk. by rewrite If, Vf.
Qed.

(** X17. POST /verify-2fa-setup answers 200 only to an accepted token, a code of
    six characters, a stored secret, and a code the one-time-password check
    accepts for that secret; it then turns the enrolled flag on and keeps
    the secret. The store is not written. *)
Theorem second_factor_enrolled_only_by_a_valid_code req code w w' r :
  post_verify_2fa_setup req code w = (w', Returned r) ->
  status r = 200 ->
  exists token u,
    accepted req w token u /\
    str_length code = 6 /\
    truthy (two_factor_secret u) = true /\
    verifyTwoFactorToken code (two_factor_secret u) (now req) = true /\
    List.find (where_pk (id u)) (users w') =
      Some (set_two_factor true (two_factor_secret u) u) /\
    redis w' = redis w.
Proof.
  unfold post_verify_2fa_setup, route. unfold bind at 1.
  destruct (authenticateToken req w) as [w0 [[resp|auth]|e]] eqn:A; cbn;
    [| |discriminate].
  { intros [= <- <-] S. apply authenticateToken_respond in A. lia. }
  apply next_is_accepted in A as (Acc & F & D & U & _ & Rd).
  unfold try_catch, bind, User_findByPk, db_query, emit, ask, instance_update,
    set_users, logSecurityEvent.
  destruct ((6 <=? str_length code) && (str_length code <=? 6)) eqn:Len; cbn.
  2:{ intros [= <- <-]. cbn. lia. }
  rewrite D. cbn. rewrite U, F. cbn.
  destruct (truthy (two_factor_secret (row (req_user auth)))) eqn:T; cbn.
  2:{ intros [= <- <-]. cbn. lia. }
  destruct (verifyTwoFactorToken code _ (now req)) eqn:V; cbn.
  2:{ intros [= <- <-]. cbn. lia. }
  rewrite ?D. cbn. intros [= <- <-] _.
  exists (req_token auth), (row (req_user auth)). cbn [users redis].
  apply andb_prop in Len as [L1 L2].
  split; [exact Acc|]. split; [lia|]. split; [done|]. split; [done|].
  split; [|done].
  by apply (find_pk_updated _
    (fun x => set_two_factor true (two_factor_secret x) x)).
Qed.

(** X18. POST /disable-2fa answers 200 only to an accepted token and the
    account's own password; it then turns the enrolled flag off and erases
    the secret, so that the next login asks for no code. The store is not
    written. *)
Theorem second_factor_dropped_only_with_the_password req password w w' r :
  post_disable_2fa req password w = (w', Returned r) ->
  status r = 200 ->
  exists token u,
    accepted req w token u /\
    verifyPassword password (password_hash u) = true /\
    List.find (where_pk (id u)) (users w') = Some (set_two_factor false None u) /\
    (forall reqL b, second_factor_ok reqL b (set_two_factor false None u) = true) /\
    redis w' = redis w.
Proof.
  unfold post_disable_2fa, route. unfold bind at 1.
  destruct (authenticateToken req w) as [w0 [[resp|auth]|e]] eqn:A; cbn;
    [| |discriminate].
  { intros [= <- <-] S. apply authenticateToken_respond in A. lia. }
  apply next_is_accepted in A as (Acc & F & D & U & _ & Rd).
  unfold try_catch, bind, User_findByPk, db_query, emit, ask, instance_update,
    set_users, logSecurityEvent.
  destruct (String.eqb password ""); cbn.
  { intros [= <- <-]. cbn. lia. }
  rewrite D. cbn. rewrite U, F. cbn.
  destruct (verifyPassword password _) eqn:V; cbn.
  2:{ intros [= <- <-]. cbn. lia. }
  rewrite ?D. cbn. intros [= <- <-] _.
  exists (req_token auth), (row (req_user auth)). cbn [users redis].
  split; [exact Acc|]. split; [done|]. split; [|done].
  by apply (find_pk_updated _ (set_two_factor false None)).
Qed.

(** X16. POST /enable-2fa enrols nobody and cannot be turned on an enrolled
    account: whatever the request, the enrolled flag of every account is as
    before, every enrolled account keeps its row, secret included, and the
    store is not written. *)
Theorem enable_2fa_spares_enrolled_accounts req secret w :
  NoDup (List.map id (users w)) ->
  let w' := (post_enable_2fa req secret w).1 in
  List.map two_factor_enabled (users w') = List.map two_factor_enabled (users w) /\
  (forall u, In u (users w) -> two_factor_enabled u = true -> In u (users w')) /\
  redis w' = redis w.
Proof.
  intros ND w'.
  assert (exists o, post_enable_2fa req secret w = (w', o)) as [o P].
  { subst w'. destruct (post_enable_2fa req secret w). by eexists. }
  clearbody w'. revert P.
  unfold post_enable_2fa, route. unfold bind at 1.
  destruct (authenticateToken_reads req w) as (w0 & mw & A & U & _ & Rd).
  rewrite A. destruct mw as [resp|auth]; cbn.
  { intros [= <- <-]. by rewrite U, Rd. }
  apply next_is_accepted in A as (_ & F & D & _).
  unfold try_catch, bind, User_findByPk, db_query, emit, ask, instance_update,
    set_users.
  rewrite D. cbn. rewrite U, F. cbn.
  destruct (two_factor_enabled (row (req_user auth))) eqn:E; cbn.
  { intros [= <- <-]. by rewrite ?U, ?Rd. }
  destruct (QRCode_toDataURL _) as [e|img]; cbn.
  { intros [= <- <-]. by rewrite ?U, ?Rd. }
  rewrite ?D. cbn. intros [= <- <-]. cbn [users redis].
  rewrite ?U, ?Rd. split_and!; [| |done].
  - unfold update_rows. rewrite List.map_map. apply List.map_ext.
    intros x. by destruct (_ && _).
  - intros u I T. unfold update_rows. apply List.in_map_iff. exists u.
    split; [|done].
    destruct (String.eqb_spec (id u) (id (row (req_user auth)))) as [Eq|_];
      [|done].
    exfalso. apply List.find_some in F as [I1 _].
    pose proof (same_id_same_row _ _ _ ND I I1 Eq) as ->. congruence.
Qed.

(** ** POST /change-password *)

(** X19. POST /change-password answers 200 only to an accepted token, the
    account's current password and a new password of at least 8 characters
    that matches the pattern; the stored hash is then the bcrypt hash of the
    new password at cost 12. Nothing is revoked: the store is not written
    and the caller's token is accepted afterwards as before. *)
Theorem password_changed_only_with_the_current_one req b salt w w' r :
  post_change_password req b salt w = (w', Returned r) ->
  status r = 200 ->
  exists token u,
    accepted req w token u /\
    verifyPassword (currentPassword b) (password_hash u) = true /\
    8 <= str_length (newPassword b) /\
    matches_password_pattern (newPassword b) = true /\
    List.find (where_pk (id u)) (users w') =
      Some (set_password_hash (bcrypt_hash (newPassword b) 12 salt) u) /\
    redis w' = redis w /\
    accepted req w' token
      (set_password_hash (bcrypt_hash (newPassword b) 12 salt) u).
Proof.
  unfold post_change_password, route. unfold bind at 1.
  destruct (authenticateToken req w) as [w0 [[resp|auth]|e]] eqn:A; cbn;
    [| |discriminate].
  { intros [= <- <-] S. apply authenticateToken_respond in A. lia. }
  apply next_is_accepted in A as (Acc & F & D & U & _ & Rd).
  unfold try_catch, bind, User_findByPk, db_query, emit, ask, instance_update,
    set_users, logSecurityEvent, change_password_validation, hashPassword.
  destruct (String.eqb (currentPassword b) ""); cbn.
  { intros [= <- <-]. cbn. lia. }
  destruct (8 <=? str_length (newPassword b)) eqn:Len; cbn.
  2:{ intros [= <- <-]. cbn. lia. }
  destruct (matches_password_pattern (newPassword b)) eqn:Pat; cbn.
  2:{ intros [= <- <-]. cbn. lia. }
  rewrite D. cbn. rewrite U, F. cbn.
  destruct (verifyPassword (currentPassword b) _) eqn:V; cbn.
  2:{ intros [= <- <-]. cbn. lia. }
  rewrite ?D. cbn. intros [= <- <-] _.
  set (h := bcrypt_hash (newPassword b) 12 salt).
  set (u := row (req_user auth)) in *.
  assert (List.find (where_pk (id u)) (update_rows (id u) false
            (set_password_hash h) (users w)) = Some (set_password_hash h u)) as F'.
  { by apply (find_pk_updated _ (set_password_hash h)). }
  exists (req_token auth), u. cbn [users redis].
  split; [exact Acc|]. split; [done|]. split; [lia|]. split; [done|].
  split; [exact F'|]. split; [done|].
  destruct Acc as (B & T & G & R & (claims & P & E & Fc) & _ & Ac & L).
  assert (id u = userId claims) as Eid.
  { apply List.find_some in Fc as [_ W]. unfold where_pk in W.
    apply andb_prop in W as [_ W]. by apply String.eqb_eq in W. }
  unfold accepted, blacklist_reading. cbn [users redis]. rewrite Rd.
  split_and!; try done.
  exists claims. split_and!; try done. rewrite <- Eid. exact F'.
Qed.

(** ** POST /register *)

(** X20. POST /register creates nothing: for every request the answer is one of
    400, 401, 403, 409, 423 and 500, never 201, and the tables of accounts
    and of staff are as before. *)
Theorem register_never_creates_an_account req b salt w :
  exists w' r,
    post_register req b salt w = (w', Returned r) /\
    In (status r) [400; 401; 403; 409; 423; 500] /\
    users w' = users w /\ staff w' = staff w.
Proof.
  unfold post_register, route. unfold bind at 1.
  destruct (authenticateToken_reads req w) as (w0 & mw & A & U & S & _).
  rewrite A. destruct mw as [resp|auth]; cbn.
  { apply authenticateToken_respond in A.
    do 2 eexists. split; [reflexivity|]. cbn. split; [|done]. lia. }
  unfold try_catch, bind, User_findOne_email, Staff_findOne_employee, db_query,
    emit, ask, throw, ret.
  repeat (case_match; unfold ask in *; cbn in *; simplify_eq);
    (do 2 eexists; split; [reflexivity|]; cbn; split; [lia|done]).
Qed.

(** X21. A registration that an administrator sends with a well-formed body, an
    unused email and an unused employee id, while the database answers, is
    answered 500 "Registration failed" with the error of the unbound name
    [sequelize]. *)
Theorem well_formed_registration_fails req b salt w token u :
  accepted req w token u ->
  role u = "admin" ->
  register_validation b = [] ->
  List.find (fun x => visible x && String.eqb (email x) (normalizeEmail (reg_email b)))
    (users w) = None ->
  List.find (fun s => String.eqb (s_employee_id s) (trim (staff_employee_id b)))
    (staff w) = None ->
  (post_register req b salt w).2 =
    Returned (fail_with 500 "Registration failed"
                (mkExn "ReferenceError" "sequelize is not defined")).
Proof.
  intros A Ro V Fu Fs.
  destruct (authenticateToken_accepted req w token u A) as (w0 & R & U & S & _).
  destruct A as (_ & _ & _ & _ & _ & D & _).
  unfold post_register, route. unfold bind at 1. rewrite R.
  unfold try_catch, bind, User_findOne_email, Staff_findOne_employee, db_query,
    emit, ask. cbn.
  rewrite Ro. cbn. rewrite V. cbn. rewrite D. cbn. rewrite U, Fu. cbn.
  rewrite S, Fs. reflexivity.
Qed.

(** ** The password pattern *)

Lemma some_char_app p s t :
  some_char p s = true -> some_char p (s +:+ t) = true.
Proof.
  induction s as [|c s IH]; [done|].
  change (String c s +:+ t) with (String c (s +:+ t)). cbn [some_char].
  destruct (p c); [done|]. exact IH.
Qed.

Lemma first_line_app s t :
  exists rest, first_line (s +:+ t) = first_line s +:+ rest.
Proof.
  induction s as [|c s [rest IH]].
  - exists (first_line t). reflexivity.
  - change (String c s +:+ t) with (String c (s +:+ t)). cbn [first_line].
    destruct (is_line_terminator c).
    + by exists "".
    + exists rest. by rewrite IH.
Qed.

(** X22. The pattern is not anchored at its end and its character class is asked
    of the first character only: a password that matches still matches
    with anything appended to it, be it spaces, line breaks or characters
    outside the class. *)
Theorem password_pattern_ignores_what_follows s t :
  matches_password_pattern s = true ->
  matches_password_pattern (s +:+ t) = true.
Proof.
  unfold matches_password_pattern. intros M.
  destruct s as [|c s]; [by rewrite !andb_false_r in M|].
  apply andb_prop in M as [M Mc].
  apply andb_prop in M as [M M4]. apply andb_prop in M as [M M3].
  apply andb_prop in M as [M1 M2].
  destruct (first_line_app (String c s) t) as [rest ->].
  rewrite !some_char_app by done.
  change (String c s +:+ t) with (String c (s +:+ t)). cbv beta iota.
  by rewrite Mc.
Qed.

End MoreProperties.

(** * The login form's lockout *)

Lemma count_attempt_consistent now s :
  0 <= now -> AuthSlice.consistent s ->
  AuthSlice.consistent (AuthSlice.count_attempt now s).
Proof.
  intros N (A & L & Lt & Lf). unfold AuthSlice.count_attempt.
  destruct (AuthSlice.loginAttempts s + 1 >=? 5) eqn:E; unfold AuthSlice.consistent;
    cbn.
  - split_and!.
    + lia.
    + symmetry. apply bool_decide_eq_true_2. lia.
    + intros _. eexists. split; [reflexivity|]. lia.
    + done.
  - assert (AuthSlice.accountLocked s = false) as Lk.
    { rewrite L. apply bool_decide_eq_false_2. lia. }
    split; [lia|]. split; [|split; [by rewrite Lk|done]].
    rewrite Lk. symmetry. apply bool_decide_eq_false_2. lia.
Qed.

Lemma reducer_consistent now s a :
  0 <= now -> AuthSlice.consistent s ->
  AuthSlice.consistent (AuthSlice.reducer now s a).
Proof.
  intros N C. unfold AuthSlice.reducer.
  assert (AuthSlice.consistent (AuthSlice.set_lock 0 false None s)) as Reset.
  { unfold AuthSlice.consistent. cbn. split_and!; try done. }
  destruct a as [| | | | | |[|t u]|payload| | |payload| | | | | | |payload|];
    cbn [AuthSlice.case_reducer AuthSlice.matchers]; try exact C; try exact Reset.
  all: try (by apply count_attempt_consistent).
  all: try (by destruct (AuthSlice.lock_expired now s)).
  all: try (unfold AuthSlice.consistent in *; cbn; split_and!; done).
  all: try (destruct C as (A & L & Lt & Lf); unfold AuthSlice.consistent; cbn;
            split_and!; done).
Qed.

(** X23. From start-up on, whatever actions are dispatched, the form is locked
    exactly when five or more login attempts are counted, and it holds an
    expiry exactly while it is locked. *)
Theorem form_lock_tracks_the_counter stored actions :
  Forall (fun ta => 0 <= ta.1) actions ->
  AuthSlice.consistent (AuthSlice.run (AuthSlice.initialState stored) actions).
Proof.
  unfold AuthSlice.run.
  assert (AuthSlice.consistent (AuthSlice.initialState stored)) as C0.
  { unfold AuthSlice.consistent. cbn. split_and!; try done. }
  revert C0. generalize (AuthSlice.initialState stored).
  induction actions as [|[t a] rest IH]; intros s C F; [done|].
  apply Forall_cons in F as [T F]. cbn [fold_left].
  apply IH; [|done]. by apply reducer_consistent.
Qed.

(** X24. A rejected login on a locked form starts the 30 minutes again from the
    moment of the rejection; [checkLockoutExpiry] lifts the lock only when
    the clock is strictly past the expiry, and then also sets the counter
    back to 0; until then it changes nothing. *)
Theorem form_lock_is_pushed_and_lifted now s until payload :
  AuthSlice.consistent s -> 0 <= now ->
  AuthSlice.lockoutTime s = Some until ->
  AuthSlice.lockoutTime (AuthSlice.reducer now s (AuthSlice.LoginRejected payload))
    = Some (now + 30 * 60 * 1000) /\
  let s' := AuthSlice.reducer now s AuthSlice.CheckLockoutExpiry in
  (until < now ->
   AuthSlice.loginAttempts s' = 0 /\ AuthSlice.accountLocked s' = false /\
   AuthSlice.lockoutTime s' = None) /\
  (now <= until -> s' = s).
Proof.
  intros (A & L & Lt & Lf) N U.
  assert (AuthSlice.accountLocked s = true) as Lk.
  { destruct (AuthSlice.accountLocked s); [done|]. rewrite Lf in U; done. }
  destruct (Lt Lk) as (until' & U' & Pos). rewrite U in U'. injection U' as <-.
  assert (5 <= AuthSlice.loginAttempts s) as Five.
  { rewrite L in Lk. by apply bool_decide_eq_true in Lk. }
  split.
  - unfold AuthSlice.reducer.
    cbn [AuthSlice.case_reducer AuthSlice.matchers].
    unfold AuthSlice.count_attempt.
    cbn [AuthSlice.loginAttempts AuthSlice.set_status].
    by assert ((AuthSlice.loginAttempts s + 1 >=? 5) = true) as -> by lia.
  - unfold AuthSlice.reducer.
    cbn [AuthSlice.case_reducer AuthSlice.matchers].
    unfold AuthSlice.lock_expired. rewrite U.
    assert ((until =? 0) = false) as -> by lia.
    split; intros T.
    + by assert ((now >? until) = true) as -> by lia.
    + by assert ((now >? until) = false) as -> by lia.
Qed.

(** * Paging of the appointment list *)

(** X25. For a query the validators let through and [count] matching rows: the
    page size is between 1 and 100 (20 when absent), so the division is
    never by zero; the page offset is not negative; [total_pages] is the
    least number of pages that hold [count] rows; a page up to
    [total_pages] starts before the end of the rows, and a page beyond it
    starts at or after the end. *)
Theorem pages_cover_the_rows page_q limit_q count :
  Opd.valid_query page_q limit_q -> 0 <= count ->
  let p := Opd.pagination page_q limit_q count in
  let offset := Opd.offset_of page_q limit_q in
  1 <= Opd.per_page p <= 100 /\
  1 <= Opd.current_page p /\
  0 <= offset /\
  (Opd.total_pages p - 1) * Opd.per_page p < count
    <= Opd.total_pages p * Opd.per_page p /\
  (Opd.current_page p <= Opd.total_pages p -> offset < count) /\
  (Opd.total_pages p < Opd.current_page p -> count <= offset).
Proof.
  intros [Vp Vl] C p offset. subst p offset.
  unfold Opd.pagination, Opd.offset_of, Opd.page_of, Opd.limit_of,
    Opd.or_default, Opd.ceil_div. cbn.
  assert (1 <= match limit_q with
               | Some n => if n =? 0 then 20 else n
               | None => 20
               end <= 100) as Hl.
  { destruct limit_q as [l|]; [|lia]. specialize (Vl l eq_refl).
    destruct (l =? 0); lia. }
  assert (1 <= match page_q with
               | Some n => if n =? 0 then 1 else n
               | None => 1
               end) as Hp.
  { destruct page_q as [q|]; [|lia]. specialize (Vp q eq_refl).
    destruct (q =? 0); lia. }
  set (limit := match limit_q with Some _ => _ | None => _ end) in *.
  set (page := match page_q with Some _ => _ | None => _ end) in *.
  pose proof (Z.div_mod (- count) limit) as Dm.
  pose proof (Z.mod_pos_bound (- count) limit) as Mb.
  set (q := (- count) / limit) in *. set (m := (- count) mod limit) in *.
  split_and!; try lia; nia.
Qed.

(** * The further statements on the concrete hospital *)

Lemma accepted_doctor :
  @accepted libraries (request 1000 (Some "Bearer tok-u1")) hospital "tok-u1"
    doctor.
Proof.
  repeat split; try reflexivity.
  exists (mkClaims "u1" "doctor" 0 86400). repeat split; by vm_compute.
Defined.

Lemma accepted_chief :
  @accepted libraries (request 1000 (Some "Bearer tok-u1")) head_office "tok-u1"
    chief.
Proof.
  repeat split; try reflexivity.
  exists (mkClaims "u1" "doctor" 0 86400). repeat split; by vm_compute.
Defined.

Lemma stored_role_decides_access_witness :
  ((exists w' auth,
      @protected libraries ["admin"; "receptionist"]
        (request 1000 (Some "Bearer tok-u1")) "/api/opd/appointments"
        head_office = (w', Returned (Next auth))) <->
   includes ["admin"; "receptionist"] (role chief) = true) /\
  (includes ["admin"; "receptionist"] (role chief) = false ->
   exists w',
     @protected libraries ["admin"; "receptionist"]
       (request 1000 (Some "Bearer tok-u1")) "/api/opd/appointments"
       head_office =
       (w', Returned (Respond (fail 403 "Insufficient permissions"))) /\
     head (trace w') =
       Some (EvSecurity "unauthorized_access_attempt" (Some (id chief))
               (JObj [("ip", JStr (ip (request 1000 (Some "Bearer tok-u1"))));
                      ("userAgent",
                       opt_str (user_agent (request 1000 (Some "Bearer tok-u1"))));
                      ("requiredRoles",
                       JArr (List.map JStr ["admin"; "receptionist"]));
                      ("userRole", JStr (role chief));
                      ("endpoint", JStr "/api/opd/appointments")])) /\
     users w' = users head_office).
Proof.
  exact (@stored_role_decides_access libraries ["admin"; "receptionist"]
           (request 1000 (Some "Bearer tok-u1")) "/api/opd/appointments"
           head_office "tok-u1" chief accepted_chief).
Defined.

Lemma unknown_email_answers_like_wrong_password_witness :
  (@login_handler libraries (request 1000 None)
     (credentials "nobody@h.com" "stethoscope" None) hospital).2 =
    Returned (fail 401 "Invalid credentials") /\
  (@login_handler libraries (request 1000 None)
     (credentials "doc@h.com" "scalpel" None) hospital).2 =
  (@login_handler libraries (request 1000 None)
     (credentials "nobody@h.com" "stethoscope" None) hospital).2.
Proof.
  apply (@unknown_email_answers_like_wrong_password libraries
           (request 1000 None) (credentials "nobody@h.com" "stethoscope" None)
           hospital (request 1000 None)
           (credentials "doc@h.com" "scalpel" None) hospital doctor);
    try reflexivity.
  apply (bool_decide_unpack _). by vm_compute.
Defined.

Lemma login_without_code_asks_for_it_witness :
  exists w' r,
    @post_login libraries (request 1000 None)
      (credentials "nurse@h.com" "thermometer" None) hospital =
      (w', Returned r) /\
    status r = 200 /\
    json_get "data" (json r) ≫= json_get "twoFactorRequired" = Some (JBool true) /\
    token_of r = None /\
    users w' = users hospital /\
    forall key, key <> rate_key (request 1000 None) ->
      redis w' !! key = redis hospital !! key.
Proof.
  apply (@login_without_code_asks_for_it libraries (request 1000 None)
           (credentials "nurse@h.com" "thermometer" None) hospital nurse);
    reflexivity.
Defined.

Lemma token_only_after_every_check_witness :
  exists u,
    @login_validation libraries (credentials "doc@h.com" "stethoscope" None) = [] /\
    @account libraries hospital (credentials "doc@h.com" "stethoscope" None) =
      Some u /\
    is_locked 1000 u = false /\
    @verifyPassword libraries "stethoscope" (password_hash u) = true /\
    @second_factor_ok libraries (request 1000 None)
      (credentials "doc@h.com" "stethoscope" None) u = true /\
    JStr "tok-u1" = JStr (@generateToken libraries (id u) (role u) 1000).
Proof.
  eapply (@token_only_after_every_check libraries (request 1000 None)
            (credentials "doc@h.com" "stethoscope" None) hospital).
  - vm_compute. reflexivity.
  - reflexivity.
Defined.

Lemma locked_login_is_told_the_minutes_left_witness :
  let minutes := lockTimeRemaining 1800000 1000 in
  @login_handler libraries (request 1000 None)
    (credentials "doc@h.com" "stethoscope" None) hospital_after_lock =
    (mkWorld (users hospital_after_lock) (staff hospital_after_lock)
       (redis hospital_after_lock)
       (EvFindOne "doc@h.com" :: trace hospital_after_lock),
     Returned (fail 423 ("Account locked. Try again in " +:+
                         string_of_Z minutes +:+ " minutes."))) /\
  1 <= minutes /\
  (minutes - 1) * 60000 < 1800000 - 1000 <= minutes * 60000.
Proof.
  apply (@locked_login_is_told_the_minutes_left libraries (request 1000 None)
           (credentials "doc@h.com" "stethoscope" None) hospital_after_lock
           locked_doctor 1800000); try reflexivity.
Defined.

Lemma one_failure_locks_from_four_on_witness :
  exists w' u',
    @login_handler libraries (guess 5000).1 (guess 5000).2 hospital_after_four =
      (w', Returned (fail 401 "Invalid credentials")) /\
    List.find (where_email "doc@h.com") (users w') = Some u' /\
    failed_login_attempts u' = Some (4 + 1) /\
    locked_until u' = Some (5000 + 30 * 60 * 1000).
Proof.
  apply (@one_failure_locks_from_four_on libraries (guess 5000)
           hospital_after_four "doc@h.com" (set_lockout (Some 4) None doctor)).
  - apply (bool_decide_unpack _). by vm_compute.
  - reflexivity.
  - by repeat split.
  - reflexivity.
  - cbn. lia.
Defined.

Lemma login_opens_a_day_long_session_witness :
  exists w' r session,
    @post_login libraries (request 1000 None)
      (credentials "doc@h.com" "stethoscope" None) hospital = (w', Returned r) /\
    token_of r = Some (JStr "tok-u1") /\
    redis w' !! session_key "u1" "tok-u1" =
      Some (mkEntry session (Some (1000 + 24 * 60 * 60 * 1000))) /\
    forall key,
      key <> session_key "u1" "tok-u1" -> key <> rate_key (request 1000 None) ->
      redis w' !! key = redis hospital !! key.
Proof.
  apply (@login_opens_a_day_long_session libraries (request 1000 None)
           (credentials "doc@h.com" "stethoscope" None) hospital doctor).
  repeat split; by vm_compute.
Defined.

Lemma logout_closes_the_session_witness :
  exists w1 claims,
    @jwt_parse libraries "tok-u1" = Some (claims, @jwt_secret libraries) /\
    @post_logout libraries (request 1000 (Some "Bearer tok-u1")) hospital =
      (w1, Returned (mkResponse 200
         (JObj [("success", JBool true);
                ("message", JStr "Logged out successfully")]))) /\
    redis w1 !! session_key (id doctor) "tok-u1" = None /\
    denylisted "tok-u1" (exp claims) (redis w1) /\
    (forall key,
       key <> session_key (id doctor) "tok-u1" -> key <> blacklist_key "tok-u1" ->
       redis w1 !! key = redis hospital !! key) /\
    users w1 = users hospital.
Proof.
  apply (@logout_closes_the_session libraries
           (request 1000 (Some "Bearer tok-u1")) hospital "tok-u1" doctor
           accepted_doctor); reflexivity.
Defined.

Lemma failed_logout_revokes_nothing_witness :
  exists w1,
    @post_logout libraries (request_while_setex_fails 1000 (Some "Bearer tok-u1"))
      hospital = (w1, Returned (fail 500 "Logout failed")) /\
    redis w1 = redis hospital /\ users w1 = users hospital /\
    @accepted libraries (request_while_setex_fails 1000 (Some "Bearer tok-u1"))
      w1 "tok-u1" doctor.
Proof.
  apply (@failed_logout_revokes_nothing libraries
           (request_while_setex_fails 1000 (Some "Bearer tok-u1")) hospital
           "tok-u1" doctor
           (mkExn "Error" "READONLY You can't write against a read only replica")).
  - repeat split; try reflexivity.
    exists (mkClaims "u1" "doctor" 0 86400). repeat split; by vm_compute.
  - reflexivity.
Defined.

Lemma rate_counter_stays_within_ceiling_witness :
  within_ceiling "203.0.113.7" (redis (@serve_all libraries hospital traffic)).
Proof.
  apply (@rate_counter_stays_within_ceiling libraries "203.0.113.7" traffic
           hospital).
  intros e E. cbn [redis hospital] in E. by rewrite lookup_empty in E.
Defined.

Lemma limited_caller_is_released_witness :
  let w' := @serve_all libraries hospital_at_ceiling
              (logins [guess 1000; guess 2000]) in
  redis w' = redis hospital_at_ceiling /\
  users w' = users hospital_at_ceiling /\
  exists w1,
    @post_login libraries (request 900000 None)
      (credentials "doc@h.com" "stethoscope" None) w' =
    @login_handler libraries (request 900000 None)
      (credentials "doc@h.com" "stethoscope" None) w1 /\
    users w1 = users hospital_at_ceiling /\
    redis w1 !! ("auth_rate_limit:" +:+ "203.0.113.7") =
      Some (mkEntry (string_of_Z 1) (Some (900000 + 15 * 60 * 1000))).
Proof.
  apply (@limited_caller_is_released libraries hospital_at_ceiling
           "203.0.113.7" 900000 [guess 1000; guess 2000]
           (request 900000 None)
           (credentials "doc@h.com" "stethoscope" None)).
  - by vm_compute.
  - repeat constructor; by vm_compute.
  - reflexivity.
  - by vm_compute.
  - reflexivity.
  - reflexivity.
Defined.

Lemma second_word_of_header_is_the_token_witness :
  (authorization (request 1000 (Some "Basic tok-u1")) =
     Some ("Basic" +:+ " " +:+ "tok-u1") ->
   bearer_token (request 1000 (Some "Basic tok-u1")) = Some "tok-u1") /\
  (authorization (request 1000 (Some "Basic tok-u1")) = Some "tok-u1" ->
   truthy (bearer_token (request 1000 (Some "Basic tok-u1"))) = false).
Proof.
  apply (second_word_of_header_is_the_token
           (request 1000 (Some "Basic tok-u1")) "Basic" "tok-u1");
    reflexivity.
Defined.

Lemma me_response_hides_credentials_witness :
  exists r,
    (@get_me libraries (request 1000 (Some "Bearer tok-u2")) hospital).2 =
      Returned r /\
    status r = 200 /\
    hides_credentials r.
Proof.
  eexists. split; [vm_compute; reflexivity|]. split; [reflexivity|].
  apply (@me_response_hides_credentials libraries
           (request 1000 (Some "Bearer tok-u2")) hospital).
  vm_compute. reflexivity.
Defined.

Lemma second_factor_enrolled_only_by_a_valid_code_witness :
  let req := request 1000 (Some "Bearer tok-u2") in
  let w' := (@post_verify_2fa_setup libraries req "492039"
               hospital_enrolling_nurse).1 in
  exists token u,
    @accepted libraries req hospital_enrolling_nurse token u /\
    str_length "492039" = 6 /\
    truthy (two_factor_secret u) = true /\
    @verifyTwoFactorToken libraries "492039" (two_factor_secret u) (now req) =
      true /\
    List.find (where_pk (id u)) (users w') =
      Some (set_two_factor true (two_factor_secret u) u) /\
    redis w' = redis hospital_enrolling_nurse.
Proof.
  eapply (@second_factor_enrolled_only_by_a_valid_code libraries
            (request 1000 (Some "Bearer tok-u2")) "492039"
            hospital_enrolling_nurse).
  - vm_compute. reflexivity.
  - reflexivity.
Defined.

Lemma second_factor_dropped_only_with_the_password_witness :
  let req := request 1000 (Some "Bearer tok-u2") in
  let w' := (@post_disable_2fa libraries req "thermometer" hospital).1 in
  exists token u,
    @accepted libraries req hospital token u /\
    @verifyPassword libraries "thermometer" (password_hash u) = true /\
    List.find (where_pk (id u)) (users w') = Some (set_two_factor false None u) /\
    (forall reqL b,
       @second_factor_ok libraries reqL b (set_two_factor false None u) = true) /\
    redis w' = redis hospital.
Proof.
  eapply (@second_factor_dropped_only_with_the_password libraries
            (request 1000 (Some "Bearer tok-u2")) "thermometer" hospital).
  - vm_compute. reflexivity.
  - reflexivity.
Defined.

Lemma password_changed_only_with_the_current_one_witness :
  let req := request 1000 (Some "Bearer tok-u1") in
  let w' := (@post_change_password libraries hasher req new_password
               "$2a$12$N9qo8uLOickgx2ZMRZoMye" hospital).1 in
  exists token u,
    @accepted libraries req hospital token u /\
    @verifyPassword libraries (currentPassword new_password) (password_hash u) =
      true /\
    8 <= str_length (newPassword new_password) /\
    matches_password_pattern (newPassword new_password) = true /\
    List.find (where_pk (id u)) (users w') =
      Some (set_password_hash
              (@bcrypt_hash hasher (newPassword new_password) 12
                 "$2a$12$N9qo8uLOickgx2ZMRZoMye") u) /\
    redis w' = redis hospital /\
    @accepted libraries req w' token
      (set_password_hash
         (@bcrypt_hash hasher (newPassword new_password) 12
            "$2a$12$N9qo8uLOickgx2ZMRZoMye") u).
Proof.
  eapply (@password_changed_only_with_the_current_one libraries hasher
            (request 1000 (Some "Bearer tok-u1")) new_password
            "$2a$12$N9qo8uLOickgx2ZMRZoMye" hospital).
  - vm_compute. reflexivity.
  - reflexivity.
Defined.

Lemma well_formed_registration_fails_witness :
  (@post_register libraries hasher (request 1000 (Some "Bearer tok-u1"))
     new_colleague "$2a$12$N9qo8uLOickgx2ZMRZoMye" head_office).2 =
    Returned (fail_with 500 "Registration failed"
                (mkExn "ReferenceError" "sequelize is not defined")).
Proof.
  apply (@well_formed_registration_fails libraries hasher
           (request 1000 (Some "Bearer tok-u1")) new_colleague
           "$2a$12$N9qo8uLOickgx2ZMRZoMye" head_office "tok-u1" chief
           accepted_chief); by vm_compute.
Defined.

Lemma password_pattern_ignores_what_follows_witness :
  matches_password_pattern ("Scalpel@2025" +:+ " and spaces ~") =
    true.
Proof.
  apply (password_pattern_ignores_what_follows "Scalpel@2025"
           " and spaces ~").
  reflexivity.
Defined.

Lemma form_lock_tracks_the_counter_witness :
  AuthSlice.consistent
    (AuthSlice.run (AuthSlice.initialState (Some "tok-u1"))
       [(1000, AuthSlice.LoginPending);
        (1200, AuthSlice.LoginRejected (Some (JStr "Invalid credentials")));
        (2000, AuthSlice.LoginRejected None);
        (3000, AuthSlice.IncrementLoginAttempts);
        (4000, AuthSlice.LoginRejected None);
        (5000, AuthSlice.LoginRejected None);
        (6000, AuthSlice.CheckLockoutExpiry);
        (1900000, AuthSlice.CheckLockoutExpiry);
        (1900500, AuthSlice.LoginFulfilled AuthSlice.SecondFactorNeeded)]).
Proof.
  apply (form_lock_tracks_the_counter (Some "tok-u1")).
  repeat constructor; by vm_compute.
Defined.

Lemma form_lock_is_pushed_and_lifted_witness :
  let s := AuthSlice.mkState None None false false None false 5 true
             (Some 1800000) in
  AuthSlice.lockoutTime
    (AuthSlice.reducer 600000 s (AuthSlice.LoginRejected None))
    = Some (600000 + 30 * 60 * 1000) /\
  let s' := AuthSlice.reducer 600000 s AuthSlice.CheckLockoutExpiry in
  (1800000 < 600000 ->
   AuthSlice.loginAttempts s' = 0 /\ AuthSlice.accountLocked s' = false /\
   AuthSlice.lockoutTime s' = None) /\
  (600000 <= 1800000 -> s' = s).
Proof.
  apply (form_lock_is_pushed_and_lifted 600000
           (AuthSlice.mkState None None false false None false 5 true
              (Some 1800000)) 1800000 None).
  - unfold AuthSlice.consistent. cbn. split_and!.
    + lia.
    + reflexivity.
    + intros _. exists 1800000. split; [reflexivity|lia].
    + discriminate.
  - lia.
  - reflexivity.
Defined.

Lemma pages_cover_the_rows_witness :
  let p := Opd.pagination (Some 3) None 41 in
  let offset := Opd.offset_of (Some 3) None in
  1 <= Opd.per_page p <= 100 /\
  1 <= Opd.current_page p /\
  0 <= offset /\
  (Opd.total_pages p - 1) * Opd.per_page p < 41
    <= Opd.total_pages p * Opd.per_page p /\
  (Opd.current_page p <= Opd.total_pages p -> offset < 41) /\
  (Opd.total_pages p < Opd.current_page p -> 41 <= offset).
Proof.
  apply (pages_cover_the_rows (Some 3) None 41).
  - split.
    + intros p [= <-]. lia.
    + intros l E. discriminate E.
  - lia.
Defined.

Lemma enable_2fa_spares_enrolled_accounts_witness :
  let w' := (@post_enable_2fa libraries (request 1000 (Some "Bearer tok-u1"))
               "KRUGS4ZANFZSAYJA" hospital).1 in
  List.map two_factor_enabled (users w') =
    List.map two_factor_enabled (users hospital) /\
  (forall u, In u (users hospital) -> two_factor_enabled u = true ->
             In u (users w')) /\
  redis w' = redis hospital.
Proof.
  apply (@enable_2fa_spares_enrolled_accounts libraries
           (request 1000 (Some "Bearer tok-u1")) "KRUGS4ZANFZSAYJA" hospital).
  apply (bool_decide_unpack _). by vm_compute.
Defined.
